(** * config_editor.py: canonical JSON, CRC32 and HMAC-SHA256 of config files

    A shallow embedding of [tools/config_editor.py] and of the parts of the
    Python runtime it calls ([str], [dict], [json.dumps], [binascii.crc32],
    [hmac]/[hashlib.sha256]), followed by the properties of the
    canonicalisation and integrity protocol. *)

From Stdlib Require Import ZArith NArith Lia List Ascii String SpecFloat.
From stdpp Require Import base option list sorting gmap strings pretty.

Local Open Scope N_scope.

(** ** Python values the program handles *)

(** A Python [str] is a sequence of code points; surrogates may occur alone
    ([json.load] accepts an escaped lone surrogate, and [sys.argv] may hold
    one), which is what makes [str.encode] partial. *)
Definition codepoint := N.
Definition pystr := list codepoint.
Definition pybytes := list N.

(** A literal of the source, written in ASCII. *)
Definition py (s : string) : pystr := N_of_ascii <$> list_ascii_of_string s.

(** Exceptions the modelled code can raise. *)
Inductive exn :=
  | AttributeError
  | TypeError
  | UnicodeEncodeError
  | FileNotFoundError
  | JSONDecodeError.

Inductive result (A : Type) :=
  | Return (a : A)
  | Raise (e : exn).
Arguments Return {A} a.
Arguments Raise {A} e.

Global Instance result_ret : MRet result := @Return.
Global Instance result_bind : MBind result := λ A B k m,
  match m with
  | Return a => k a
  | Raise e => Raise e
  end.

(** [s1 < s2] on [str]: lexicographic on code points, a proper prefix first. *)
Fixpoint str_lt (s1 s2 : pystr) : bool :=
  match s1, s2 with
  | _, [] => false
  | [], _ :: _ => true
  | c1 :: r1, c2 :: r2 =>
      match N.compare c1 c2 with
      | Lt => true
      | Gt => false
      | Eq => str_lt r1 r2
      end
  end.

Definition str_le (s1 s2 : pystr) : bool := negb (str_lt s2 s1).

(** ** [str.encode('utf-8')] *)
Module Utf8.

Definition cont (c : N) (k : N) : N := N.lor 0x80 (N.land (N.shiftr c k) 0x3F).

(** One code point; [None] is the [UnicodeEncodeError] of a surrogate. *)
Definition encode_char (c : codepoint) : option pybytes :=
  if c <? 0x80 then Some [c]
  else if c <? 0x800 then Some [N.lor 0xC0 (N.shiftr c 6); cont c 0]
  else if c <? 0x10000 then
    if (0xD800 <=? c) && (c <=? 0xDFFF) then None
    else Some [N.lor 0xE0 (N.shiftr c 12); cont c 6; cont c 0]
  else if c <? 0x110000 then
    Some [N.lor 0xF0 (N.shiftr c 18); cont c 12; cont c 6; cont c 0]
  else None.

Fixpoint encode (s : pystr) : option pybytes :=
  match s with
  | [] => Some []
  | c :: r =>
      match encode_char c, encode r with
      | Some b, Some bs => Some (b ++ bs)
      | _, _ => None
      end
  end.

End Utf8.

Definition str_encode (s : pystr) : result pybytes :=
  match Utf8.encode s with
  | Some b => Return b
  | None => Raise UnicodeEncodeError
  end.

(** ** Hexadecimal rendering: [format(n, 'x')], zero padding, [hexdigest] *)
Module Hex.

(** '0'..'9' are 48..57, 'a'..'f' are 97..102. *)
Definition digit (d : N) : codepoint := if d <? 10 then 48 + d else 87 + d.

(** Digits of [n], least significant first, none for 0. *)
Fixpoint digits_le (fuel : nat) (n : N) : list N :=
  match fuel with
  | O => []
  | S f => if n =? 0 then [] else (n mod 16) :: digits_le f (n / 16)
  end.

(** [format(n, 'x')] for [n >= 0]. *)
Definition format_x (n : N) : pystr :=
  if n =? 0 then [digit 0]
  else digit <$> rev (digits_le (N.to_nat (N.size n)) n).

(** The [0w] part of a format spec: left padding with '0' up to width [w]. *)
Definition zero_pad (w : nat) (s : pystr) : pystr :=
  replicate (w - length s) (digit 0) ++ s.

(** [f"{n:08x}"] *)
Definition format_08x (n : N) : pystr := zero_pad 8 (format_x n).

Definition byte_hex (b : N) : pystr := [digit (b / 16); digit (b mod 16)].

(** [bytes.hex()] *)
Definition hexlify (bs : pybytes) : pystr := concat (byte_hex <$> bs).

(** Reading lowercase hexadecimal back ([int(s, 16)] on such text). *)
Definition digit_value (c : codepoint) : option N :=
  if (48 <=? c) && (c <=? 57) then Some (c - 48)
  else if (97 <=? c) && (c <=? 102) then Some (c - 87)
  else None.

Definition is_lower_hex (c : codepoint) : bool :=
  match digit_value c with Some _ => true | None => false end.

Fixpoint value_from (acc : N) (s : pystr) : option N :=
  match s with
  | [] => Some acc
  | c :: r =>
      match digit_value c with
      | Some d => value_from (16 * acc + d) r
      | None => None
      end
  end.

Definition value (s : pystr) : option N := value_from 0 s.

End Hex.

(** ** [binascii.crc32]: zlib's CRC-32 *)
Module Crc32.

(** The reflected form of the polynomial
    x^32+x^26+x^23+x^22+x^16+x^12+x^11+x^10+x^8+x^7+x^5+x^4+x^2+x+1. *)
Definition poly : N := 0xEDB88320.

Definition step (c : N) : N :=
  if N.testbit c 0 then N.lxor (N.shiftr c 1) poly else N.shiftr c 1.

Definition feed (c : N) (b : N) : N := Nat.iter 8 step (N.lxor c b).

(** [crc32(data, value)]: the running value is kept complemented. *)
Definition update (value : N) (data : pybytes) : N :=
  N.lxor (fold_left feed data (N.lxor value 0xFFFFFFFF)) 0xFFFFFFFF.

(** [binascii.crc32(data)]: seed 0. *)
Definition crc32 (data : pybytes) : N := update 0 data.

End Crc32.

(** ** [hashlib.sha256] and [hmac.new(key, msg, hashlib.sha256)] *)
Module Sha256.

Definition wrap (x : N) : N := x mod 2 ^ 32.
Definition add (a b : N) : N := wrap (a + b).
Definition rotr (k : N) (x : N) : N :=
  wrap (N.lor (N.shiftr x k) (N.shiftl x (32 - k))).
Definition lnot (x : N) : N := N.lxor x 0xFFFFFFFF.

Definition Ch (x y z : N) := N.lxor (N.land x y) (N.land (lnot x) z).
Definition Maj (x y z : N) :=
  N.lxor (N.lxor (N.land x y) (N.land x z)) (N.land y z).
Definition Sigma0 x := N.lxor (N.lxor (rotr 2 x) (rotr 13 x)) (rotr 22 x).
Definition Sigma1 x := N.lxor (N.lxor (rotr 6 x) (rotr 11 x)) (rotr 25 x).
Definition sigma0 x := N.lxor (N.lxor (rotr 7 x) (rotr 18 x)) (N.shiftr x 3).
Definition sigma1 x := N.lxor (N.lxor (rotr 17 x) (rotr 19 x)) (N.shiftr x 10).

(** Words written as eight hexadecimal digits each, one after the other. *)
Fixpoint hex_words (s : pystr) : list N :=
match s with
| a :: b :: c :: d :: e :: f :: g :: h :: r =>
    default 0 (Hex.value [a; b; c; d; e; f; g; h]) :: hex_words r
| _ => []
end.

(** The round constants: the first 32 bits of the fractional parts of the
    cube roots of the first 64 primes. *)
Definition K : list N :=
hex_words (py ("428a2f9871374491b5c0fbcfe9b5dba53956c25b59f111f1923f82a4ab1c5ed5"
               +:+ "d807aa9812835b01243185be550c7dc372be5d7480deb1fe9bdc06a7c19bf174"
               +:+ "e49b69c1efbe47860fc19dc6240ca1cc2de92c6f4a7484aa5cb0a9dc76f988da"
               +:+ "983e5152a831c66db00327c8bf597fc7c6e00bf3d5a7914706ca635114292967"
               +:+ "27b70a852e1b21384d2c6dfc53380d13650a7354766a0abb81c2c92e92722c85"
               +:+ "a2bfe8a1a81a664bc24b8b70c76c51a3d192e819d6990624f40e3585106aa070"
               +:+ "19a4c1161e376c082748774c34b0bcb5391c0cb34ed8aa4a5b9cca4f682e6ff3"
               +:+ "748f82ee78a5636f84c878148cc7020890befffaa4506cebbef9a3f7c67178f2")).

Record state := State { ha : N; hb : N; hc : N; hd : N;
                        he : N; hf : N; hg : N; hh : N }.

Definition init : state :=
  State 0x6a09e667 0xbb67ae85 0x3c6ef372 0xa54ff53a
        0x510e527f 0x9b05688c 0x1f83d9ab 0x5be0cd19.

(** Big-endian bytes of a value, [k] of them. *)
Fixpoint be_bytes (k : nat) (x : N) : pybytes :=
  match k with
  | O => []
  | S k' => (x / 2 ^ (8 * N.of_nat k')) mod 256 :: be_bytes k' x
  end.

(** Message padding: 0x80, zeros up to 56 mod 64, the bit length on 8 bytes. *)
Definition pad (msg : pybytes) : pybytes :=
  let n := length msg in
  msg ++ [0x80] ++ replicate ((119 - n mod 64) mod 64)%nat 0
      ++ be_bytes 8 (8 * N.of_nat n).

Fixpoint words (bs : pybytes) : list N :=
  match bs with
  | b0 :: b1 :: b2 :: b3 :: r =>
      (b0 * 2 ^ 24 + b1 * 2 ^ 16 + b2 * 2 ^ 8 + b3) :: words r
  | _ => []
  end.

Fixpoint blocks (n : nat) (ws : list N) : list (list N) :=
  match n with
  | O => []
  | S n' => take 16 ws :: blocks n' (drop 16 ws)
  end.

Definition at_ (w : list N) (i : nat) : N := nth i w 0.

(** One more word of the message schedule. *)
Definition extend (w : list N) : list N :=
  let t := length w in
  w ++ [add (add (sigma1 (at_ w (t - 2))) (at_ w (t - 7)))
            (add (sigma0 (at_ w (t - 15))) (at_ w (t - 16)))].

Definition schedule (block : list N) : list N := Nat.iter 48 extend block.

Definition round (s : state) (kw : N * N) : state :=
  let '(State a b c d e f g h) := s in
  let t1 := add (add (add h (Sigma1 e)) (add (Ch e f g) kw.1)) kw.2 in
  let t2 := add (Sigma0 a) (Maj a b c) in
  State (add t1 t2) a b c (add d t1) e f g.

Definition compress (s : state) (block : list N) : state :=
  let '(State a b c d e f g h) := fold_left round (zip K (schedule block)) s in
  State (add (ha s) a) (add (hb s) b) (add (hc s) c) (add (hd s) d)
        (add (he s) e) (add (hf s) f) (add (hg s) g) (add (hh s) h).

Definition digest_of (s : state) : pybytes :=
  be_bytes 4 (ha s) ++ be_bytes 4 (hb s) ++ be_bytes 4 (hc s) ++ be_bytes 4 (hd s)
  ++ be_bytes 4 (he s) ++ be_bytes 4 (hf s) ++ be_bytes 4 (hg s) ++ be_bytes 4 (hh s).

(** [hashlib.sha256(msg).digest()] *)
Definition sha256 (msg : pybytes) : pybytes :=
  let ws := words (pad msg) in
  digest_of (fold_left compress (blocks (length ws / 16) ws) init).

End Sha256.

Module Hmac.

Definition block_size : nat := 64.

(** Keys longer than a block are hashed, then padded with zeros. *)
Definition block_key (key : pybytes) : pybytes :=
  let k := if decide (block_size < length key)%nat then Sha256.sha256 key else key in
  k ++ replicate (block_size - length k) 0.

(** [hmac.new(key, msg, hashlib.sha256).digest()] *)
Definition hmac_sha256 (key msg : pybytes) : pybytes :=
  let k := block_key key in
  Sha256.sha256 ((N.lxor 0x5c <$> k)
                 ++ Sha256.sha256 ((N.lxor 0x36 <$> k) ++ msg)).

End Hmac.

(** ** JSON values, as [json.load] builds them *)

#[local] Set Warnings "-register-all".

(** A [dict] keeps insertion order and has no duplicate key: an association
    list whose keys are distinct ([wf] below).  Keys are [str]: every mapping
    the program sees comes from [json.load], from a literal with [str] keys or
    from [str.split]. *)
Inductive value :=
  | JNull
  | JBool (b : bool)
  | JInt (z : Z)
  | JFloat (f : spec_float)
  | JStr (s : pystr)
  | JList (l : list value)
  | JDict (d : list (pystr * value)).

Definition pydict := list (pystr * value).

(** What the program takes from the interpreter without this file defining it. *)
Class Builtins := {
  (** [float.__repr__] of a finite float *)
  float_repr : spec_float → pystr;
  float_repr_ascii : ∀ f, Forall (λ c, c < 128) (float_repr f);
  (** [int(s)] of a [str]; [None] is [ValueError] *)
  int_of_str : pystr → option Z;
}.

Module Dict.
Section ops.
Context {V : Type}.
Implicit Types (d : list (pystr * V)) (k : pystr).

(** [d.get(k)], [d[k]], [k in d] *)
Fixpoint get k d : option V :=
  match d with
  | [] => None
  | (k', v) :: r => if decide (k' = k) then Some v else get k r
  end.

(** [d[k] = v]: an existing key keeps its position, a new one goes last. *)
Fixpoint set k (v : V) d : list (pystr * V) :=
  match d with
  | [] => [(k, v)]
  | (k', v') :: r => if decide (k' = k) then (k, v) :: r else (k', v') :: set k v r
  end.

(** The mapping left by [d.pop(k, default)]. *)
Fixpoint remove k d : list (pystr * V) :=
  match d with
  | [] => []
  | (k', v) :: r => if decide (k' = k) then remove k r else (k', v) :: remove k r
  end.

Definition keys d : list pystr := fst <$> d.

(** One step of a stable sort that only uses [<] on the keys. *)
Fixpoint insert_sorted (x : pystr * V) d : list (pystr * V) :=
  match d with
  | [] => [x]
  | y :: r => if str_lt y.1 x.1 then y :: insert_sorted x r else x :: y :: r
  end.

(** [sorted(d.items())]: the keys are distinct, so comparing two items
    never reaches their values. *)
Definition sorted_items d : list (pystr * V) := foldr insert_sorted [] d.
End ops.
End Dict.

Fixpoint join (sep : pystr) (parts : list pystr) : pystr :=
  match parts with
  | [] => []
  | [p] => p
  | p :: r => p ++ sep ++ join sep r
  end.

(** Truth value of an object: [bool(v)], [not v], [if v]. *)
Definition truthy (v : value) : bool :=
  match v with
  | JNull => false
  | JBool b => b
  | JInt z => negb (z =? 0)%Z
  | JFloat (S754_zero _) => false
  | JFloat _ => true
  | JStr s => negb (bool_decide (s = []))
  | JList l => match l with [] => false | _ => true end
  | JDict d => match d with [] => false | _ => true end
  end.

(** [a or b] *)
Definition py_or (a b : value) : value := if truthy a then a else b.

(** [d.get(k)] with the default [None]. *)
Definition get_or_none (k : pystr) (d : pydict) : value :=
  default JNull (Dict.get k d).

(** [v == s] for a [str] [s]: only an equal [str] compares equal. *)
Definition eq_str (v : value) (s : pystr) : bool :=
  match v with
  | JStr t => bool_decide (t = s)
  | _ => false
  end.

(** Every [str] of the value, keys included, has a UTF-8 encoding. *)
Fixpoint encodable (v : value) : bool :=
  match v with
  | JStr s => bool_decide (is_Some (Utf8.encode s))
  | JList l => forallb encodable l
  | JDict d =>
      forallb (λ kv, bool_decide (is_Some (Utf8.encode kv.1)) && encodable kv.2) d
  | _ => true
  end.

(** The [dict] invariant, at every depth. *)
Fixpoint wf (v : value) : Prop :=
  match v with
  | JList l => foldr (λ x P, wf x ∧ P) True l
  | JDict d => NoDup (Dict.keys d) ∧ foldr (λ kv P, wf kv.2 ∧ P) True d
  | _ => True
  end.

(** ** [json.dumps(..., ensure_ascii=False)] *)
Module Json.
Section encoder.
Context `{Builtins}.

(** [ESCAPE_DCT]: quote, backslash and the control characters. *)
Definition escape_char (c : codepoint) : pystr :=
  if c =? 34 then [92; 34]
  else if c =? 92 then [92; 92]
  else if c =? 8 then [92; 98]
  else if c =? 12 then [92; 102]
  else if c =? 10 then [92; 110]
  else if c =? 13 then [92; 114]
  else if c =? 9 then [92; 116]
  else if c <? 32 then [92; 117] ++ Hex.zero_pad 4 (Hex.format_x c)
  else [c].

(** [py_encode_basestring] *)
Definition encode_basestring (s : pystr) : pystr :=
  [34] ++ concat (escape_char <$> s) ++ [34].

(** [floatstr] with [allow_nan=True] *)
Definition floatstr (f : spec_float) : pystr :=
  match f with
  | S754_nan => py "NaN"
  | S754_infinity false => py "Infinity"
  | S754_infinity true => py "-Infinity"
  | _ => float_repr f
  end.

Definition render_item (key_separator : pystr) (kt : pystr * pystr) : pystr :=
  encode_basestring kt.1 ++ key_separator ++ kt.2.

(** The encoder without indentation.  Python sorts the items and then
    encodes each value; here each value is encoded where it stands in the
    mapping and the (key, text) pairs are sorted, which is the same list
    since the order only looks at keys (lemma [dumps_dict] in the second
    part states the equation in Python's order). *)
Fixpoint dumps (item_separator key_separator : pystr) (sort_keys : bool)
    (v : value) : pystr :=
  match v with
  | JNull => py "null"
  | JBool true => py "true"
  | JBool false => py "false"
  | JInt z => py (pretty z)
  | JFloat f => floatstr f
  | JStr s => encode_basestring s
  | JList l =>
      py "[" ++ join item_separator
                  (dumps item_separator key_separator sort_keys <$> l) ++ py "]"
  | JDict d =>
      let items :=
        (λ kv, (kv.1, dumps item_separator key_separator sort_keys kv.2)) <$> d in
      py "{" ++ join item_separator
                  (render_item key_separator <$>
                     (if sort_keys then Dict.sorted_items items else items))
             ++ py "}"
  end.

End encoder.
End Json.

(** ** The world the tool runs in: files, the clock, standard output *)

(** A file is modelled by what [json.load] returns on it: the document it
    holds ([json.dump] of a tree followed by [json.load] gives the same tree,
    key order included), or text that is not JSON. *)
Inductive file :=
  | JsonText (doc : value)
  | OtherText.

(** One constructor per [print] of the two operations, with the values the
    format string interpolates. *)
Inductive line :=
  | SavedTo (filepath : string)
  | SavedCrc (crc_hex : pystr)
  | SavedHmac (hmac_prefix : pystr)
  | NoMetadataFound
  | CrcLine (crc_valid : bool) (stored_crc : value) (calc_crc : pystr)
  | HmacLine (hmac_valid : bool) (stored_prefix : value) (calc_prefix : pystr).

Record world := World {
  files : gmap string file;
  (** what [datetime.now().strftime('%Y-%m-%d %H:%M:%S')] returns *)
  clock : pystr;
  stdout : list line;
}.

(** State and exceptions: an exception keeps the world reached so far. *)
Definition io (A : Type) : Type := world → result A * world.

Global Instance io_ret : MRet io := λ A a w, (Return a, w).
Global Instance io_bind : MBind io := λ A B k m w,
  match m w with
  | (Return a, w') => k a w'
  | (Raise e, w') => (Raise e, w')
  end.

Definition lift {A} (r : result A) : io A := λ w, (r, w).

(** What [print] can write.  Standard output encodes its text as UTF-8 (the
    messages themselves need it), so a [str] with a lone surrogate cannot be
    written.  Formatting a value that is not a [str] gives its [repr], in
    which the strings it holds are escaped. *)
Definition writable (s : pystr) : bool := bool_decide (is_Some (Utf8.encode s)).

Definition printable (v : value) : bool :=
  match v with
  | JStr s => writable s
  | _ => true
  end.

Definition line_ok (l : line) : bool :=
  match l with
  | SavedTo _ => true
  | SavedCrc crc_hex => writable crc_hex
  | SavedHmac hmac_prefix => writable hmac_prefix
  | NoMetadataFound => true
  | CrcLine _ stored_crc calc_crc => printable stored_crc && writable calc_crc
  | HmacLine _ stored_prefix calc_prefix => printable stored_prefix && writable calc_prefix
  end.

(** [print(...)]: the line is written, or [UnicodeEncodeError] is raised and
    nothing of the line is. *)
Definition print (l : line) : io unit := λ w,
  if line_ok l
  then (Return (), World (files w) (clock w) (stdout w ++ [l]))
  else (Raise UnicodeEncodeError, w).

Definition now : io pystr := λ w, (Return (clock w), w).

(** [with open(filepath, 'r') as f: json.load(f)] *)
Definition read_json (filepath : string) : io value := λ w,
  match files w !! filepath with
  | Some (JsonText doc) => (Return doc, w)
  | Some OtherText => (Raise JSONDecodeError, w)
  | None => (Raise FileNotFoundError, w)
  end.

(** [with open(filepath, 'w', encoding='utf-8') as f: json.dump(doc, f, ...)]:
    a [str] without a UTF-8 encoding stops the dump part-way, which leaves
    text that is not a JSON document. *)
Definition write_json (filepath : string) (doc : value) : io unit := λ w,
  if encodable doc
  then (Return (), World (<[filepath := JsonText doc]> (files w)) (clock w) (stdout w))
  else (Raise UnicodeEncodeError,
        World (<[filepath := OtherText]> (files w)) (clock w) (stdout w)).

(** ** tools/config_editor.py *)
Module ConfigEditor.
Section program.
Context `{Builtins}.

Definition calculate_crc32 (data : pystr) : result pystr :=
  bytes ← str_encode data;
  let crc := N.land (Crc32.crc32 bytes) 0xFFFFFFFF in
  mret (Hex.format_08x crc).

Definition calculate_hmac_sha256 (data secret : pystr) : result pystr :=
  key ← str_encode secret;
  msg ← str_encode data;
  mret (Hex.hexlify (Hmac.hmac_sha256 key msg)).

Definition dump_compact_sorted (obj : value) : pystr :=
  Json.dumps (py ",") (py ":") true obj.

Definition load_config (filepath : string) : io value := read_json filepath.

(** [if secret:] on an [Optional[str]] *)
Definition given (secret : option pystr) : option pystr :=
  match secret with
  | Some (c :: s) => Some (c :: s)
  | _ => None
  end.

(** [int(f)] of a float: towards zero; [None] for NaN and the infinities. *)
Definition float_trunc (f : spec_float) : option Z :=
  match f with
  | S754_zero _ => Some 0%Z
  | S754_finite s m e =>
      let a := if (0 <=? e)%Z then (Z.pos m * 2 ^ e)%Z else (Z.pos m / 2 ^ (- e))%Z in
      Some (if s then (- a)%Z else a)
  | _ => None
  end.

(** [int(v)]; [None] when it raises. *)
Definition py_int (v : value) : option Z :=
  match v with
  | JBool b => Some (if b then 1 else 0)%Z
  | JInt z => Some z
  | JFloat f => float_trunc f
  | JStr s => int_of_str s
  | _ => None
  end.

(** [v[:16]]: a [str] or a [list] can be sliced, nothing else among the
    values [json.load] builds (a [dict] raises [KeyError] instead from
    Python 3.12 on; the model does not tell the two apart). *)
Definition slice16 (v : value) : result value :=
  match v with
  | JStr s => Return (JStr (take 16 s))
  | JList l => Return (JList (take 16 l))
  | _ => Raise TypeError
  end.

Definition k_metadata : pystr := py "__metadata__".
Definition k_update_policy : pystr := py "__update_policy__".

(** [data.copy()] followed by [.pop(key, default)]: only a [dict] has both. *)
Definition as_dict (data : value) : result pydict :=
  match data with
  | JDict d => Return d
  | JList _ => Raise TypeError
  | _ => Raise AttributeError
  end.

(** [v.get]: only a [dict] has it. *)
Definition with_get (v : value) : result pydict :=
  match v with
  | JDict d => Return d
  | _ => Raise AttributeError
  end.

(** [metadata] is the object held by [data], so the assignments below also
    change the caller's [data]; the function itself never reads it through
    [data] again, and [main] returns right after the call.  Opening the file
    is taken to succeed. *)
Definition save_config (filepath : string) (data : value)
    (secret : option pystr) : io unit :=
  data_items ← lift (as_dict data);
  let metadata := default (JDict []) (Dict.get k_metadata data_items) in
  let config_copy := Dict.remove k_metadata data_items in
  let config_copy := Dict.remove k_update_policy config_copy in
  let core_json := dump_compact_sorted (JDict config_copy) in
  crc_hex ← lift (calculate_crc32 core_json);
  let metadata := match metadata with JDict m => m | _ => [] end in
  let metadata := Dict.set (py "crc") (JStr crc_hex) metadata in
  let version := default 1%Z (py_int (default (JInt 1) (Dict.get (py "version") metadata))) in
  let metadata := Dict.set (py "version") (JInt version) metadata in
  let metadata :=
    Dict.set (py "description")
             (default (JStr []) (Dict.get (py "description") metadata)) metadata in
  let metadata :=
    Dict.set (py "encrypted")
             (JBool (truthy (default (JBool false) (Dict.get (py "encrypted") metadata))))
             metadata in
  metadata ← lift (match given secret with
                   | Some s =>
                       h ← calculate_hmac_sha256 core_json s;
                       mret (Dict.set (py "hmac") (JStr h) metadata)
                   | None => mret (Dict.remove (py "hmac") metadata)
                   end);
  timestamp ← now;
  let metadata := Dict.set (py "timestamp") (JStr timestamp) metadata in
  let final_config := [(k_metadata, JDict metadata)] in
  let final_config :=
    match Dict.get k_update_policy data_items with
    | Some policy => Dict.set k_update_policy policy final_config
    | None => final_config
    end in
  let final_config :=
    foldl (λ acc kv, Dict.set kv.1 kv.2 acc) final_config config_copy in
  _ ← write_json filepath (JDict final_config);
  _ ← print (SavedTo filepath);
  _ ← print (SavedCrc crc_hex);
  match given secret with
  | Some _ => print (SavedHmac (take 16 (match get_or_none (py "hmac") metadata with
                                         | JStr h => h
                                         | _ => []
                                         end)))
  | None => mret ()
  end.

Definition verify_config (filepath : string) (secret : option pystr) : io bool :=
  data ← load_config filepath;
  data_items ← lift (with_get data);
  let metadata := default (JDict []) (Dict.get k_metadata data_items) in
  if negb (truthy metadata) then
    _ ← print NoMetadataFound;
    mret false
  else
    metadata ← lift (with_get metadata);
    let stored_crc := py_or (get_or_none (py "crc") metadata)
                            (get_or_none (py "crc32") metadata) in
    let stored_hmac := get_or_none (py "hmac") metadata in
    let config_copy := Dict.remove k_metadata data_items in
    let config_copy := Dict.remove k_update_policy config_copy in
    let core_json := dump_compact_sorted (JDict config_copy) in
    calc_crc ← lift (calculate_crc32 core_json);
    let crc_valid := eq_str stored_crc calc_crc in
    _ ← print (CrcLine crc_valid stored_crc calc_crc);
    match given secret with
    | Some s =>
        if truthy stored_hmac then
          calc_hmac ← lift (calculate_hmac_sha256 core_json s);
          let hmac_valid := eq_str stored_hmac calc_hmac in
          stored_prefix ← lift (slice16 stored_hmac);
          _ ← print (HmacLine hmac_valid stored_prefix (take 16 calc_hmac));
          mret (crc_valid && hmac_valid)
        else mret crc_valid
    | None => mret crc_valid
    end.

(** The document [main] starts from under [--create]. *)
Definition new_config_items : pydict :=
  [(k_metadata, JDict [(py "version", JStr (py "1.0.0"));
                       (py "crc32", JStr []);
                       (py "hmac", JStr [])]);
   (k_update_policy, JDict [(py "default", JStr (py "on_change"))])].

Definition new_config : value := JDict new_config_items.

End program.
End ConfigEditor.


(** ** The rest of tools/config_editor.py: nested keys, display, [main] *)

(** [ValueError] is the one exception of this part that the operations
    above never raise. *)
Inductive exception :=
  | Exn (e : exn)
  | ValueError.

Inductive outcome (A : Type) :=
  | Done (a : A)
  | Failed (e : exception).
Arguments Done {A} a.
Arguments Failed {A} e.

(** [s.split(sep)] for a separator of one character: never empty, one part
    more than there are separators. *)
Fixpoint str_split (sep : codepoint) (s : pystr) : list pystr :=
  match s with
  | [] => [[]]
  | c :: r =>
      if c =? sep then [] :: str_split sep r
      else match str_split sep r with
           | p :: ps => (c :: p) :: ps
           | [] => [[c]]
           end
  end.

(** [s.split(sep, 1)]: cut at the first separator only. *)
Fixpoint str_split_once (sep : codepoint) (s : pystr) : list pystr :=
  match s with
  | [] => [[]]
  | c :: r =>
      if c =? sep then [[]; r]
      else match str_split_once sep r with
           | p :: ps => (c :: p) :: ps
           | [] => [[c]]
           end
  end.

(** [key.startswith('__')] *)
Definition startswith_dunder (key : pystr) : bool :=
  match key with
  | 95 :: 95 :: _ => true
  | _ => false
  end.

(** [str.lower] and [str.isdigit] on ASCII text, and [int] of ASCII digits. *)
Definition ascii_lower (c : codepoint) : codepoint :=
  if (65 <=? c) && (c <=? 90) then c + 32 else c.

Definition is_ascii_digit (c : codepoint) : bool := (48 <=? c) && (c <=? 57).

Definition decimal (s : pystr) : Z :=
  foldl (λ acc c, 10 * acc + (Z.of_N c - 48))%Z 0%Z s.

(** The text functions [set_nested_key] calls.  Outside ASCII they follow the
    Unicode tables and are left to the interpreter; on ASCII text they are
    the functions above.  [int] of a text is only pinned down for ASCII
    digits, and only up to 640 of them, where no interpreter setting limits
    the conversion. *)
Class Text `{Builtins} := {
  str_lower : pystr → pystr;
  str_isdigit : pystr → bool;
  (** [float(s)]; [None] is [ValueError] *)
  float_of_str : pystr → option spec_float;
  str_lower_ascii : ∀ s, Forall (λ c, c < 128) s → str_lower s = ascii_lower <$> s;
  str_isdigit_ascii : ∀ s,
    Forall (λ c, c < 128) s →
    str_isdigit s = negb (bool_decide (s = [])) && forallb is_ascii_digit s;
  int_of_str_digits : ∀ s,
    s ≠ [] → forallb is_ascii_digit s = true → (length s ≤ 640)%nat →
    int_of_str s = Some (decimal s);
}.

(** One line of [display_config]: a mapping's own line, or a value's. *)
Inductive shown :=
  | Heading (full_key : pystr)
  | Entry (full_key : pystr) (value : value).

(** Whether the line can be written: the key is text, and so is a value
    that is a [str]; any other value is shown by its [repr]. *)
Definition shown_ok (s : shown) : bool :=
  match s with
  | Heading full_key => writable full_key
  | Entry full_key val => writable full_key && printable val
  end.

(** The lines [main] itself prints. *)
Inductive report :=
  | CreatingNew (config_path : string)
  | NotFound (config_path : string)
  | UseCreate
  | NoSecretWarning
  | ConfigHeader (config_file : string)
  | Rule
  | Shown (s : shown)
  | InvalidAssignment (assignment : pystr)
  | ExpectedFormat
  | Setting (key value : pystr)
  | HintSet
  | HintVerify.

Definition report_ok (r : report) : bool :=
  match r with
  | Shown s => shown_ok s
  | InvalidAssignment assignment => writable assignment
  | Setting key val => writable key && writable val
  | _ => true
  end.

Module Tool.
Section program.
Context `{Text}.

(** Lines 76 to 90: a [str] is turned into the value it spells.  [int] is
    called outside the [try], so its [ValueError] leaves the function. *)
Definition convert (val : value) : outcome value :=
  match val with
  | JStr s =>
      if bool_decide (str_lower s = py "true") then Done (JBool true)
      else if bool_decide (str_lower s = py "false") then Done (JBool false)
      else if bool_decide (str_lower s = py "null") then Done JNull
      else if str_isdigit s then
        match int_of_str s with
        | Some z => Done (JInt z)
        | None => Failed ValueError
        end
      else
        match float_of_str s with
        | Some f => Done (JFloat f)
        | None => Done (JStr s)
        end
  | _ => Done val
  end.

(** The loop over [keys[:-1]] and the lines after it, from the object
    [current] is bound to.  The result is how the call ends and that object
    as the call leaves it.  The document is a tree ([json.load] and the
    literal in [main] build no sharing), so assigning through the reference
    [current[key]] is modelled by running the rest on that entry and putting
    it back.  Anything but a [dict] raises [TypeError] at [key not in
    current], at [current[key] = {}] or at [current[key]], whichever comes
    first. *)
Fixpoint set_from (keys : list pystr) (final_key : pystr) (val current : value)
    : outcome unit * value :=
  match keys with
  | key :: keys =>
      match current with
      | JDict d =>
          let d := match Dict.get key d with
                   | None => Dict.set key (JDict []) d
                   | Some _ => d
                   end in
          let '(r, child) :=
            set_from keys final_key val (default JNull (Dict.get key d)) in
          (r, JDict (Dict.set key child d))
      | _ => (Failed (Exn TypeError), current)
      end
  | [] =>
      match convert val with
      | Done val =>
          match current with
          | JDict d => (Done (), JDict (Dict.set final_key val d))
          | _ => (Failed (Exn TypeError), current)
          end
      | Failed e => (Failed e, current)
      end
  end.

(** Returns how the call ends and [data] as the call leaves it. *)
Definition set_nested_key (data : value) (path : pystr) (val : value)
    : outcome unit * value :=
  let keys := str_split 46 path in
  set_from (removelast keys) (List.last keys []) val data.

Fixpoint get_from (keys : list pystr) (current : value) : value :=
  match keys with
  | key :: keys =>
      match current with
      | JDict d =>
          match Dict.get key d with
          | Some v => get_from keys v
          | None => JNull
          end
      | _ => JNull
      end
  | [] => current
  end.

Definition get_nested_key (data : value) (path : pystr) : value :=
  get_from (str_split 46 path) data.

(** The lines the body of the loop of [display_config] gives for one item,
    in the order their [print]s are reached. *)
Fixpoint display_item (prefix key : pystr) (val : value) : list shown :=
  if startswith_dunder key then []
  else
    let full_key := match prefix with
                    | [] => key
                    | _ => prefix ++ py "." ++ key
                    end in
    match val with
    | JDict d =>
        Heading full_key :: concat ((λ kv, display_item full_key kv.1 kv.2) <$> d)
    | _ => [Entry full_key val]
    end.

(** The [print]s one after the other: the first line that cannot be written
    raises [UnicodeEncodeError] and ends the run. *)
Fixpoint print_all (lines : list shown) : outcome unit * list shown :=
  match lines with
  | [] => (Done (), [])
  | line :: lines =>
      if shown_ok line then
        let '(r, printed_lines) := print_all lines in (r, line :: printed_lines)
      else (Failed (Exn UnicodeEncodeError), [])
  end.

(** How the call ends and the lines it printed.  [data.items()] needs a
    [dict]; the calls the function makes on itself are on [dict]s, and
    between two [print]s nothing else can fail. *)
Definition display_config (data : value) (prefix : pystr) : outcome unit * list shown :=
  match data with
  | JDict d => print_all (concat ((λ kv, display_item prefix kv.1 kv.2) <$> d))
  | _ => (Failed (Exn AttributeError), [])
  end.

(** The parsed command line.  [sets] is [None] when [--set] was not used,
    which [main] treats like the empty list. *)
Record args := Args {
  config_file : string;
  secret : option pystr;
  sets : list pystr;
  verify : bool;
  display : bool;
  create : bool;
}.

(** How the loop over [args.sets] ends. *)
Inductive loop_end :=
  | Completed (data : value)
  | Returned (code : Z)
  | Raised (e : exception).

Fixpoint set_all (assignments : list pystr) (data : value) : loop_end * list report :=
  match assignments with
  | [] => (Completed data, [])
  | assignment :: assignments =>
      if negb (bool_decide (61 ∈ assignment)) then
        if report_ok (InvalidAssignment assignment) then
          (Returned 1, [InvalidAssignment assignment; ExpectedFormat])
        else (Raised (Exn UnicodeEncodeError), [])
      else
        match str_split_once 61 assignment with
        | [key; val] =>
            if report_ok (Setting key val) then
              match set_nested_key data key (JStr val) with
              | (Done _, data) =>
                  let '(r, out) := set_all assignments data in
                  (r, Setting key val :: out)
              | (Failed e, _) => (Raised e, [Setting key val])
              end
            else (Raised (Exn UnicodeEncodeError), [])
        | _ => (Raised ValueError, [])
        end
  end.

(** [main] after [parse_args]: the exit code or the exception that ends the
    program, the lines [main] and [display_config] printed, and the world
    with the lines of [verify_config] and [save_config] on its output.  Each
    of the two is the last thing a run does, so its lines come after all the
    others.  A path exists when the world has a file under it; paths are
    names that can be written. *)
Definition main (environ : gmap string pystr) (a : args) (w : world)
    : outcome Z * list report * world :=
  let secret := match ConfigEditor.given (secret a) with
                | Some s => Some s
                | None => environ !! "HMAC_SECRET"
                end in
  let found := bool_decide (is_Some (files w !! config_file a)) in
  if negb found && negb (create a) then
    (Done 1%Z, [NotFound (config_file a); UseCreate], w)
  else
    let out := if found then [] else [CreatingNew (config_file a)] in
    match (if found then ConfigEditor.load_config (config_file a) w
           else (Return ConfigEditor.new_config, w)) with
    | (Raise e, w) => (Failed (Exn e), out, w)
    | (Return data, w) =>
        if verify a then
          let out := out ++ match ConfigEditor.given secret with
                            | Some _ => []
                            | None => [NoSecretWarning]
                            end in
          match ConfigEditor.verify_config (config_file a) secret w with
          | (Return ok, w) => (Done (if ok then 0 else 1)%Z, out, w)
          | (Raise e, w) => (Failed (Exn e), out, w)
          end
        else if display a then
          let out := out ++ [ConfigHeader (config_file a); Rule] in
          match display_config data [] with
          | (Done _, lines) => (Done 0%Z, out ++ (Shown <$> lines), w)
          | (Failed e, lines) => (Failed e, out ++ (Shown <$> lines), w)
          end
        else
          match set_all (sets a) data with
          | (Returned code, more) => (Done code, out ++ more, w)
          | (Raised e, more) => (Failed e, out ++ more, w)
          | (Completed data, more) =>
              let out := out ++ more in
              let modified := match sets a with [] => false | _ => true end in
              if negb modified && negb (create a) then
                let out := out ++ [ConfigHeader (config_file a); Rule] in
                match display_config data [] with
                | (Done _, lines) =>
                    (Done 0%Z, out ++ (Shown <$> lines) ++ [HintSet; HintVerify], w)
                | (Failed e, lines) => (Failed e, out ++ (Shown <$> lines), w)
                end
              else
                match ConfigEditor.save_config (config_file a) data secret w with
                | (Return _, w) => (Done 0%Z, out, w)
                | (Raise e, w) => (Failed (Exn e), out, w)
                end
          end
    end.

End program.
End Tool.
(** ** Vocabulary of the properties *)

(** Order of two items by their keys, non-strict and strict. *)
Definition key_le {V} : relation (pystr * V) := λ a b, str_le a.1 b.1 = true.
Definition key_lt {V} : relation (pystr * V) := λ a b, str_lt a.1 b.1 = true.

(** JSON text, written with ' where the text has a double quote. *)
Definition jtext (s : string) : pystr := (λ c, if c =? 39 then 34 else c) <$> py s.

Global Instance spec_float_eq_dec : EqDecision spec_float.
Proof. solve_decision. Defined.

(** Structural equality of two values: equal leaves, sequences equal element
    by element, mappings with the same keys and structurally equal values
    under each key, whatever the order of the keys (what [==] of Python
    decides on [dict]s, without its identification of numbers of different
    types). *)
Fixpoint structurally_equal (v1 v2 : value) : bool :=
  match v1, v2 with
  | JNull, JNull => true
  | JBool a, JBool b => bool_decide (a = b)
  | JInt a, JInt b => bool_decide (a = b)
  | JFloat a, JFloat b => bool_decide (a = b)
  | JStr a, JStr b => bool_decide (a = b)
  | JList l1, JList l2 =>
      (fix go (l1 l2 : list value) : bool :=
         match l1, l2 with
         | [], [] => true
         | x :: r1, y :: r2 => structurally_equal x y && go r1 r2
         | _, _ => false
         end) l1 l2
  | JDict d1, JDict d2 =>
      bool_decide (length d1 = length d2)
      && forallb (λ kv, match Dict.get kv.1 d2 with
                        | Some y => structurally_equal kv.2 y
                        | None => false
                        end) d1
  | _, _ => false
  end.

(** [reordered v1 v2]: the same tree, with the keys of mappings possibly
    inserted in another order, at any depth. *)
Inductive reordered : value → value → Prop :=
  | reordered_refl v : reordered v v
  | reordered_list_cons x y l1 l2 :
      reordered x y → reordered (JList l1) (JList l2) →
      reordered (JList (x :: l1)) (JList (y :: l2))
  | reordered_dict_cons k x y d1 d2 :
      reordered x y → reordered (JDict d1) (JDict d2) →
      reordered (JDict ((k, x) :: d1)) (JDict ((k, y) :: d2))
  | reordered_dict_perm d1 d1' d2 :
      d1 ≡ₚ d1' → reordered (JDict d1') (JDict d2) →
      reordered (JDict d1) (JDict d2).

Section vocabulary.
Context `{Builtins}.

(** One entry of a mapping in canonical form: ["<key>":<value>]. *)
Definition item_text (kv : pystr * value) : pystr :=
  Json.encode_basestring kv.1 ++ py ":" ++ ConfigEditor.dump_compact_sorted kv.2.

(** The value of the specification's example, keys in the order given there. *)
Definition spec_example : value :=
  JDict [(py "a", JInt 1);
         (py "b", JDict [(py "z", JBool true); (py "y", JStr (py "x"))])].

(** What [reordered] preserves: the text, and for containers the texts of
    the parts. *)
Definition same_parts (v1 v2 : value) : Prop :=
  match v1, v2 with
  | JList l1, JList l2 =>
      ConfigEditor.dump_compact_sorted <$> l1 = ConfigEditor.dump_compact_sorted <$> l2
  | JDict d1, JDict d2 =>
      item_text <$> Dict.sorted_items d1 = item_text <$> Dict.sorted_items d2
  | _, _ => v1 = v2
  end.
End vocabulary.

(** A stand-in interpreter that makes examples closed terms.  The examples
    hold no float and convert no [str] with [int()], so neither function is
    ever called in them. *)
Program Definition example_builtins : Builtins :=
  {| float_repr := λ _, py "0.0"; int_of_str := λ _, None |}.
Next Obligation. intros. by repeat constructor. Qed.

(** Every code point of the text has a UTF-8 encoding. *)
Definition chars_ok (s : pystr) : Prop :=
  Forall (λ c, is_Some (Utf8.encode_char c)) s.

(** The world after more lines were printed. *)
Definition printed (w : world) (ls : list line) : world :=
  World (files w) (clock w) (stdout w ++ ls).

(** The world after a file was written. *)
Definition stored (w : world) (filepath : string) (doc : value) : world :=
  World (<[filepath := JsonText doc]> (files w)) (clock w) (stdout w).

(** The core value of a document: the reserved sections taken out. *)
Definition core_of (d : pydict) : pydict :=
  Dict.remove ConfigEditor.k_update_policy (Dict.remove ConfigEditor.k_metadata d).

(** [metadata.get('crc') or metadata.get('crc32')] *)
Definition stored_checksum (m : pydict) : value :=
  py_or (get_or_none (py "crc") m) (get_or_none (py "crc32") m).

(** The HMAC check is not reached: no secret was given, or the document
    stores nothing under [hmac]. *)
Definition given_or_hmac_absent (secret : option pystr) (m : pydict) : Prop :=
  ConfigEditor.given secret = None ∨ get_or_none (py "hmac") m = JNull.

(** The update policy of a document as [save_config] carries it over. *)
Definition policy_items (d : pydict) : pydict :=
  match Dict.get ConfigEditor.k_update_policy d with
  | Some policy => [(ConfigEditor.k_update_policy, policy)]
  | None => []
  end.

(** The metadata a document had before a save; not a mapping counts as none. *)
Definition prior_metadata (d : pydict) : pydict :=
  match Dict.get ConfigEditor.k_metadata d with
  | Some (JDict m) => m
  | _ => []
  end.

(** A document: the integrity record, the policy if any, the core value. *)
Definition attach (m : pydict) (policy core : pydict) : pydict :=
  (ConfigEditor.k_metadata, JDict m) :: policy ++ core.

(** A core value has no reserved section. *)
Definition is_core (d : pydict) : Prop :=
  (ConfigEditor.k_metadata ∉ Dict.keys d) ∧ (ConfigEditor.k_update_policy ∉ Dict.keys d).

(** [leaf_mutated v v']: [v'] is [v] with one leaf replaced by another leaf. *)
Inductive is_leaf : value → Prop :=
  | leaf_null : is_leaf JNull
  | leaf_bool b : is_leaf (JBool b)
  | leaf_int z : is_leaf (JInt z)
  | leaf_float f : is_leaf (JFloat f)
  | leaf_str s : is_leaf (JStr s).

Inductive leaf_mutated : value → value → Prop :=
  | mutated_here a b : is_leaf a → is_leaf b → a ≠ b → leaf_mutated a b
  | mutated_in_list l1 x y l2 :
      leaf_mutated x y → leaf_mutated (JList (l1 ++ x :: l2)) (JList (l1 ++ y :: l2))
  | mutated_in_dict d1 k x y d2 :
      leaf_mutated x y →
      leaf_mutated (JDict (d1 ++ (k, x) :: d2)) (JDict (d1 ++ (k, y) :: d2)).

(** A world for examples: no file yet, the clock at some time. *)
Definition example_world : world := World ∅ (py "2026-01-01 00:00:00") [].

(** An empty configuration whose checksum sits under the older field name,
    next to an empty [crc]. *)
Definition legacy_metadata : pydict :=
  [(py "crc", JStr []); (py "crc32", JStr (py "a3a6bf43"))].

Definition legacy_items : pydict := [(ConfigEditor.k_metadata, JDict legacy_metadata)].

(** Two core values that differ in one leaf. *)
Definition plumless_items : pydict := [(py "a", JStr (py "plumless"))].
Definition buckeroo_items : pydict := [(py "a", JStr (py "buckeroo"))].

(** The record [save_config] writes for [plumless_items] in [example_world]
    without a secret. *)
Definition plumless_record : pydict :=
  [(py "crc", JStr (py "614bc453"));
   (py "version", JInt 1);
   (py "description", JStr []);
   (py "encrypted", JBool false);
   (py "timestamp", JStr (py "2026-01-01 00:00:00"))].

Definition legacy_world : world :=
  stored example_world "config.json" (JDict legacy_items).

(** The same, with the older field name only. *)
Definition crc32_only_items : pydict :=
  [(ConfigEditor.k_metadata, JDict [(py "crc32", JStr (py "a3a6bf43"))])].

Definition crc32_only_world : world :=
  stored example_world "config.json" (JDict crc32_only_items).

(** A document that was never saved by the tool. *)
Definition bare_items : pydict := [(py "memory", JDict [])].

Definition bare_world : world :=
  stored example_world "config.json" (JDict bare_items).

(** The example of the specification with the keys inserted in the other
    order at both levels. *)
Definition spec_example_swapped : value :=
  JDict [(py "b", JDict [(py "y", JStr (py "x")); (py "z", JBool true)]);
         (py "a", JInt 1)].

(** A mapping with two keys out of order. *)
Definition two_keys : pydict := [(py "b", JNull); (py "a", JNull)].

(** ** The record [save_config] builds, step by step *)
Section record.
Context `{Builtins}.

(** The prior metadata with [crc], [version], [description] and [encrypted]
    assigned in that order. *)
Definition normalised (prior : pydict) (crc_hex : pystr) : pydict :=
  let m := Dict.set (py "crc") (JStr crc_hex) prior in
  let version :=
    default 1%Z (ConfigEditor.py_int (default (JInt 1) (Dict.get (py "version") m))) in
  let m := Dict.set (py "version") (JInt version) m in
  let m := Dict.set (py "description")
                    (default (JStr []) (Dict.get (py "description") m)) m in
  Dict.set (py "encrypted")
           (JBool (truthy (default (JBool false) (Dict.get (py "encrypted") m)))) m.

(** The signature assigned, or the stale one removed. *)
Definition signed (m : pydict) (signature : option pystr) : pydict :=
  match signature with
  | Some h => Dict.set (py "hmac") (JStr h) m
  | None => Dict.remove (py "hmac") m
  end.

Definition record_of (prior : pydict) (crc_hex : pystr) (signature : option pystr)
    (timestamp : pystr) : pydict :=
  Dict.set (py "timestamp") (JStr timestamp) (signed (normalised prior crc_hex) signature).

(** The lines a successful save prints. *)
Definition saved_lines (filepath : string) (crc_hex : pystr)
    (signature : option pystr) : list line :=
  [SavedTo filepath; SavedCrc crc_hex]
  ++ match signature with
     | Some h => [SavedHmac (take 16 h)]
     | None => []
     end.

(** The signature of a canonical string under the secret in use, if any. *)
Definition signature_of (secret : option pystr) (core_bytes : pybytes)
    : option (option pystr) :=
  match ConfigEditor.given secret with
  | Some s =>
      match Utf8.encode s with
      | Some kb => Some (Some (Hex.hexlify (Hmac.hmac_sha256 kb core_bytes)))
      | None => None
      end
  | None => Some None
  end.
End record.


(** The fields [save_config] assigns or removes in the metadata. *)
Definition record_keys : list pystr :=
  [py "crc"; py "version"; py "description"; py "encrypted"; py "hmac"; py "timestamp"].

(** ** Vocabulary for nested keys *)

(** Two key lists part ways: after a common start they go on with different
    keys. *)
Definition diverge (p q : list pystr) : Prop :=
  ∃ common k1 k2 r1 r2, p = common ++ k1 :: r1 ∧ q = common ++ k2 :: r2 ∧ k1 ≠ k2.

Definition is_dict (v : value) : bool :=
  match v with
  | JDict _ => true
  | _ => false
  end.

(** Where the keys before the last lead from [current]: to something on the
    way that is not a mapping, to the object the last key is assigned in, or
    to a key that is missing, from where on the mappings are new. *)
Inductive place :=
  | Blocked
  | Existing (v : value)
  | Created.

Fixpoint follow (keys : list pystr) (current : value) : place :=
  match keys with
  | [] => Existing current
  | key :: keys =>
      match current with
      | JDict d =>
          match Dict.get key d with
          | Some v => follow keys v
          | None => Created
          end
      | _ => Blocked
      end
  end.

(** ** Vocabulary for [display_config] *)

(** The key printed for the entry reached by [keys] below [prefix]. *)
Definition full_key (prefix : pystr) (keys : list pystr) : pystr :=
  foldl (λ prefix key, match prefix with
                       | [] => key
                       | _ => prefix ++ py "." ++ key
                       end) prefix keys.

(** [keys] leads from [current] to [v], from mapping to mapping, and no key
    on the way starts with two underscores. *)
Fixpoint visible (keys : list pystr) (current v : value) : Prop :=
  match keys with
  | [] => current = v
  | key :: keys =>
      startswith_dunder key = false
      ∧ ∃ d child, current = JDict d ∧ (key, child) ∈ d ∧ visible keys child v
  end.

(** The line [display_config] has for the entry that [keys] leads to. *)
Definition line_of (keys : list pystr) (v : value) : shown :=
  if is_dict v then Heading (full_key [] keys) else Entry (full_key [] keys) v.

(** In every mapping reached through mappings the keys are distinct, not
    empty and without a dot. *)
Fixpoint plain_keys (v : value) : Prop :=
  match v with
  | JDict d =>
      NoDup (Dict.keys d)
      ∧ foldr (λ kv P, (kv.1 ≠ [] ∧ (46 ∉ kv.1) ∧ plain_keys kv.2) ∧ P) True d
  | _ => True
  end.

(** ** Vocabulary for [main] *)

(** The top-level keys of a document are distinct. *)
Definition distinct_keys (data : value) : Prop :=
  ∀ d, data = JDict d → NoDup (Dict.keys d).

(** The secret a run uses: the option when it is given and not empty, the
    environment otherwise. *)
Definition secret_in_use (environ : gmap string pystr) (a : Tool.args) : option pystr :=
  match ConfigEditor.given (Tool.secret a) with
  | Some s => Some s
  | None => environ !! "HMAC_SECRET"
  end.

(** The same command line with [--verify] added. *)
Definition with_verify (a : Tool.args) : Tool.args :=
  Tool.Args (Tool.config_file a) (Tool.secret a) (Tool.sets a) true
            (Tool.display a) (Tool.create a).

(** ** Examples for the properties of the second part *)

(** A stand-in interpreter for closed examples of the editing helpers: it
    reads all text as ASCII text and knows no [float] literal, so the
    examples use no text that spells a float. *)
Program Definition ascii_builtins : Builtins :=
  {| float_repr := λ _, py "0.0";
     int_of_str := λ s,
       if negb (bool_decide (s = [])) && forallb is_ascii_digit s
       then Some (decimal s) else None |}.
Next Obligation. intros. by repeat constructor. Qed.

Program Definition ascii_text : @Text ascii_builtins :=
  {| str_lower := fmap ascii_lower;
     str_isdigit := λ s, negb (bool_decide (s = [])) && forallb is_ascii_digit s;
     float_of_str := λ _, None |}.
Next Obligation. done. Qed.
Next Obligation. done. Qed.
Next Obligation.
  intros s Hs Hdigits _. simpl. by rewrite bool_decide_eq_false_2, Hdigits.
Qed.

(** The same with the limit that CPython has by default since 3.11: [int]
    raises [ValueError] on a text of more than 4300 digits. *)
Program Definition limit_builtins : Builtins :=
  {| float_repr := λ _, py "0.0";
     int_of_str := λ s,
       if negb (bool_decide (s = [])) && forallb is_ascii_digit s
          && bool_decide (length s ≤ 4300)%nat
       then Some (decimal s) else None |}.
Next Obligation. intros. by repeat constructor. Qed.

Program Definition limit_text : @Text limit_builtins :=
  {| str_lower := fmap ascii_lower;
     str_isdigit := λ s, negb (bool_decide (s = [])) && forallb is_ascii_digit s;
     float_of_str := λ _, None |}.
Next Obligation. done. Qed.
Next Obligation. done. Qed.
Next Obligation.
  intros s Hs Hdigits Hlen. simpl.
  rewrite bool_decide_eq_false_2, Hdigits by done.
  rewrite bool_decide_eq_true_2 by lia. done.
Qed.

(** A text of 4301 digits. *)
Definition long_number : pystr := replicate 4301 49.

(** A configuration with its reserved sections in the middle. *)
Definition memory_items : pydict :=
  [(py "check_enable", JBool false); (py "align", JInt 8)].

Definition policy_value : value := JDict [(py "default", JStr (py "on_change"))].

Definition example_items : pydict :=
  [(py "memory", JDict memory_items);
   (ConfigEditor.k_update_policy, policy_value);
   (ConfigEditor.k_metadata, JDict [(py "version", JInt 3); (py "owner", JStr (py "core"))]);
   (py "log", JStr (py "debug"))].

(** The worlds after saving it without a secret and with one. *)
Definition saved_unsigned : world :=
  (ConfigEditor.save_config (H := example_builtins) "config.json"
     (JDict example_items) None example_world).2.

Definition saved_signed : world :=
  (ConfigEditor.save_config (H := example_builtins) "config.json"
     (JDict example_items) (Some (py "test123")) example_world).2.

(** The world after verifying the first of them. *)
Definition verified_unsigned : world :=
  (ConfigEditor.verify_config (H := example_builtins) "config.json" None saved_unsigned).2.

(** A lone surrogate in the core value, and one in the update policy. *)
Definition surrogate_items : pydict := [(py "a", JStr [55296])].

Definition surrogate_policy_items : pydict :=
  [(ConfigEditor.k_update_policy, JStr [55296]); (py "a", JInt 1)].

(** A document whose stored checksum is a lone surrogate, and a mapping with
    one between two numbers. *)
Definition surrogate_crc_world : world :=
  stored example_world "config.json"
    (JDict [(ConfigEditor.k_metadata, JDict [(py "crc", JStr [55296])])]).

Definition surrogate_between : pydict :=
  [(py "a", JInt 1); (py "b", JStr [55296]); (py "c", JInt 2)].

(** A document whose metadata stores a number under [hmac]. *)
Definition number_hmac_metadata : pydict :=
  [(py "crc", JStr (py "a3a6bf43")); (py "hmac", JInt 5)].

Definition number_hmac_world : world :=
  stored example_world "config.json"
    (JDict [(ConfigEditor.k_metadata, JDict number_hmac_metadata)]).

(** The example configuration after [memory.check_enable] was set from the
    text [true]. *)
Definition example_edited : value :=
  (Tool.set_nested_key (H0 := ascii_text) (JDict example_items)
     (py "memory.check_enable") (JStr (py "true"))).2.

(** What [display_config] prints for the example configuration. *)
Definition example_lines : list shown :=
  [Heading (py "memory");
   Entry (py "memory.check_enable") (JBool false);
   Entry (py "memory.align") (JInt 8);
   Entry (py "log") (JStr (py "debug"))].

(** Command lines on [config.json] and on a path that does not exist. *)
Definition verify_args : Tool.args := Tool.Args "config.json" None [] true false false.

Definition invalid_args : Tool.args :=
  Tool.Args "config.json" None [py "memory.align=4"; py "novalue"] false false false.

Definition set_args : Tool.args :=
  Tool.Args "config.json" (Some (py "test123")) [py "memory.check_enable=true"]
            false false false.

Definition create_verify_args : Tool.args := Tool.Args "new.json" None [] true false true.

Definition create_args : Tool.args := Tool.Args "new.json" None [] false false true.

(** The world after the run of [set_args] on the unsigned example. *)
Definition after_set : world :=
  (Tool.main (H0 := ascii_text) ∅ set_args saved_unsigned).2.
(** * Properties *)

(** ** Known answers of the library models *)
Example crc32_check_value :
  Crc32.crc32 <$> (Utf8.encode (py "123456789")) = Some 0xCBF43926.
Proof. vm_compute. reflexivity. Qed.

Example sha256_abc :
  (Hex.hexlify ∘ Sha256.sha256) <$> (Utf8.encode (py "abc"))
  = Some (py "ba7816bf8f01cfea414140de5dae2223b00361a396177a9cb410ff61f20015ad").
Proof. vm_compute. reflexivity. Qed.

Example sha256_two_blocks :
  (Hex.hexlify ∘ Sha256.sha256) <$>
    (Utf8.encode (py "abcdbcdecdefdefgefghfghighijhijkijkljklmklmnlmnomnopnopq"))
  = Some (py "248d6a61d20638b8e5c026930c3e6039a33ce45964ff2167f6ecedd419db06c1").
Proof. vm_compute. reflexivity. Qed.

(** RFC 4231, test case 2. *)
Example hmac_rfc4231_2 :
  match Utf8.encode (py "Jefe"), Utf8.encode (py "what do ya want for nothing?") with
  | Some k, Some m => Hex.hexlify (Hmac.hmac_sha256 k m)
  | _, _ => []
  end = py "5bdcc146bf60754e6a042426089575c75a003f089d2739839dec58b964ec3843".
Proof. vm_compute. reflexivity. Qed.
(** ** Order on [str] *)

Lemma str_lt_irrefl s : str_lt s s = false.
Proof. induction s as [|c s IH]; simpl; [done|]. by rewrite N.compare_refl. Qed.

Lemma str_lt_trans s1 s2 s3 :
  str_lt s1 s2 = true → str_lt s2 s3 = true → str_lt s1 s3 = true.
Proof.
  revert s2 s3. induction s1 as [|c1 s1 IH]; intros [|c2 s2] [|c3 s3]; simpl; try done.
  destruct (N.compare_spec c1 c2) as [->| |]; try done.
  - destruct (c2 ?= c3); eauto.
  - destruct (N.compare_spec c2 c3) as [->| |]; try done; intros _ _.
    + by destruct (N.compare_spec c1 c3); try lia.
    + by destruct (N.compare_spec c1 c3); try lia.
Qed.

Lemma str_lt_asym s1 s2 : str_lt s1 s2 = true → str_lt s2 s1 = false.
Proof.
  revert s2. induction s1 as [|c1 s1 IH]; intros [|c2 s2]; simpl; try done.
  rewrite (N.compare_antisym c1 c2). destruct (c1 ?= c2); simpl; eauto; done.
Qed.

Lemma str_lt_connex s1 s2 :
  str_lt s1 s2 = false → str_lt s2 s1 = false → s1 = s2.
Proof.
  revert s2. induction s1 as [|c1 s1 IH]; intros [|c2 s2]; simpl; try done.
  rewrite (N.compare_antisym c1 c2).
  destruct (N.compare_spec c1 c2) as [->| |]; simpl; try done.
  intros. f_equal. eauto.
Qed.

Lemma str_le_trans s1 s2 s3 :
  str_le s1 s2 = true → str_le s2 s3 = true → str_le s1 s3 = true.
Proof.
  unfold str_le. rewrite !negb_true_iff. intros H12 H23.
  destruct (str_lt s3 s1) eqn:H31; [|done].
  destruct (str_lt s1 s2) eqn:H12'.
  - by rewrite (str_lt_trans _ _ _ H31 H12') in H23.
  - assert (s1 = s2) as -> by eauto using str_lt_connex. congruence.
Qed.

(** ** [sorted(d.items())] *)
Section sorted_items.
Context {V : Type}.
Implicit Types (d : list (pystr * V)) (x : pystr * V).

Global Instance key_le_trans : Transitive (@key_le V).
Proof. intros a b c. apply str_le_trans. Qed.

Lemma insert_sorted_perm x d : Dict.insert_sorted x d ≡ₚ x :: d.
Proof.
  induction d as [|y d IH]; simpl; [done|].
  destruct (str_lt y.1 x.1); [|done]. by rewrite IH, Permutation_swap.
Qed.

Lemma sorted_items_perm d : Dict.sorted_items d ≡ₚ d.
Proof.
  induction d as [|x d IH]; simpl; [done|].
  rewrite insert_sorted_perm. by f_equiv.
Qed.

Lemma insert_sorted_Sorted x d :
  Sorted (@key_le V) d → Sorted key_le (Dict.insert_sorted x d).
Proof.
  induction 1 as [|y d Hd IH Hy]; simpl; [by repeat constructor|].
  destruct (str_lt y.1 x.1) eqn:Hyx.
  - constructor; [done|].
    destruct Hy as [|z d Hyz]; simpl.
    + constructor. unfold key_le, str_le. by rewrite (str_lt_asym _ _ Hyx).
    + destruct (str_lt z.1 x.1); constructor; [done|].
      unfold key_le, str_le. by rewrite (str_lt_asym _ _ Hyx).
  - repeat constructor; [done..|]. unfold key_le, str_le. by rewrite Hyx.
Qed.

Lemma sorted_items_Sorted d : StronglySorted key_le (Dict.sorted_items d).
Proof.
  apply Sorted_StronglySorted; [apply _|].
  induction d; simpl; [constructor|]. by apply insert_sorted_Sorted.
Qed.

Lemma keys_perm d1 d2 : d1 ≡ₚ d2 → Dict.keys d1 ≡ₚ Dict.keys d2.
Proof. intros Hp. unfold Dict.keys. by rewrite Hp. Qed.

Lemma NoDup_keys_inj d x y :
  NoDup (Dict.keys d) → x ∈ d → y ∈ d → x.1 = y.1 → x = y.
Proof.
  induction d as [|z d IH]; simpl; [by inv 2|].
  rewrite NoDup_cons. intros [Hz Hd] Hx Hy Hk.
  apply elem_of_cons in Hx as [->|Hx], Hy as [->|Hy]; eauto.
  - destruct Hz. rewrite Hk. unfold Dict.keys. by apply list_elem_of_fmap_2.
  - destruct Hz. rewrite <-Hk. unfold Dict.keys. by apply list_elem_of_fmap_2.
Qed.

(** Distinct keys leave one sorted order, whatever the insertion order. *)
Lemma sorted_items_unique d1 d2 :
  NoDup (Dict.keys d1) → d1 ≡ₚ d2 → Dict.sorted_items d1 = Dict.sorted_items d2.
Proof.
  intros Hnd Hp.
  apply (StronglySorted_unique_strong key_le); try apply sorted_items_Sorted.
  - intros x1 x2 Hx1 Hx2 H12 H21.
    rewrite sorted_items_perm in Hx1. rewrite sorted_items_perm, <-Hp in Hx2.
    apply (NoDup_keys_inj d1); try done.
    unfold key_le, str_le in *. rewrite negb_true_iff in H12, H21.
    by apply str_lt_connex.
  - by rewrite !sorted_items_perm.
Qed.

Lemma sorted_items_strict d :
  NoDup (Dict.keys d) → StronglySorted key_lt (Dict.sorted_items d).
Proof.
  intros Hnd.
  assert (NoDup (Dict.keys (Dict.sorted_items d))) as Hnd'.
  { by rewrite (keys_perm _ _ (sorted_items_perm d)). }
  revert Hnd'. generalize (sorted_items_Sorted d).
  induction 1 as [|x l Hl IH Hx]; intros Hnd'; [constructor|].
  simpl in Hnd'. apply NoDup_cons in Hnd' as [Hx' Hnd'].
  constructor; [by apply IH|].
  rewrite Forall_forall in Hx |- *. intros y Hy.
  specialize (Hx y Hy). unfold key_le, key_lt, str_le in *.
  rewrite negb_true_iff in Hx.
  destruct (str_lt x.1 y.1) eqn:Hxy; [done|].
  destruct Hx'. rewrite (str_lt_connex _ _ Hxy Hx).
  unfold Dict.keys. by apply list_elem_of_fmap_2.
Qed.
End sorted_items.

Lemma insert_sorted_fmap {V W} (f : V → W) x (d : list (pystr * V)) :
  Dict.insert_sorted (x.1, f x.2) ((λ kv, (kv.1, f kv.2)) <$> d)
  = (λ kv, (kv.1, f kv.2)) <$> Dict.insert_sorted x d.
Proof.
  induction d as [|y d IH]; simpl; [done|].
  destruct (str_lt y.1 x.1); simpl; [|done]. f_equal. apply IH.
Qed.

(** Sorting looks at keys only: it commutes with a map over the values. *)
Lemma sorted_items_fmap {V W} (f : V → W) (d : list (pystr * V)) :
  Dict.sorted_items ((λ kv, (kv.1, f kv.2)) <$> d)
  = (λ kv, (kv.1, f kv.2)) <$> Dict.sorted_items d.
Proof.
  unfold Dict.sorted_items. induction d as [|x d IH]; csimpl; [done|].
  rewrite IH. apply insert_sorted_fmap.
Qed.

(** Inserting items with equal keys and equal images into lists with equal
    keys and equal images gives such lists again. *)
Lemma fmap_insert_sorted {V W} (g : pystr * V → W) x y (d1 d2 : list (pystr * V)) :
  x.1 = y.1 → g x = g y →
  g <$> d1 = g <$> d2 →
  Forall2 (λ a b, a.1 = b.1) d1 d2 →
  g <$> Dict.insert_sorted x d1 = g <$> Dict.insert_sorted y d2
  ∧ Forall2 (λ a b, a.1 = b.1) (Dict.insert_sorted x d1) (Dict.insert_sorted y d2).
Proof.
  intros Hk Hxy Heq Hkeys. revert Heq.
  induction Hkeys as [|a b d1 d2 Hab Hkeys IH]; csimpl.
  { intros _. rewrite Hxy. by repeat constructor. }
  intros [= Hab' Heq]. rewrite <-Hab, <-Hk.
  destruct (str_lt a.1 x.1); csimpl.
  - destruct (IH Heq) as [-> ?]. rewrite Hab'. by split; [|constructor].
  - rewrite Hxy, Hab', Heq. by split; repeat constructor.
Qed.

(** ** Induction on values, the [dict] invariant *)

Lemma value_induction (P : value → Prop) :
  P JNull → (∀ b, P (JBool b)) → (∀ z, P (JInt z)) → (∀ f, P (JFloat f)) →
  (∀ s, P (JStr s)) →
  (∀ l, Forall P l → P (JList l)) →
  (∀ d, Forall (λ kv, P kv.2) d → P (JDict d)) →
  ∀ v, P v.
Proof.
  intros Hnull Hbool Hint Hfloat Hstr Hlist Hdict.
  fix IH 1. intros [|b|z|f|s|l|d].
  - exact Hnull.
  - exact (Hbool b).
  - exact (Hint z).
  - exact (Hfloat f).
  - exact (Hstr s).
  - apply Hlist. induction l as [|x l IHl]; constructor; [apply IH|exact IHl].
  - apply Hdict. induction d as [|[k x] d IHd]; constructor; [apply IH|exact IHd].
Qed.

Lemma wf_list l : wf (JList l) ↔ Forall wf l.
Proof.
  induction l as [|x l IH]; simpl; [by split; [constructor|]|].
  rewrite Forall_cons. simpl in IH. by rewrite IH.
Qed.

Lemma wf_dict d :
  wf (JDict d) ↔ NoDup (Dict.keys d) ∧ Forall (λ kv, wf kv.2) d.
Proof.
  simpl. apply and_iff_compat_l.
  induction d as [|x d IH]; simpl; [by split; [constructor|]|].
  by rewrite Forall_cons, IH.
Qed.

Lemma wf_dict_perm d1 d2 : d1 ≡ₚ d2 → wf (JDict d1) → wf (JDict d2).
Proof.
  rewrite !wf_dict. intros Hp [Hnd Hall]. split.
  - by rewrite <-(keys_perm _ _ Hp).
  - by rewrite <-Hp.
Qed.

(** Closed instances of [wf] and [NoDup], by evaluation. *)
Ltac solve_wf :=
  simpl; repeat split; try done;
  (apply (bool_decide_unpack _); vm_compute; exact I).

(** ** The canonical encoder *)
Section canonical.
Context `{Builtins}.
Abbreviation dump := ConfigEditor.dump_compact_sorted.

(** The encoder on a mapping, in Python's order: sort the items, then
    encode each one. *)
Lemma dumps_dict d :
  dump (JDict d)
  = py "{" ++ join (py ",") (item_text <$> Dict.sorted_items d) ++ py "}".
Proof.
  unfold dump. simpl. rewrite sorted_items_fmap, <-list_fmap_compose. done.
Qed.

Lemma dumps_list l :
  dump (JList l) = py "[" ++ join (py ",") (dump <$> l) ++ py "]".
Proof. done. Qed.

Lemma same_parts_dump v1 v2 : same_parts v1 v2 → dump v1 = dump v2.
Proof.
  destruct v1, v2; unfold same_parts; rewrite ?dumps_list, ?dumps_dict; congruence.
Qed.

Lemma same_parts_refl v : same_parts v v.
Proof. by destruct v. Qed.

Lemma reordered_same_parts v1 v2 :
  reordered v1 v2 → wf v1 →
  same_parts v1 v2 ∧
  (∀ d1 d2, v1 = JDict d1 → v2 = JDict d2 →
     Forall2 (λ a b, a.1 = b.1) (Dict.sorted_items d1) (Dict.sorted_items d2)).
Proof.
  induction 1 as [v|x y l1 l2 Hxy IHx Hl IHl|k x y d1 d2 Hxy IHx Hd IHd
                 |d1 d1' d2 Hp Hd IHd]; intros Hwf.
  - split; [apply same_parts_refl|]. intros d1 d2 -> [= <-].
    by apply Forall_Forall2_diag, Forall_true.
  - apply wf_list, Forall_cons in Hwf as [Hx Hl1].
    apply wf_list in Hl1. split; [|done].
    destruct (IHx Hx) as [Hsx _], (IHl Hl1) as [Hsl _].
    unfold same_parts in Hsl |- *.
    by rewrite !fmap_cons, (same_parts_dump _ _ Hsx), Hsl.
  - apply wf_dict in Hwf as [Hnd Hall].
    apply NoDup_cons in Hnd as [_ Hnd]. apply Forall_cons in Hall as [Hx Hall].
    assert (wf (JDict d1)) as Hd1 by by apply wf_dict.
    destruct (IHx Hx) as [Hsx _], (IHd Hd1) as [Hsd Hk].
    specialize (Hk _ _ eq_refl eq_refl). unfold same_parts in Hsd.
    destruct (fmap_insert_sorted item_text (k, x) (k, y) _ _ eq_refl
                ltac:(unfold item_text; simpl; by rewrite (same_parts_dump _ _ Hsx))
                Hsd Hk) as [Ht Hk'].
    split; [done|]. by intros ?? [= <-] [= <-].
  - assert (wf (JDict d1')) as Hd1' by by eapply wf_dict_perm.
    destruct (IHd Hd1') as [Hsd Hk]. apply wf_dict in Hwf as [Hnd _].
    split.
    + unfold same_parts in *. by rewrite (sorted_items_unique d1 d1').
    + intros ?? [= <-] [= <-]. rewrite (sorted_items_unique d1 d1') by done.
      by apply Hk.
Qed.

(** Key order never reaches the canonical string. *)
Lemma reordered_dump v1 v2 : wf v1 → reordered v1 v2 → dump v1 = dump v2.
Proof. intros Hwf Hr. by apply same_parts_dump, reordered_same_parts. Qed.

End canonical.

(** ** Bounds of the bit operations *)

Lemma N_lt_pow2_log2 a n : a < 2 ^ n ↔ a = 0 ∨ N.log2 a < n.
Proof.
  destruct (decide (a = 0)) as [->|Ha].
  - split; [by left|]. intros _. apply N.neq_0_lt_0, N.pow_nonzero. lia.
  - rewrite N.log2_lt_pow2 by lia. split; [auto|]. by intros [?|?].
Qed.

Lemma N_lxor_lt a b n : a < 2 ^ n → b < 2 ^ n → N.lxor a b < 2 ^ n.
Proof.
  rewrite !N_lt_pow2_log2. intros [->|Ha] [->|Hb];
    rewrite ?N.lxor_0_l, ?N.lxor_0_r; auto.
  right. pose proof (N.log2_lxor a b). lia.
Qed.

Lemma N_lor_lt a b n : a < 2 ^ n → b < 2 ^ n → N.lor a b < 2 ^ n.
Proof.
  rewrite !N_lt_pow2_log2. intros [->|Ha] [->|Hb];
    rewrite ?N.lor_0_l, ?N.lor_0_r; auto.
  right. rewrite N.log2_lor. lia.
Qed.

Lemma N_land_lt_r a b n : b < 2 ^ n → N.land a b < 2 ^ n.
Proof.
  rewrite !N_lt_pow2_log2. intros [->|Hb]; rewrite ?N.land_0_r; auto.
  right. pose proof (N.log2_land a b). lia.
Qed.

Lemma N_shiftr_lt a k n : a < 2 ^ (n + k) → N.shiftr a k < 2 ^ n.
Proof.
  intros Ha. rewrite N.shiftr_div_pow2.
  apply N.Div0.div_lt_upper_bound. by rewrite <-N.pow_add_r, (N.add_comm k).
Qed.

Lemma N_land_ones_id a n : a < 2 ^ n → N.land a (N.ones n) = a.
Proof. intros Ha. rewrite N.land_ones. by apply N.mod_small. Qed.

(** ** Hexadecimal rendering *)

Lemma digit_value_digit d : d < 16 → Hex.digit_value (Hex.digit d) = Some d.
Proof.
  intros Hd. unfold Hex.digit, Hex.digit_value.
  destruct (N.ltb_spec d 10).
  - replace (48 <=? 48 + d) with true by (symmetry; apply N.leb_le; lia).
    replace (48 + d <=? 57) with true by (symmetry; apply N.leb_le; lia).
    simpl. f_equal. lia.
  - replace (48 <=? 87 + d) with true by (symmetry; apply N.leb_le; lia).
    replace (87 + d <=? 57) with false by (symmetry; apply N.leb_gt; lia).
    replace (97 <=? 87 + d) with true by (symmetry; apply N.leb_le; lia).
    replace (87 + d <=? 102) with true by (symmetry; apply N.leb_le; lia).
    simpl. f_equal. lia.
Qed.

Lemma is_lower_hex_digit d : d < 16 → Hex.is_lower_hex (Hex.digit d) = true.
Proof. intros Hd. unfold Hex.is_lower_hex. by rewrite digit_value_digit. Qed.

Lemma digits_le_lt fuel n : Forall (λ d, d < 16) (Hex.digits_le fuel n).
Proof.
  revert n. induction fuel as [|fuel IH]; intros n; simpl; [constructor|].
  destruct (n =? 0); constructor; [|apply IH]. apply N.mod_lt. lia.
Qed.

Lemma digits_le_value fuel n :
  n < 2 ^ N.of_nat fuel → foldr (λ d a, 16 * a + d) 0 (Hex.digits_le fuel n) = n.
Proof.
  revert n. induction fuel as [|fuel IH]; intros n Hn.
  { simpl in *. lia. }
  simpl. destruct (N.eqb_spec n 0) as [->|Hn0]; [done|]. simpl.
  rewrite IH; [pose proof (N.div_mod n 16); lia|].
  rewrite Nat2N.inj_succ, N.pow_succ_r' in Hn.
  apply N.Div0.div_lt_upper_bound. lia.
Qed.

Lemma digits_le_length fuel k n :
  n < 16 ^ N.of_nat k → (length (Hex.digits_le fuel n) ≤ k)%nat.
Proof.
  revert k n. induction fuel as [|fuel IH]; intros k n Hn; simpl; [lia|].
  destruct (N.eqb_spec n 0) as [->|Hn0]; simpl; [lia|].
  destruct k as [|k]; [simpl in Hn; lia|].
  apply le_n_S, IH. rewrite Nat2N.inj_succ, N.pow_succ_r' in Hn.
  apply N.Div0.div_lt_upper_bound. lia.
Qed.

Lemma value_from_digits ds acc :
  Forall (λ d, d < 16) ds →
  Hex.value_from acc (Hex.digit <$> ds) = Some (fold_left (λ a d, 16 * a + d) ds acc).
Proof.
  intros Hds. revert acc. induction Hds as [|d ds Hd Hds IH]; intros acc; [done|].
  csimpl. by rewrite digit_value_digit, IH.
Qed.

Lemma fold_left_rev {A B} (g : A → B → A) (l : list B) (a : A) :
  fold_left g (rev l) a = foldr (λ d a, g a d) a l.
Proof.
  induction l as [|x l IH]; [done|]. simpl. by rewrite fold_left_app, IH.
Qed.

Lemma value_format_x n : Hex.value (Hex.format_x n) = Some n.
Proof.
  unfold Hex.value, Hex.format_x. destruct (N.eqb_spec n 0) as [->|Hn]; [done|].
  rewrite value_from_digits.
  - rewrite fold_left_rev, digits_le_value; [done|].
    rewrite N2Nat.id. apply N.size_gt.
  - apply Forall_forall. intros d Hd. apply list_elem_of_In, in_rev in Hd.
    pose proof (digits_le_lt (N.to_nat (N.size n)) n) as Hall.
    rewrite Forall_forall in Hall. by apply Hall, list_elem_of_In.
Qed.

Lemma value_zero_pad w s : Hex.value (Hex.zero_pad w s) = Hex.value s.
Proof.
  unfold Hex.value, Hex.zero_pad. induction (w - length s)%nat; [done|].
  simpl. done.
Qed.

Lemma lower_hex_format_x n : Forall (λ c, Hex.is_lower_hex c = true) (Hex.format_x n).
Proof.
  unfold Hex.format_x. destruct (n =? 0); [by repeat constructor|].
  apply Forall_fmap, Forall_forall. intros d Hd. simpl.
  apply is_lower_hex_digit. apply list_elem_of_In, in_rev in Hd.
  pose proof (digits_le_lt (N.to_nat (N.size n)) n) as Hall.
  rewrite Forall_forall in Hall. by apply Hall, list_elem_of_In.
Qed.

Lemma length_format_x k n :
  (0 < k)%nat → n < 16 ^ N.of_nat k → (length (Hex.format_x n) ≤ k)%nat.
Proof.
  intros Hk Hn. unfold Hex.format_x. destruct (n =? 0); [simpl; lia|].
  rewrite length_fmap, length_rev. by apply digits_le_length.
Qed.

(** [f"{n:08x}"]: lowercase hexadecimal that reads back as [n], and exactly
    eight digits for a 32-bit [n]. *)
Lemma format_08x_spec n :
  Forall (λ c, Hex.is_lower_hex c = true) (Hex.format_08x n)
  ∧ Hex.value (Hex.format_08x n) = Some n
  ∧ (n < 2 ^ 32 → length (Hex.format_08x n) = 8%nat).
Proof.
  unfold Hex.format_08x. split; [|split].
  - unfold Hex.zero_pad. apply Forall_app. split; [|apply lower_hex_format_x].
    by apply Forall_replicate.
  - by rewrite value_zero_pad, value_format_x.
  - intros Hn. unfold Hex.zero_pad. rewrite length_app, length_replicate.
    pose proof (length_format_x 8 n). 
    assert (n < 16 ^ N.of_nat 8) by (simpl; lia). lia.
Qed.

Lemma format_08x_inj n m : Hex.format_08x n = Hex.format_08x m → n = m.
Proof.
  intros Heq. destruct (format_08x_spec n) as (_ & Hn & _).
  destruct (format_08x_spec m) as (_ & Hm & _). congruence.
Qed.

(** ** CRC-32 stays on 32 bits *)

Lemma crc_step_lt c : c < 2 ^ 32 → Crc32.step c < 2 ^ 32.
Proof.
  intros Hc. unfold Crc32.step.
  assert (N.shiftr c 1 < 2 ^ 32).
  { apply N_shiftr_lt. simpl. lia. }
  destruct (N.testbit c 0); [|done]. apply N_lxor_lt; [done|]. by vm_compute.
Qed.

Lemma crc_feed_lt c b : c < 2 ^ 32 → b < 2 ^ 32 → Crc32.feed c b < 2 ^ 32.
Proof.
  intros Hc Hb. unfold Crc32.feed.
  assert (N.lxor c b < 2 ^ 32) as Hx by by apply N_lxor_lt.
  generalize dependent (N.lxor c b). intros x Hx.
  do 8 (simpl; apply crc_step_lt). done.
Qed.

Lemma crc32_lt data : Forall (λ b, b < 256) data → Crc32.crc32 data < 2 ^ 32.
Proof.
  intros Hdata. unfold Crc32.crc32, Crc32.update.
  apply N_lxor_lt; [|by vm_compute].
  assert (N.lxor 0 0xFFFFFFFF < 2 ^ 32) as Hinit by by vm_compute.
  revert Hinit. generalize (N.lxor 0 0xFFFFFFFF).
  induction Hdata as [|b data Hb Hdata IH]; intros c Hc; [done|].
  simpl. apply IH, crc_feed_lt; [done|]. 
  eapply N.lt_trans; [exact Hb|]. by vm_compute.
Qed.

(** ** UTF-8 gives bytes *)

Lemma cont_lt c k : Utf8.cont c k < 256.
Proof.
  unfold Utf8.cont. apply (N_lor_lt _ _ 8); [by vm_compute|].
  eapply N.lt_trans; [apply (N_land_lt_r _ _ 6); by vm_compute|by vm_compute].
Qed.

Lemma encode_char_bytes c b :
  Utf8.encode_char c = Some b → Forall (λ x, x < 256) b.
Proof.
  unfold Utf8.encode_char.
  destruct (N.ltb_spec c 0x80); [intros [= <-]; repeat constructor; lia|].
  destruct (N.ltb_spec c 0x800).
  { intros [= <-]. repeat constructor; [|apply cont_lt].
    apply (N_lor_lt _ _ 8); [by vm_compute|].
    eapply N.lt_trans; [apply (N_shiftr_lt _ _ 5); simpl; lia|by vm_compute]. }
  destruct (N.ltb_spec c 0x10000).
  { destruct (_ && _); [done|]. intros [= <-].
    repeat constructor; try apply cont_lt.
    apply (N_lor_lt _ _ 8); [by vm_compute|].
    eapply N.lt_trans; [apply (N_shiftr_lt _ _ 4); simpl; lia|by vm_compute]. }
  destruct (N.ltb_spec c 0x110000); [|done]. intros [= <-].
  repeat constructor; try apply cont_lt.
  apply (N_lor_lt _ _ 8); [by vm_compute|].
  eapply N.lt_trans; [apply (N_shiftr_lt _ _ 3); simpl; lia|by vm_compute].
Qed.

Lemma encode_bytes s b : Utf8.encode s = Some b → Forall (λ x, x < 256) b.
Proof.
  revert b. induction s as [|c s IH]; simpl; intros b; [by intros [= <-]|].
  destruct (Utf8.encode_char c) as [bc|] eqn:Hc; [|done].
  destruct (Utf8.encode s) as [bs|]; [|done]. intros [= <-].
  apply Forall_app. split; [by eapply encode_char_bytes|by apply IH].
Qed.

(** ** The checksum operation *)

Lemma calculate_crc32_encodable data bytes :
  Utf8.encode data = Some bytes →
  ConfigEditor.calculate_crc32 data = Return (Hex.format_08x (Crc32.crc32 bytes)).
Proof.
  intros Henc. unfold ConfigEditor.calculate_crc32, str_encode. rewrite Henc. simpl.
  do 2 f_equal. change 4294967295 with (N.ones 32).
  by apply N_land_ones_id, crc32_lt, (encode_bytes data).
Qed.

(** C4: on every string that has UTF-8 bytes the checksum operation returns
    the zlib CRC-32 (seed 0) of those bytes as exactly eight lowercase
    hexadecimal digits, zero-padded; a string without UTF-8 bytes (a lone
    surrogate) raises instead.  The canonical string of the empty mapping
    gives the fixture a3a6bf43. *)
Theorem calculate_crc32_hex8 :
  (∀ data bytes, Utf8.encode data = Some bytes →
     ∃ h, ConfigEditor.calculate_crc32 data = Return h
          ∧ length h = 8%nat
          ∧ Forall (λ c, Hex.is_lower_hex c = true) h
          ∧ Hex.value h = Some (Crc32.crc32 bytes))
  ∧ (∀ data, Utf8.encode data = None →
       ConfigEditor.calculate_crc32 data = Raise UnicodeEncodeError)
  ∧ ConfigEditor.calculate_crc32 (py "{}") = Return (py "a3a6bf43").
Proof.
  split; [|split].
  - intros data bytes Henc. eexists. split; [by apply calculate_crc32_encodable|].
    destruct (format_08x_spec (Crc32.crc32 bytes)) as (Hhex & Hval & Hlen).
    split; [|done]. by apply Hlen, crc32_lt, (encode_bytes data).
  - intros data Henc. unfold ConfigEditor.calculate_crc32, str_encode. by rewrite Henc.
  - by vm_compute.
Qed.

(** ** Which texts [str.encode] accepts *)

Lemma encode_is_Some s : is_Some (Utf8.encode s) ↔ chars_ok s.
Proof.
  unfold chars_ok. induction s as [|c s IH]; simpl.
  { split; [constructor|by eexists]. }
  rewrite Forall_cons, <-IH.
  destruct (Utf8.encode_char c), (Utf8.encode s); rewrite !is_Some_alt; tauto.
Qed.

Lemma encode_char_low c : c < 0xD800 → is_Some (Utf8.encode_char c).
Proof.
  intros Hc. unfold Utf8.encode_char.
  destruct (c <? 128); [by eexists|]. destruct (c <? 2048); [by eexists|].
  replace (c <? 65536) with true by (symmetry; apply N.ltb_lt; lia).
  replace (55296 <=? c) with false by (symmetry; apply N.leb_gt; lia).
  by eexists.
Qed.

Lemma chars_ok_low s : Forall (λ c, c < 0xD800) s → chars_ok s.
Proof.
  intros Hs. eapply Forall_impl; [exact Hs|]. intros c. apply encode_char_low.
Qed.

Lemma chars_ok_app s1 s2 : chars_ok (s1 ++ s2) ↔ chars_ok s1 ∧ chars_ok s2.
Proof. apply Forall_app. Qed.

Lemma chars_ok_py s : chars_ok (py s).
Proof.
  apply chars_ok_low, Forall_fmap, Forall_forall. intros a _. simpl.
  pose proof (N_ascii_bounded a). lia.
Qed.

Lemma chars_ok_join sep parts :
  chars_ok sep → Forall chars_ok parts → chars_ok (join sep parts).
Proof.
  intros Hsep. induction 1 as [|p parts Hp Hparts IH]; simpl; [constructor|].
  destruct parts; [done|]. rewrite !chars_ok_app. auto.
Qed.

Lemma chars_ok_concat parts : Forall chars_ok parts → chars_ok (concat parts).
Proof.
  induction 1; simpl; [constructor|]. by apply chars_ok_app.
Qed.

Lemma lower_hex_low c : Hex.is_lower_hex c = true → c < 128.
Proof.
  unfold Hex.is_lower_hex, Hex.digit_value.
  destruct (N.leb_spec 48 c), (N.leb_spec c 57); simpl; try lia;
    destruct (N.leb_spec 97 c), (N.leb_spec c 102); simpl; try lia; done.
Qed.

Lemma chars_ok_lower_hex s :
  Forall (λ c, Hex.is_lower_hex c = true) s → chars_ok s.
Proof.
  intros Hs. apply chars_ok_low. eapply Forall_impl; [exact Hs|].
  intros c Hc. apply lower_hex_low in Hc. lia.
Qed.

Lemma chars_ok_format_x n : chars_ok (Hex.format_x n).
Proof. apply chars_ok_lower_hex, lower_hex_format_x. Qed.

Lemma chars_ok_format_08x n : chars_ok (Hex.format_08x n).
Proof. apply chars_ok_lower_hex, format_08x_spec. Qed.

(** ** [bytes.hex()] of a digest *)

Lemma lower_hex_hexlify bs :
  Forall (λ b, b < 256) bs → Forall (λ c, Hex.is_lower_hex c = true) (Hex.hexlify bs).
Proof.
  unfold Hex.hexlify. induction 1 as [|b bs Hb Hbs IH]; simpl; [constructor|].
  constructor; [|constructor; [|done]]; apply is_lower_hex_digit.
  - apply N.Div0.div_lt_upper_bound. lia.
  - apply N.mod_lt. lia.
Qed.

Lemma length_hexlify bs : length (Hex.hexlify bs) = (2 * length bs)%nat.
Proof.
  unfold Hex.hexlify. induction bs as [|b bs IH]; [done|].
  rewrite fmap_cons. simpl. rewrite IH. lia.
Qed.

Lemma be_bytes_spec k x :
  length (Sha256.be_bytes k x) = k ∧ Forall (λ b, b < 256) (Sha256.be_bytes k x).
Proof.
  induction k as [|k [IHl IHb]]; simpl; [by split; [|constructor]|].
  split; [by rewrite IHl|]. constructor; [|done]. apply N.mod_lt. lia.
Qed.

Lemma sha256_spec msg :
  length (Sha256.sha256 msg) = 32%nat ∧ Forall (λ b, b < 256) (Sha256.sha256 msg).
Proof.
  unfold Sha256.sha256, Sha256.digest_of. split.
  - rewrite !length_app. by rewrite !(proj1 (be_bytes_spec 4 _)).
  - rewrite !Forall_app. repeat split; apply be_bytes_spec.
Qed.

(** The signature is 64 lowercase hexadecimal digits. *)
Lemma calculate_hmac_sha256_spec data secret kb mb :
  Utf8.encode secret = Some kb → Utf8.encode data = Some mb →
  ConfigEditor.calculate_hmac_sha256 data secret
  = Return (Hex.hexlify (Hmac.hmac_sha256 kb mb))
  ∧ length (Hex.hexlify (Hmac.hmac_sha256 kb mb)) = 64%nat
  ∧ Forall (λ c, Hex.is_lower_hex c = true) (Hex.hexlify (Hmac.hmac_sha256 kb mb)).
Proof.
  intros Hk Hm. unfold ConfigEditor.calculate_hmac_sha256, str_encode.
  rewrite Hk, Hm. split; [done|]. unfold Hmac.hmac_sha256.
  split.
  - by rewrite length_hexlify, (proj1 (sha256_spec _)).
  - apply lower_hex_hexlify, sha256_spec.
Qed.

(** ** Code point order is the byte order of UTF-8 *)

Lemma lor_high_low a b k : b < 2 ^ k → N.lor (a * 2 ^ k) b = a * 2 ^ k + b.
Proof.
  intros Hb. rewrite N.add_nocarry_lxor, N.lxor_lor; try done.
  all: apply N.bits_inj; intros n; rewrite N.land_spec, N.bits_0.
  all: destruct (N.lt_ge_cases n k) as [Hn|Hn];
    [by rewrite N.mul_pow2_bits_low|].
  all: rewrite <-(N.mod_small b (2 ^ k)) by done.
  all: by rewrite N.mod_pow2_bits_high, andb_false_r.
Qed.

Lemma cont_arith c k : Utf8.cont c k = 128 + (c / 2 ^ k) mod 64.
Proof.
  unfold Utf8.cont. change 63 with (N.ones 6).
  rewrite N.land_ones, N.shiftr_div_pow2.
  change 128 with (2 * 2 ^ 6) at 1. rewrite lor_high_low; [done|].
  apply N.mod_lt. lia.
Qed.

(** The bytes of each class of code points, in arithmetic form. *)
Lemma encode_char_arith c bs :
  Utf8.encode_char c = Some bs →
  (c < 0x80 ∧ bs = [c])
  ∨ (0x80 ≤ c < 0x800 ∧ bs = [192 + c / 64; 128 + c mod 64])
  ∨ (0x800 ≤ c < 0x10000
     ∧ bs = [224 + c / 4096; 128 + (c / 64) mod 64; 128 + c mod 64])
  ∨ (0x10000 ≤ c < 0x110000
     ∧ bs = [240 + c / 262144; 128 + (c / 4096) mod 64; 128 + (c / 64) mod 64;
             128 + c mod 64]).
Proof.
  unfold Utf8.encode_char.
  destruct (N.ltb_spec c 0x80); [intros [= <-]; by left|].
  assert (∀ c, c mod 64 = (c / 2 ^ 0) mod 64) as Hmod0.
  { intros x. by rewrite N.pow_0_r, N.div_1_r. }
  destruct (N.ltb_spec c 0x800).
  { intros [= <-]. right; left. split; [lia|].
    rewrite cont_arith, <-Hmod0, N.shiftr_div_pow2.
    change 192 with (3 * 2 ^ 6) at 1. rewrite lor_high_low; [done|].
    apply N.Div0.div_lt_upper_bound. simpl. lia. }
  destruct (N.ltb_spec c 0x10000).
  { destruct (_ && _); [done|]. intros [= <-]. right; right; left. split; [lia|].
    rewrite !cont_arith, <-Hmod0, N.shiftr_div_pow2.
    change 224 with (14 * 2 ^ 4) at 1. rewrite lor_high_low; [done|].
    apply N.Div0.div_lt_upper_bound. simpl. lia. }
  destruct (N.ltb_spec c 0x110000); [|done]. intros [= <-].
  right; right; right. split; [lia|].
  rewrite !cont_arith, <-Hmod0, N.shiftr_div_pow2.
  change 240 with (30 * 2 ^ 3) at 1. rewrite lor_high_low; [done|].
  apply N.Div0.div_lt_upper_bound. simpl. lia.
Qed.

Ltac euclid := zify; Z.to_euclidean_division_equations; lia.

Lemma str_lt_cons_lt a1 a2 r1 r2 : a1 < a2 → str_lt (a1 :: r1) (a2 :: r2) = true.
Proof. intros Ha. simpl. by destruct (N.compare_spec a1 a2); try lia. Qed.

Lemma str_lt_cons_eq a1 a2 r1 r2 :
  a1 = a2 → str_lt (a1 :: r1) (a2 :: r2) = str_lt r1 r2.
Proof. intros ->. simpl. by rewrite N.compare_refl. Qed.

Lemma str_lt_app_same e t1 t2 : str_lt (e ++ t1) (e ++ t2) = str_lt t1 t2.
Proof. induction e as [|a e IH]; simpl; [done|]. by rewrite N.compare_refl. Qed.

(** A smaller code point gives bytes that are smaller whatever follows. *)
Lemma encode_char_lt c1 c2 e1 e2 t1 t2 :
  Utf8.encode_char c1 = Some e1 → Utf8.encode_char c2 = Some e2 → c1 < c2 →
  str_lt (e1 ++ t1) (e2 ++ t2) = true.
Proof.
  intros H1 H2 Hlt.
  apply encode_char_arith in H1 as [[? ->]|[[? ->]|[[? ->]|[? ->]]]];
  apply encode_char_arith in H2 as [[? ->]|[[? ->]|[[? ->]|[? ->]]]];
    try lia; cbn [app].
  all: try (apply str_lt_cons_lt; euclid).
  - destruct (N.lt_total (c1 / 64) (c2 / 64)) as [Hq|[Hq|Hq]]; [|rewrite Hq|euclid].
    { apply str_lt_cons_lt. lia. }
    rewrite str_lt_cons_eq by done. apply str_lt_cons_lt. euclid.
  - destruct (N.lt_total (c1 / 4096) (c2 / 4096)) as [Hq|[Hq|Hq]]; [| |euclid].
    { apply str_lt_cons_lt. lia. }
    rewrite str_lt_cons_eq by lia.
    destruct (N.lt_total ((c1 / 64) mod 64) ((c2 / 64) mod 64)) as [Hr|[Hr|Hr]];
      [| |euclid].
    { apply str_lt_cons_lt. lia. }
    rewrite str_lt_cons_eq by lia. apply str_lt_cons_lt. euclid.
  - destruct (N.lt_total (c1 / 262144) (c2 / 262144)) as [Hq|[Hq|Hq]]; [| |euclid].
    { apply str_lt_cons_lt. lia. }
    rewrite str_lt_cons_eq by lia.
    destruct (N.lt_total ((c1 / 4096) mod 64) ((c2 / 4096) mod 64)) as [Hr|[Hr|Hr]];
      [| |euclid].
    { apply str_lt_cons_lt. lia. }
    rewrite str_lt_cons_eq by lia.
    destruct (N.lt_total ((c1 / 64) mod 64) ((c2 / 64) mod 64)) as [Hs|[Hs|Hs]];
      [| |euclid].
    { apply str_lt_cons_lt. lia. }
    rewrite str_lt_cons_eq by lia. apply str_lt_cons_lt. euclid.
Qed.

Lemma encode_char_nonempty c e : Utf8.encode_char c = Some e → e ≠ [].
Proof.
  intros He. by apply encode_char_arith in He as [[? ->]|[[? ->]|[[? ->]|[? ->]]]].
Qed.

(** Comparing two keys, or their UTF-8 bytes, gives the same answer. *)
Lemma utf8_order s1 s2 b1 b2 :
  Utf8.encode s1 = Some b1 → Utf8.encode s2 = Some b2 →
  str_lt b1 b2 = str_lt s1 s2.
Proof.
  revert s2 b1 b2. induction s1 as [|c1 s1 IH]; intros [|c2 s2] b1 b2.
  - by intros [= <-] [= <-].
  - intros [= <-]. unfold Utf8.encode; fold Utf8.encode.
    destruct (Utf8.encode_char c2) as [e2|] eqn:He2; [|done].
    destruct (Utf8.encode s2) as [t2|]; [|done]. intros [= <-].
    apply encode_char_nonempty in He2. by destruct e2.
  - intros _ [= <-]. by destruct b1.
  - unfold Utf8.encode; fold Utf8.encode.
    destruct (Utf8.encode_char c1) as [e1|] eqn:He1; [|done].
    destruct (Utf8.encode s1) as [t1|] eqn:Ht1; [|done]. intros [= <-].
    destruct (Utf8.encode_char c2) as [e2|] eqn:He2; [|done].
    destruct (Utf8.encode s2) as [t2|] eqn:Ht2; [|done]. intros [= <-].
    simpl. destruct (N.compare_spec c1 c2) as [->|Hlt|Hgt].
    + rewrite He1 in He2. injection He2 as <-.
      rewrite str_lt_app_same. by apply IH.
    + by apply (encode_char_lt c1 c2).
    + apply str_lt_asym. by apply (encode_char_lt c2 c1).
Qed.

(** ** The canonical string of an encodable value is encodable *)
Section dump_encodable.
Context `{Builtins}.

Lemma chars_ok_escape_char c :
  is_Some (Utf8.encode_char c) → chars_ok (Json.escape_char c).
Proof.
  intros Hc. unfold Json.escape_char.
  repeat (destruct (_ =? _); [apply chars_ok_low; repeat constructor; lia|]).
  destruct (c <? 32); [|by repeat constructor].
  apply chars_ok_app. split; [apply chars_ok_low; repeat constructor; lia|].
  unfold Hex.zero_pad. apply chars_ok_app. split; [|apply chars_ok_format_x].
  apply chars_ok_low, Forall_replicate. by vm_compute.
Qed.

Lemma chars_ok_encode_basestring s :
  chars_ok s → chars_ok (Json.encode_basestring s).
Proof.
  intros Hs. unfold Json.encode_basestring. rewrite !chars_ok_app.
  split; [apply chars_ok_low; repeat constructor; lia|].
  split; [|apply chars_ok_low; repeat constructor; lia].
  apply chars_ok_concat, Forall_fmap. eapply Forall_impl; [exact Hs|].
  intros c. apply chars_ok_escape_char.
Qed.

Lemma chars_ok_floatstr f : chars_ok (Json.floatstr f).
Proof.
  assert (chars_ok (float_repr f)) as Hrepr.
  { apply chars_ok_low. eapply Forall_impl; [apply float_repr_ascii|].
    intros c Hc. simpl in Hc. lia. }
  destruct f as [| [] | |]; simpl; try done; apply chars_ok_py.
Qed.

Lemma encodable_dump v :
  encodable v = true → chars_ok (ConfigEditor.dump_compact_sorted v).
Proof.
  induction v as [|b|z|f|s|l IH|d IH] using value_induction; intros Hv.
  - apply chars_ok_py.
  - destruct b; apply chars_ok_py.
  - apply chars_ok_py.
  - apply chars_ok_floatstr.
  - apply chars_ok_encode_basestring, encode_is_Some.
    by apply bool_decide_eq_true in Hv.
  - rewrite dumps_list, !chars_ok_app.
    split; [apply chars_ok_py|]. split; [|apply chars_ok_py].
    apply chars_ok_join; [apply chars_ok_py|]. apply Forall_fmap.
    simpl in Hv. rewrite forallb_forall in Hv.
    rewrite Forall_forall in IH |- *. intros x Hx. simpl.
    apply IH; [done|]. by apply Hv, list_elem_of_In.
  - rewrite dumps_dict, !chars_ok_app.
    split; [apply chars_ok_py|]. split; [|apply chars_ok_py].
    apply chars_ok_join; [apply chars_ok_py|]. apply Forall_fmap.
    rewrite sorted_items_perm.
    simpl in Hv. rewrite forallb_forall in Hv.
    rewrite Forall_forall in IH |- *. intros [k x] Hx. simpl.
    pose proof (Hv _ (proj1 (list_elem_of_In _ _) Hx)) as Hkx.
    apply andb_true_iff in Hkx as [Hk Hx'].
    unfold item_text. rewrite !chars_ok_app. simpl.
    split; [|split; [apply chars_ok_py|by apply (IH _ Hx)]].
    apply chars_ok_encode_basestring, encode_is_Some.
    by apply bool_decide_eq_true in Hk.
Qed.

End dump_encodable.

(** ** Operations on [dict] *)
Section dict.
Context {V : Type}.
Implicit Types (d : list (pystr * V)) (k : pystr) (v : V).

Lemma get_None_keys k d : Dict.get k d = None ↔ k ∉ Dict.keys d.
Proof.
  induction d as [|[k' v] d IH]; simpl.
  { split; [intros _; by inv 1|done]. }
  rewrite not_elem_of_cons. case_decide.
  - split; [done|]. intros [? _]. congruence.
  - rewrite IH. split; [|tauto]. intros ?. split; [congruence|done].
Qed.

Lemma get_set_eq k v d : Dict.get k (Dict.set k v d) = Some v.
Proof.
  induction d as [|[k' v'] d IH]; simpl; repeat (case_decide; simpl); try done.
Qed.

Lemma get_set_ne k k' v d : k ≠ k' → Dict.get k' (Dict.set k v d) = Dict.get k' d.
Proof.
  intros Hne. induction d as [|[k'' v'] d IH]; simpl;
    repeat (case_decide; simpl); subst; try done.
Qed.

Lemma get_remove_eq k d : Dict.get k (Dict.remove k d) = None.
Proof.
  induction d as [|[k' v'] d IH]; simpl; repeat (case_decide; simpl); try done.
Qed.

Lemma get_remove_ne k k' d : k ≠ k' → Dict.get k' (Dict.remove k d) = Dict.get k' d.
Proof.
  intros Hne. induction d as [|[k'' v'] d IH]; simpl;
    repeat (case_decide; simpl); subst; try done.
Qed.

Lemma remove_absent k d : k ∉ Dict.keys d → Dict.remove k d = d.
Proof.
  induction d as [|[k' v'] d IH]; simpl; [done|].
  rewrite not_elem_of_cons. intros [Hne Hd]. case_decide; [done|]. by rewrite IH.
Qed.

Lemma remove_app k d1 d2 :
  Dict.remove k (d1 ++ d2) = Dict.remove k d1 ++ Dict.remove k d2.
Proof.
  induction d1 as [|[k' v'] d1 IH]; simpl; [done|]. case_decide; by rewrite ?IH.
Qed.

Lemma keys_remove k d : Dict.keys (Dict.remove k d) = filter (λ k', k' ≠ k) (Dict.keys d).
Proof.
  induction d as [|[k' v'] d IH]; simpl; [done|].
  rewrite filter_cons. simpl. case_decide; case_decide; try done; simpl; by rewrite IH.
Qed.

Lemma NoDup_keys_remove k d : NoDup (Dict.keys d) → NoDup (Dict.keys (Dict.remove k d)).
Proof. rewrite keys_remove. apply NoDup_filter. Qed.

Lemma not_elem_of_keys_remove k d : k ∉ Dict.keys (Dict.remove k d).
Proof. rewrite keys_remove, list_elem_of_filter. by intros [? _]. Qed.

Lemma elem_of_keys_remove k k' d :
  k' ∈ Dict.keys (Dict.remove k d) → k' ≠ k ∧ k' ∈ Dict.keys d.
Proof. by rewrite keys_remove, list_elem_of_filter. Qed.

Lemma set_absent k v d : k ∉ Dict.keys d → Dict.set k v d = d ++ [(k, v)].
Proof.
  induction d as [|[k' v'] d IH]; simpl; [done|].
  rewrite not_elem_of_cons. intros [Hne Hd]. case_decide; [done|]. by rewrite IH.
Qed.

(** [for key, value in items: acc[key] = value] with keys new to [acc]. *)
Lemma foldl_set_fresh pre d :
  NoDup (Dict.keys d) → (∀ k, k ∈ Dict.keys d → k ∉ Dict.keys pre) →
  foldl (λ acc kv, Dict.set kv.1 kv.2 acc) pre d = pre ++ d.
Proof.
  revert pre. induction d as [|[k v] d IH]; intros pre Hnd Hfresh; simpl.
  { by rewrite app_nil_r. }
  simpl in Hnd. apply NoDup_cons in Hnd as [Hk Hnd].
  rewrite set_absent by (apply Hfresh; simpl; left).
  rewrite IH, <-app_assoc; [done..|].
  intros k' Hk'. unfold Dict.keys. rewrite fmap_app, not_elem_of_app. split.
  - apply Hfresh. simpl. by right.
  - simpl. rewrite list_elem_of_singleton. by intros ->.
Qed.

Lemma Forall_dict_set (P : pystr * V → Prop) k v d :
  Forall P d → P (k, v) → Forall P (Dict.set k v d).
Proof.
  intros Hd Hkv. induction Hd as [|[k' v'] d Hx Hd IH]; simpl; [by constructor|].
  case_decide; by constructor.
Qed.

Lemma Forall_dict_remove (P : pystr * V → Prop) k d :
  Forall P d → Forall P (Dict.remove k d).
Proof.
  induction 1 as [|[k' v'] d Hx Hd IH]; simpl; [constructor|].
  case_decide; [done|by constructor].
Qed.

Lemma Forall_dict_get (P : pystr * V → Prop) k v d :
  Forall P d → Dict.get k d = Some v → P (k, v).
Proof.
  induction 1 as [|[k' v'] d Hx Hd IH]; simpl; [done|].
  case_decide; [intros [= <-]; by subst|done].
Qed.
End dict.

Lemma encodable_dict d :
  encodable (JDict d) = true
  ↔ Forall (λ kv, chars_ok kv.1 ∧ encodable kv.2 = true) d.
Proof.
  simpl. rewrite forallb_forall, Forall_forall.
  split; intros Hd kv Hkv.
  - apply list_elem_of_In, Hd, andb_true_iff in Hkv as [Hk Hv].
    split; [|done]. apply encode_is_Some. by apply bool_decide_eq_true in Hk.
  - apply list_elem_of_In, Hd in Hkv as [Hk Hv].
    apply andb_true_iff. split; [|done]. apply bool_decide_eq_true. by apply encode_is_Some.
Qed.

Lemma encodable_str s : encodable (JStr s) = true ↔ chars_ok s.
Proof. simpl. by rewrite bool_decide_eq_true, encode_is_Some. Qed.


(** ** Structural equality is a reordering *)

Lemma get_Some_elem {V} k (x : V) d : Dict.get k d = Some x → (k, x) ∈ d.
Proof.
  induction d as [|[k' x'] d IH]; simpl; [done|].
  case_decide as Hk; [intros [= <-]; subst; left|right; auto].
Qed.

Lemma get_Some_keys {V} k (x : V) d : Dict.get k d = Some x → k ∈ Dict.keys d.
Proof.
  intros Hx. apply get_Some_elem in Hx. unfold Dict.keys.
  by apply (list_elem_of_fmap_2 fst) in Hx.
Qed.

Lemma keys_get_Some {V} k (d : list (pystr * V)) :
  k ∈ Dict.keys d → ∃ x, Dict.get k d = Some x.
Proof.
  induction d as [|[k' x'] d IH]; simpl; [by inv 1|].
  rewrite elem_of_cons. intros Hk. case_decide as Hk'; [by eexists|].
  destruct Hk as [->|Hk]; [done|]. by apply IH.
Qed.

Lemma get_perm {V} k (x : V) d :
  Dict.get k d = Some x → NoDup (Dict.keys d) → d ≡ₚ (k, x) :: Dict.remove k d.
Proof.
  induction d as [|[k' x'] d IH]; simpl; [done|].
  rewrite NoDup_cons. intros Hx [Hk' Hnd]. case_decide as Hk.
  - injection Hx as <-. subst k'. f_equiv.
    clear IH Hnd. induction d as [|[k'' x''] d IH]; simpl; [done|].
    simpl in Hk'. apply not_elem_of_cons in Hk' as [Hne Hk'].
    case_decide; [done|]. f_equiv. by apply IH.
  - etrans; [|apply Permutation_swap]. f_equiv. by apply IH.
Qed.

Lemma filter_ne_absent (k : pystr) (ks : list pystr) :
  k ∉ ks → filter (λ k', k' ≠ k) ks = ks.
Proof.
  induction ks as [|k' ks IH]; [done|]. rewrite not_elem_of_cons. intros [Hne Hk].
  rewrite filter_cons_True by done. by rewrite IH.
Qed.

Lemma keys_remove_perm {V} k (d : list (pystr * V)) ks :
  NoDup (k :: ks) → Dict.keys d ≡ₚ k :: ks → Dict.keys (Dict.remove k d) ≡ₚ ks.
Proof.
  intros Hnd Hp. apply NoDup_cons in Hnd as [Hk Hks].
  rewrite keys_remove, Hp, filter_cons_False by (by intros ?).
  by rewrite filter_ne_absent.
Qed.

(** Mappings with the same keys and, under each key, values that are
    reorderings of each other. *)
Lemma reordered_dict_lookup d2 : ∀ d1,
  NoDup (Dict.keys d1) → NoDup (Dict.keys d2) →
  Dict.keys d1 ≡ₚ Dict.keys d2 →
  (∀ k x, Dict.get k d1 = Some x → ∃ y, Dict.get k d2 = Some y ∧ reordered x y) →
  reordered (JDict d1) (JDict d2).
Proof.
  induction d2 as [|[k y] d2 IH]; intros d1 Hnd1 Hnd2 Hkeys Hall.
  { apply Permutation_nil_r, fmap_nil_inv in Hkeys as ->. apply reordered_refl. }
  simpl in Hkeys, Hnd2.
  destruct (keys_get_Some k d1) as [x Hx]; [rewrite Hkeys; left|].
  destruct (Hall k x Hx) as (y' & Hy' & Hxy).
  simpl in Hy'. rewrite decide_True in Hy' by done. injection Hy' as <-.
  eapply reordered_dict_perm; [by apply get_perm|].
  apply reordered_dict_cons; [done|].
  apply NoDup_cons in Hnd2 as Hnd2'. destruct Hnd2' as [Hk Hnd2'].
  apply IH; [by apply NoDup_keys_remove|done|by apply keys_remove_perm|].
  intros k' x' Hx'.
  assert (k ≠ k') as Hne.
  { intros <-. by rewrite get_remove_eq in Hx'. }
  rewrite get_remove_ne in Hx' by done.
  destruct (Hall k' x' Hx') as (y'' & Hy'' & Hxy'). simpl in Hy''.
  rewrite decide_False in Hy'' by done. eauto.
Qed.

Lemma structurally_equal_reordered v1 : ∀ v2,
  wf v1 → wf v2 → structurally_equal v1 v2 = true → reordered v1 v2.
Proof.
  induction v1 as [|b|z|f|s|l IH|d IH] using value_induction;
    intros [|b'|z'|f'|s'|l'|d'] Hwf1 Hwf2 Heq; simpl in Heq; try done;
    try (apply bool_decide_eq_true in Heq as ->; apply reordered_refl).
  - apply reordered_refl.
  - apply wf_list in Hwf1, Hwf2. revert l' Hwf2 Heq.
    induction IH as [|x l Hx IH IHl]; intros [|y l'] Hwf2 Heq; try done.
    { apply reordered_refl. }
    apply andb_true_iff in Heq as [Hxy Heq].
    apply Forall_cons in Hwf1 as [Hwx Hwl], Hwf2 as [Hwy Hwl'].
    apply reordered_list_cons; eauto.
  - apply wf_dict in Hwf1 as [Hnd1 Hwf1], Hwf2 as [Hnd2 Hwf2].
    apply andb_true_iff in Heq as [Hlen Hall].
    apply bool_decide_eq_true in Hlen. rewrite forallb_forall in Hall.
    assert (∀ k x, Dict.get k d = Some x →
              ∃ y, Dict.get k d' = Some y ∧ reordered x y) as Hlookup.
    { intros k x Hx. apply get_Some_elem in Hx as Hin.
      specialize (Hall _ (proj1 (list_elem_of_In _ _) Hin)). simpl in Hall.
      destruct (Dict.get k d') as [y|] eqn:Hy; [|done]. exists y. split; [done|].
      rewrite Forall_forall in IH, Hwf1, Hwf2.
      apply (IH _ Hin); [by apply (Hwf1 _ Hin)|by apply (Hwf2 _ (get_Some_elem _ _ _ Hy))|done]. }
    apply reordered_dict_lookup; try done.
    apply submseteq_length_Permutation.
    + apply NoDup_submseteq; [done|]. intros k Hk.
      destruct (keys_get_Some k d Hk) as [x Hx].
      destruct (Hlookup k x Hx) as (y & Hy & _). by eapply get_Some_keys.
    + unfold Dict.keys. rewrite !length_fmap. lia.
Qed.

(** C1: the canonical encoder writes the entries of every mapping in strictly
    ascending key order, as ["<key>":<value>] joined by [,] between braces,
    each value being encoded the same way (so at every depth), and the
    elements of a sequence in their own order joined by [,] between brackets;
    no other character is added.  The order of the keys is the lexicographic
    order of their code points, which is the order of their UTF-8 bytes.
    Every value structurally equal to the specification's example, in
    whatever order its keys were inserted, encodes to the text of the
    specification. *)
Theorem canonical_sorted_compact `{Builtins} :
  (∀ d, NoDup (Dict.keys d) →
     ∃ items, items ≡ₚ d ∧ StronglySorted key_lt items ∧
       ConfigEditor.dump_compact_sorted (JDict d)
       = py "{" ++ join (py ",") (item_text <$> items) ++ py "}")
  ∧ (∀ l, ConfigEditor.dump_compact_sorted (JList l)
          = py "[" ++ join (py ",") (ConfigEditor.dump_compact_sorted <$> l) ++ py "]")
  ∧ (∀ k1 k2 b1 b2, Utf8.encode k1 = Some b1 → Utf8.encode k2 = Some b2 →
       str_lt k1 k2 = str_lt b1 b2)
  ∧ (∀ v, wf v → structurally_equal v spec_example = true →
       ConfigEditor.dump_compact_sorted v = jtext "{'a':1,'b':{'y':'x','z':true}}").
Proof.
  split; [|split; [|split]].
  - intros d Hnd. exists (Dict.sorted_items d).
    split; [apply sorted_items_perm|]. split; [by apply sorted_items_strict|].
    apply dumps_dict.
  - apply dumps_list.
  - intros k1 k2 b1 b2 H1 H2. symmetry. by apply utf8_order.
  - intros v Hwf Heq.
    assert (wf (spec_example)) as Hwf' by solve_wf.
    rewrite (reordered_dump v spec_example Hwf); [by vm_compute|].
    by apply structurally_equal_reordered.
Qed.

(** C2: two values that differ only in the insertion order of mapping keys,
    at any depth (structurally equal values), have the same canonical string,
    hence the same bytes. *)
Theorem key_order_independence `{Builtins} v1 v2 :
  wf v1 → wf v2 → structurally_equal v1 v2 = true →
  ConfigEditor.dump_compact_sorted v1 = ConfigEditor.dump_compact_sorted v2
  ∧ str_encode (ConfigEditor.dump_compact_sorted v1)
    = str_encode (ConfigEditor.dump_compact_sorted v2).
Proof.
  intros Hwf1 Hwf2 Heq.
  by rewrite (reordered_dump v1 v2 Hwf1 (structurally_equal_reordered v1 v2 Hwf1 Hwf2 Heq)).
Qed.

(** ** [verify_config], case by case *)

#[local] Arguments Hmac.hmac_sha256 : simpl never.
#[local] Arguments Crc32.crc32 : simpl never.
#[local] Arguments Hex.format_08x : simpl never.
#[local] Arguments Hex.hexlify : simpl never.
#[local] Arguments Utf8.encode : simpl never.
#[local] Arguments ConfigEditor.dump_compact_sorted {_} _ : simpl never.
#[local] Arguments ConfigEditor.calculate_hmac_sha256 : simpl never.
#[local] Arguments ConfigEditor.calculate_crc32 : simpl never.

(** Text that [print] can write. *)
Lemma writable_chars_ok s : writable s = true ↔ chars_ok s.
Proof. unfold writable. by rewrite bool_decide_eq_true, encode_is_Some. Qed.

Lemma writable_format_08x n : writable (Hex.format_08x n) = true.
Proof. apply writable_chars_ok, chars_ok_format_08x. Qed.

Lemma writable_take k s : writable s = true → writable (take k s) = true.
Proof. rewrite !writable_chars_ok. apply Forall_take. Qed.

Lemma writable_hexlify key msg : writable (Hex.hexlify (Hmac.hmac_sha256 key msg)) = true.
Proof.
  apply writable_chars_ok, chars_ok_lower_hex, lower_hex_hexlify.
  unfold Hmac.hmac_sha256. apply sha256_spec.
Qed.

Section verify.
Context `{Builtins}.

(** No metadata, or metadata that is false as a condition. *)
Lemma verify_config_no_metadata filepath secret w items :
  files w !! filepath = Some (JsonText (JDict items)) →
  truthy (default (JDict []) (Dict.get ConfigEditor.k_metadata items)) = false →
  ConfigEditor.verify_config filepath secret w
  = (Return false, printed w [NoMetadataFound]).
Proof.
  intros Hfile Hfalsy.
  unfold ConfigEditor.verify_config, ConfigEditor.load_config, read_json,
    mbind, io_bind. rewrite Hfile. simpl. by rewrite Hfalsy.
Qed.

(** The CRC check, and what follows it when the HMAC check is not reached:
    the line is printed and the result returned, unless the stored checksum
    is text that cannot be written. *)
Lemma verify_config_crc_only filepath secret w items m cb :
  files w !! filepath = Some (JsonText (JDict items)) →
  Dict.get ConfigEditor.k_metadata items = Some (JDict m) → m ≠ [] →
  Utf8.encode (ConfigEditor.dump_compact_sorted (JDict (core_of items))) = Some cb →
  given_or_hmac_absent secret m →
  let calc_crc := Hex.format_08x (Crc32.crc32 cb) in
  let crc_valid := eq_str (stored_checksum m) calc_crc in
  ConfigEditor.verify_config filepath secret w
  = if printable (stored_checksum m)
    then (Return crc_valid, printed w [CrcLine crc_valid (stored_checksum m) calc_crc])
    else (Raise UnicodeEncodeError, w).
Proof.
  intros Hfile Hmeta Hm Hcb Hskip. cbv zeta.
  pose proof (calculate_crc32_encodable _ cb Hcb) as Hcrc.
  pose proof (writable_format_08x (Crc32.crc32 cb)) as Hcalc. revert Hcrc Hcalc.
  generalize (Hex.format_08x (Crc32.crc32 cb)) as calc_crc. intros calc_crc Hcrc Hcalc.
  unfold ConfigEditor.verify_config, ConfigEditor.load_config, read_json,
    mbind, io_bind. rewrite Hfile. simpl. rewrite Hmeta. simpl.
  destruct m as [|kv m]; [done|]. simpl.
  fold (core_of items). rewrite Hcrc. simpl.
  fold (stored_checksum (kv :: m)).
  unfold print at 1. cbn [line_ok]. rewrite Hcalc, andb_true_r.
  destruct (printable (stored_checksum (kv :: m))); [|done].
  destruct Hskip as [->|Hno]; [done|].
  rewrite Hno. by destruct (ConfigEditor.given secret).
Qed.

(** Both checks. *)
Lemma verify_config_both filepath secret s w items m cb kb h :
  files w !! filepath = Some (JsonText (JDict items)) →
  Dict.get ConfigEditor.k_metadata items = Some (JDict m) →
  Utf8.encode (ConfigEditor.dump_compact_sorted (JDict (core_of items))) = Some cb →
  ConfigEditor.given secret = Some s → Utf8.encode s = Some kb →
  Dict.get (py "hmac") m = Some (JStr h) → h ≠ [] →
  printable (stored_checksum m) = true → writable (take 16 h) = true →
  let calc_crc := Hex.format_08x (Crc32.crc32 cb) in
  let crc_valid := eq_str (stored_checksum m) calc_crc in
  let calc_hmac := Hex.hexlify (Hmac.hmac_sha256 kb cb) in
  let hmac_valid := bool_decide (h = calc_hmac) in
  ConfigEditor.verify_config filepath secret w
  = (Return (crc_valid && hmac_valid),
     printed w [CrcLine crc_valid (stored_checksum m) calc_crc;
                HmacLine hmac_valid (JStr (take 16 h)) (take 16 calc_hmac)]).
Proof.
  intros Hfile Hmeta Hcb Hs Hkb Hh Hne Hstored Hprefix. cbv zeta.
  destruct (calculate_hmac_sha256_spec _ _ kb cb Hkb Hcb) as (Hcalc & _ & _).
  pose proof (calculate_crc32_encodable _ cb Hcb) as Hcrc.
  pose proof (writable_format_08x (Crc32.crc32 cb)) as Hcrc_ok.
  pose proof (writable_take 16 _ (writable_hexlify kb cb)) as Hhmac_ok.
  revert Hcalc Hcrc Hcrc_ok Hhmac_ok.
  generalize (Hex.hexlify (Hmac.hmac_sha256 kb cb)) as calc_hmac.
  generalize (Hex.format_08x (Crc32.crc32 cb)) as calc_crc.
  intros calc_crc calc_hmac Hcalc Hcrc Hcrc_ok Hhmac_ok.
  unfold ConfigEditor.verify_config, ConfigEditor.load_config, read_json,
    mbind, io_bind. rewrite Hfile. simpl. rewrite Hmeta. simpl.
  destruct m as [|kv m]; [done|]. simpl.
  fold (core_of items). rewrite Hcrc. simpl.
  fold (stored_checksum (kv :: m)).
  unfold print at 1. cbn [line_ok]. rewrite Hstored, Hcrc_ok. simpl.
  rewrite Hs. unfold get_or_none. rewrite Hh. simpl.
  rewrite (bool_decide_eq_false_2 _ Hne). simpl. rewrite Hcalc. simpl.
  unfold print. cbn [line_ok printable]. rewrite Hprefix, Hhmac_ok. simpl.
  unfold printed. simpl. by rewrite <-app_assoc.
Qed.

(** Whenever the metadata is a non-empty mapping, the core value can be
    encoded and the stored checksum can be written, the CRC line is the first
    line printed, whatever follows, and the operation can only return true
    when the CRC check passed. *)
Lemma verify_config_crc_line filepath secret w items m cb :
  files w !! filepath = Some (JsonText (JDict items)) →
  Dict.get ConfigEditor.k_metadata items = Some (JDict m) → m ≠ [] →
  Utf8.encode (ConfigEditor.dump_compact_sorted (JDict (core_of items))) = Some cb →
  printable (stored_checksum m) = true →
  ∃ r more,
    ConfigEditor.verify_config filepath secret w
    = (r, printed w (CrcLine (eq_str (stored_checksum m) (Hex.format_08x (Crc32.crc32 cb)))
                             (stored_checksum m) (Hex.format_08x (Crc32.crc32 cb))
                     :: more))
    ∧ (r = Return true →
       eq_str (stored_checksum m) (Hex.format_08x (Crc32.crc32 cb)) = true).
Proof.
  intros Hfile Hmeta Hm Hcb Hstored.
  pose proof (calculate_crc32_encodable _ cb Hcb) as Hcrc.
  pose proof (writable_format_08x (Crc32.crc32 cb)) as Hcrc_ok. revert Hcrc Hcrc_ok.
  generalize (Hex.format_08x (Crc32.crc32 cb)) as calc_crc. intros calc_crc Hcrc Hcrc_ok.
  unfold ConfigEditor.verify_config, ConfigEditor.load_config, read_json,
    mbind, io_bind. rewrite Hfile. simpl. rewrite Hmeta. simpl.
  destruct m as [|kv m]; [done|]. simpl.
  fold (core_of items). rewrite Hcrc. simpl.
  fold (stored_checksum (kv :: m)).
  unfold print at 1. cbn [line_ok]. rewrite Hstored, Hcrc_ok. simpl.
  generalize (eq_str (stored_checksum (kv :: m)) calc_crc) as crc_valid.
  generalize (get_or_none (py "hmac") (kv :: m)) as stored_hmac.
  intros stored_hmac crc_valid.
  destruct (ConfigEditor.given secret) as [s|].
  2: { exists (Return crc_valid), []. split; [done|]. congruence. }
  destruct (truthy stored_hmac).
  2: { exists (Return crc_valid), []. split; [done|]. congruence. }
  destruct (ConfigEditor.calculate_hmac_sha256 _ s) as [calc_hmac|e]; simpl.
  2: { by exists (Raise e), []. }
  destruct (ConfigEditor.slice16 stored_hmac) as [prefix|e]; simpl.
  2: { by exists (Raise e), []. }
  unfold print. destruct (line_ok _); simpl.
  2: { by exists (Raise UnicodeEncodeError), []. }
  eexists _, [_]. unfold printed. simpl. rewrite <-app_assoc. split; [done|].
  intros [= Hb]. by apply andb_true_iff in Hb as [? _].
Qed.

(** The same, with a stored checksum that cannot be written: the [print] of
    the CRC line raises, and nothing is printed. *)
Lemma verify_config_unprintable filepath secret w items m cb :
  files w !! filepath = Some (JsonText (JDict items)) →
  Dict.get ConfigEditor.k_metadata items = Some (JDict m) → m ≠ [] →
  Utf8.encode (ConfigEditor.dump_compact_sorted (JDict (core_of items))) = Some cb →
  printable (stored_checksum m) = false →
  ConfigEditor.verify_config filepath secret w = (Raise UnicodeEncodeError, w).
Proof.
  intros Hfile Hmeta Hm Hcb Hstored.
  pose proof (calculate_crc32_encodable _ cb Hcb) as Hcrc. revert Hcrc.
  generalize (Hex.format_08x (Crc32.crc32 cb)) as calc_crc. intros calc_crc Hcrc.
  unfold ConfigEditor.verify_config, ConfigEditor.load_config, read_json,
    mbind, io_bind. rewrite Hfile. simpl. rewrite Hmeta. simpl.
  destruct m as [|kv m]; [done|]. simpl.
  fold (core_of items). rewrite Hcrc. simpl.
  fold (stored_checksum (kv :: m)).
  unfold print at 1. cbn [line_ok]. by rewrite Hstored.
Qed.

Lemma stored_checksum_crc m c :
  Dict.get (py "crc") m = Some (JStr c) → c ≠ [] → stored_checksum m = JStr c.
Proof.
  intros Hm Hc. unfold stored_checksum, py_or, get_or_none. rewrite Hm. simpl.
  by destruct c.
Qed.

Lemma stored_checksum_crc32 m :
  truthy (get_or_none (py "crc") m) = false →
  stored_checksum m = get_or_none (py "crc32") m.
Proof. intros Hm. unfold stored_checksum, py_or. by rewrite Hm. Qed.

Lemma format_08x_nonempty n : Hex.format_08x n ≠ [].
Proof.
  unfold Hex.format_08x, Hex.zero_pad, Hex.format_x.
  destruct (N.eqb_spec n 0) as [->|Hn]; [by vm_compute|].
  intros Hnil. apply app_eq_nil in Hnil as [_ Hnil].
  apply fmap_nil_inv in Hnil. apply (f_equal (@length _)) in Hnil.
  rewrite length_rev in Hnil.
  destruct (N.to_nat (N.size n)) eqn:Hsize.
  - destruct n; [done|]. simpl in Hsize. lia.
  - simpl in Hnil. by destruct (N.eqb_spec n 0).
Qed.

End verify.

(** ** Documents made of a record and a core value *)

Lemma core_of_core d : is_core d → core_of d = d.
Proof. intros [Hm Hp]. unfold core_of. by rewrite (remove_absent _ d Hm), remove_absent. Qed.

Lemma is_core_core_of d : is_core (core_of d).
Proof.
  unfold is_core, core_of. split; [|apply not_elem_of_keys_remove].
  intros Hk. apply elem_of_keys_remove in Hk as [_ Hk].
  by apply not_elem_of_keys_remove in Hk.
Qed.

Lemma policy_items_core d : is_core d → policy_items d = [].
Proof.
  intros [_ Hp]. unfold policy_items. by apply get_None_keys in Hp as ->.
Qed.

Lemma get_metadata_attach m policy core :
  Dict.get ConfigEditor.k_metadata (attach m policy core) = Some (JDict m).
Proof. unfold attach. simpl. by repeat case_decide. Qed.

Lemma core_of_attach m d core :
  is_core core → core_of (attach m (policy_items d) core) = core.
Proof.
  intros Hcore. unfold attach, core_of.
  change (Dict.remove ConfigEditor.k_metadata ((ConfigEditor.k_metadata, JDict m)
            :: policy_items d ++ core))
    with (Dict.remove ConfigEditor.k_metadata (policy_items d ++ core)).
  rewrite !remove_app.
  rewrite (core_of_core core Hcore : Dict.remove _ (Dict.remove _ core) = core).
  unfold policy_items. by destruct (Dict.get _ d).
Qed.


(** ** [save_config] *)
Section save.
Context `{Builtins}.

Ltac key_ne := let E := fresh in intros E; vm_compute in E; discriminate E.

Lemma save_config_spec filepath d secret w :
  NoDup (Dict.keys d) → encodable (JDict d) = true →
  (∀ s, secret = Some s → chars_ok s) → chars_ok (clock w) →
  ∃ m cb out,
    Utf8.encode (ConfigEditor.dump_compact_sorted (JDict (core_of d))) = Some cb
    ∧ ConfigEditor.save_config filepath (JDict d) secret w
      = (Return (), printed (stored w filepath (JDict (attach m (policy_items d) (core_of d)))) out)
    ∧ Dict.get (py "crc") m = Some (JStr (Hex.format_08x (Crc32.crc32 cb)))
    ∧ (ConfigEditor.given secret = None → Dict.get (py "hmac") m = None)
    ∧ (∀ s kb, ConfigEditor.given secret = Some s → Utf8.encode s = Some kb →
         Dict.get (py "hmac") m = Some (JStr (Hex.hexlify (Hmac.hmac_sha256 kb cb))))
    ∧ Dict.get (py "crc32") m = Dict.get (py "crc32") (prior_metadata d).
Proof.
  intros Hnd Henc Hsec Hclock.
  apply encodable_dict in Henc.
  assert (encodable (JDict (core_of d)) = true) as Hcore.
  { apply encodable_dict. by do 2 apply Forall_dict_remove. }
  apply encodable_dump, encode_is_Some in Hcore as [cb Hcb].
  pose proof (calculate_crc32_encodable _ cb Hcb) as Hcrc.
  pose proof (chars_ok_format_08x (Crc32.crc32 cb)) as Hcrc_ok.
  remember (Hex.format_08x (Crc32.crc32 cb)) as crc_hex eqn:Hcrc_eq.
  assert (∀ m (s : option pystr) sig ts,
    Forall (λ kv, chars_ok kv.1 ∧ encodable kv.2 = true) m → chars_ok ts →
    Dict.get (py "crc") m = Some (JStr crc_hex) →
    Dict.get (py "hmac") m = sig →
    Dict.get (py "crc32") m = Dict.get (py "crc32") (prior_metadata d) →
    ∃ m' out,
      (let metadata := Dict.set (py "timestamp") (JStr ts) m in
       let final_config := [(ConfigEditor.k_metadata, JDict metadata)] in
       let final_config :=
         match Dict.get ConfigEditor.k_update_policy d with
         | Some policy => Dict.set ConfigEditor.k_update_policy policy final_config
         | None => final_config
         end in
       let final_config :=
         foldl (λ acc kv, Dict.set kv.1 kv.2 acc) final_config (core_of d) in
       _ ← write_json filepath (JDict final_config);
       _ ← print (SavedTo filepath);
       _ ← print (SavedCrc crc_hex);
       match s with
       | Some _ => print (SavedHmac (take 16 (match get_or_none (py "hmac") metadata with
                                              | JStr h => h
                                              | _ => []
                                              end)))
       | None => mret ()
       end) w
      = (Return (), printed (stored w filepath (JDict (attach m' (policy_items d) (core_of d)))) out)
      ∧ Dict.get (py "crc") m' = Some (JStr crc_hex)
      ∧ Dict.get (py "hmac") m' = sig
      ∧ Dict.get (py "crc32") m' = Dict.get (py "crc32") (prior_metadata d)) as Htail.
  { intros m s sig ts Hm Hts Hmcrc Hmsig Hmcrc32. cbv zeta.
    set (m' := Dict.set (py "timestamp") (JStr ts) m).
    assert (match Dict.get ConfigEditor.k_update_policy d with
            | Some policy =>
                Dict.set ConfigEditor.k_update_policy policy
                  [(ConfigEditor.k_metadata, JDict m')]
            | None => [(ConfigEditor.k_metadata, JDict m')]
            end = (ConfigEditor.k_metadata, JDict m') :: policy_items d) as ->.
    { unfold policy_items. by destruct (Dict.get _ d). }
    rewrite foldl_set_fresh; cycle 1.
    { by do 2 apply NoDup_keys_remove. }
    { intros k Hk. unfold core_of in Hk.
      apply elem_of_keys_remove in Hk as [Hk1 Hk].
      apply elem_of_keys_remove in Hk as [Hk2 Hk].
      unfold policy_items. destruct (Dict.get _ d); simpl;
        rewrite ?not_elem_of_cons; repeat split; try done. all: by inv 1. }
    assert (encodable (JDict (((ConfigEditor.k_metadata, JDict m') :: policy_items d)
                               ++ core_of d)) = true) as Hok.
    { apply encodable_dict. simpl. constructor.
      - simpl. split; [apply chars_ok_py|]. apply encodable_dict.
        apply Forall_dict_set; [done|]. simpl. split; [apply chars_ok_py|].
        by apply encodable_str.
      - apply Forall_app. split; [|by do 2 apply Forall_dict_remove].
        unfold policy_items. destruct (Dict.get _ d) as [p|] eqn:Hp; [|constructor].
        constructor; [|constructor]. simpl. split; [apply chars_ok_py|].
        by destruct (Forall_dict_get _ _ _ _ Henc Hp). }
    exists m'.
    assert (∀ k, k ≠ py "timestamp" → Dict.get k m' = Dict.get k m) as Hm'.
    { intros k Hk. unfold m'. by rewrite get_set_ne. }
    assert (writable crc_hex = true) as Hwcrc by (by apply writable_chars_ok).
    assert (writable (take 16 (match get_or_none (py "hmac") m' with
                               | JStr h => h
                               | _ => []
                               end)) = true) as Hwhmac.
    { apply writable_take. unfold get_or_none.
      destruct (Dict.get (py "hmac") m') as [v|] eqn:Hv; [|done].
      destruct v as [| | | |h| |]; try done.
      rewrite Hm' in Hv by key_ne.
      apply writable_chars_ok, encodable_str.
      by destruct (Forall_dict_get _ _ _ _ Hm Hv). }
    rewrite !Hm' by key_ne. clearbody m'.
    destruct s; eexists; (split; [|done]);
      unfold mbind at 1, io_bind at 1, write_json; rewrite Hok;
      unfold mbind, io_bind, print, mret, io_ret; cbn [line_ok];
      rewrite ?Hwcrc, ?Hwhmac; simpl;
      unfold printed, stored, attach; simpl;
      rewrite <-?app_assoc; simpl; reflexivity. }
  unfold ConfigEditor.save_config, ConfigEditor.as_dict.
  unfold mbind at 1, io_bind at 1, lift at 1. cbv zeta. fold (core_of d).
  unfold mbind at 1, io_bind at 1, lift at 1. rewrite Hcrc.
  assert (match default (JDict []) (Dict.get ConfigEditor.k_metadata d) with
          | JDict m0 => m0
          | _ => []
          end = prior_metadata d) as ->.
  { unfold prior_metadata.
    destruct (Dict.get ConfigEditor.k_metadata d) as [x|]; [by destruct x|done]. }
  assert (Forall (λ kv, chars_ok kv.1 ∧ encodable kv.2 = true) (prior_metadata d))
    as Hok0.
  { unfold prior_metadata.
    destruct (Dict.get ConfigEditor.k_metadata d) as [x|] eqn:Hm; [|constructor].
    destruct x; try constructor.
    apply encodable_dict. by destruct (Forall_dict_get _ _ _ _ Henc Hm). }
  set (m1 := Dict.set (py "crc") (JStr crc_hex) (prior_metadata d)).
  set (m2 := Dict.set (py "version") _ m1).
  set (m3 := Dict.set (py "description") _ m2).
  set (m4 := Dict.set (py "encrypted") _ m3).
  assert (Forall (λ kv, chars_ok kv.1 ∧ encodable kv.2 = true) m2) as Hok2.
  { apply Forall_dict_set; [|by split; [apply chars_ok_py|]].
    apply Forall_dict_set; [done|]. split; [apply chars_ok_py|].
    by apply encodable_str. }
  assert (Forall (λ kv, chars_ok kv.1 ∧ encodable kv.2 = true) m4) as Hok4.
  { apply Forall_dict_set; [|by split; [apply chars_ok_py|]].
    apply Forall_dict_set; [done|]. split; [apply chars_ok_py|]. simpl.
    destruct (Dict.get (py "description") m2) as [x|] eqn:Hx; [|done].
    by destruct (Forall_dict_get _ _ _ _ Hok2 Hx). }
  assert (Dict.get (py "crc") m4 = Some (JStr crc_hex)) as Hcrc4.
  { unfold m4, m3, m2, m1. rewrite !get_set_ne by key_ne. apply get_set_eq. }
  assert (Dict.get (py "crc32") m4 = Dict.get (py "crc32") (prior_metadata d)) as Hold4.
  { unfold m4, m3, m2, m1. by rewrite !get_set_ne by key_ne. }
  clearbody m4. clear Hok2. clear m3 m2 m1.
  destruct (ConfigEditor.given secret) as [s|] eqn:Hgiven.
  - assert (chars_ok s) as Hs.
    { apply Hsec. destruct secret as [[|c r]|]; simpl in Hgiven; congruence. }
    apply encode_is_Some in Hs as [kb Hkb].
    destruct (calculate_hmac_sha256_spec _ _ kb cb Hkb Hcb) as (Hcalc & _ & Hhex).
    rewrite Hcalc.
    destruct (Htail (Dict.set (py "hmac") (JStr (Hex.hexlify (Hmac.hmac_sha256 kb cb))) m4)
                (Some s) (Some (JStr (Hex.hexlify (Hmac.hmac_sha256 kb cb)))) (clock w))
      as (m' & out & Hrun & Hm'crc & Hm'sig & Hm'old).
    { apply Forall_dict_set; [done|]. split; [apply chars_ok_py|].
      by apply encodable_str, chars_ok_lower_hex. }
    { done. }
    { by rewrite get_set_ne by key_ne. }
    { apply get_set_eq. }
    { by rewrite get_set_ne by key_ne. }
    exists m', cb, out. rewrite <-Hcrc_eq. split; [done|]. split; [exact Hrun|].
    split; [done|]. split; [done|]. split; [|done].
    intros s' kb' [= <-] Hkb'. congruence.
  - destruct (Htail (Dict.remove (py "hmac") m4) None None (clock w))
      as (m' & out & Hrun & Hm'crc & Hm'sig & Hm'old).
    { by apply Forall_dict_remove. }
    { done. }
    { by rewrite get_remove_ne by key_ne. }
    { apply get_remove_eq. }
    { by rewrite get_remove_ne by key_ne. }
    exists m', cb, out. rewrite <-Hcrc_eq. split; [done|]. split; [exact Hrun|].
    split; [done|]. split; [done|]. split; [|done].
    intros s' kb' [=].
Qed.

End save.

(** ** The integrity protocol *)
Section protocol.
Context `{Builtins}.

Lemma printed_nil w : printed w [] = w.
Proof. destruct w. unfold printed. simpl. by rewrite app_nil_r. Qed.

Lemma files_saved w filepath doc out :
  files (printed (stored w filepath doc) out) !! filepath = Some (JsonText doc).
Proof. simpl. apply lookup_insert_eq. Qed.

Lemma given_Some_nonempty s : s ≠ [] → ConfigEditor.given (Some s) = Some s.
Proof. by destruct s. Qed.

Lemma given_None_chars_ok secret s :
  ConfigEditor.given secret = None → secret = Some s → chars_ok s.
Proof. intros Hg ->. destruct s; [constructor|done]. Qed.

(** C3: saving a document with a non-empty secret and then verifying the
    saved file with the same secret succeeds, with the CRC check and the HMAC
    check both passing.  The save itself succeeds on every mapping whose
    strings have a UTF-8 encoding. *)
Theorem save_then_verify filepath d secret w :
  NoDup (Dict.keys d) → encodable (JDict d) = true →
  secret ≠ [] → chars_ok secret → chars_ok (clock w) →
  ∃ w1 c h,
    ConfigEditor.save_config filepath (JDict d) (Some secret) w = (Return (), w1)
    ∧ ConfigEditor.verify_config filepath (Some secret) w1
      = (Return true,
         printed w1 [CrcLine true (JStr c) c;
                     HmacLine true (JStr (take 16 h)) (take 16 h)]).
Proof.
  intros Hnd Henc Hne Hsecret Hclock.
  destruct (save_config_spec filepath d (Some secret) w Hnd Henc)
    as (m & cb & out & Hcb & Hrun & Hcrc & _ & Hsig & _); [by intros ? [= <-]|done|].
  pose proof Hsecret as Hkb. apply encode_is_Some in Hkb as [kb Hkb].
  specialize (Hsig secret kb (given_Some_nonempty _ Hne) Hkb).
  destruct (calculate_hmac_sha256_spec _ _ kb cb Hkb Hcb) as (_ & Hlen & _).
  eexists _, (Hex.format_08x (Crc32.crc32 cb)), (Hex.hexlify (Hmac.hmac_sha256 kb cb)).
  split; [exact Hrun|].
  pose proof (stored_checksum_crc m _ Hcrc (format_08x_nonempty _)) as Hstored.
  erewrite (verify_config_both filepath (Some secret) secret _ _ m cb kb);
    [|apply files_saved|apply get_metadata_attach
     |by rewrite core_of_attach by apply is_core_core_of
     |by apply given_Some_nonempty|done|exact Hsig
     |by intros Hnil; rewrite Hnil in Hlen
     |rewrite Hstored; apply writable_format_08x
     |apply writable_take, writable_hexlify].
  rewrite Hstored.
  unfold eq_str. by rewrite !bool_decide_eq_true_2.
Qed.

(** C5, as the code has it: after the core value was replaced by another one
    under an unchanged record, the CRC check passes exactly when the two
    canonical strings have the same CRC-32, and the operation cannot return
    true otherwise.  A change of the core value, of a leaf or of anything
    else, is therefore caught by the CRC check if and only if it changes the
    32-bit checksum. *)
Theorem tamper_detected_iff_crc_differs filepath d d' secret secret' w :
  NoDup (Dict.keys d) → encodable (JDict d) = true → is_core d →
  (∀ s, secret = Some s → chars_ok s) → chars_ok (clock w) →
  is_core d' → encodable (JDict d') = true →
  ∃ m cb cb' out,
    Utf8.encode (ConfigEditor.dump_compact_sorted (JDict d)) = Some cb
    ∧ Utf8.encode (ConfigEditor.dump_compact_sorted (JDict d')) = Some cb'
    ∧ ConfigEditor.save_config filepath (JDict d) secret w
      = (Return (), printed (stored w filepath (JDict (attach m [] d))) out)
    ∧ ∀ w2, files w2 !! filepath = Some (JsonText (JDict (attach m [] d'))) →
        ∃ r stored_crc calc_crc more,
          ConfigEditor.verify_config filepath secret' w2
          = (r, printed w2 (CrcLine (bool_decide (Crc32.crc32 cb' = Crc32.crc32 cb))
                                    stored_crc calc_crc :: more))
          ∧ (r = Return true → Crc32.crc32 cb' = Crc32.crc32 cb).
Proof.
  intros Hnd Henc Hcore Hsec Hclock Hcore' Henc'.
  destruct (save_config_spec filepath d secret w Hnd Henc Hsec Hclock)
    as (m & cb & out & Hcb & Hrun & Hcrc & _).
  rewrite (policy_items_core d Hcore), (core_of_core d Hcore) in *.
  apply encodable_dump, encode_is_Some in Henc' as [cb' Hcb'].
  exists m, cb, cb', out. split; [done|]. split; [done|]. split; [done|].
  intros w2 Hfile.
  assert (core_of (attach m [] d') = d') as Hcore_of.
  { rewrite <-(policy_items_core d Hcore). by apply core_of_attach. }
  destruct (verify_config_crc_line filepath secret' w2 (attach m [] d') m cb')
    as (r & more & Hverify & Htrue);
    [done|apply get_metadata_attach|by intros ->|by rewrite Hcore_of
    |rewrite (stored_checksum_crc m _ Hcrc (format_08x_nonempty _));
     apply writable_format_08x|].
  rewrite (stored_checksum_crc m _ Hcrc (format_08x_nonempty _)) in Hverify, Htrue.
  assert (eq_str (JStr (Hex.format_08x (Crc32.crc32 cb))) (Hex.format_08x (Crc32.crc32 cb'))
          = bool_decide (Crc32.crc32 cb' = Crc32.crc32 cb)) as Hflag.
  { unfold eq_str. apply bool_decide_ext. split; [|by intros ->].
    intros Heq. by apply format_08x_inj in Heq. }
  rewrite Hflag in Hverify, Htrue.
  exists r, (JStr (Hex.format_08x (Crc32.crc32 cb))), (Hex.format_08x (Crc32.crc32 cb')), more.
  split; [done|]. intros Hr. apply Htrue in Hr. by apply bool_decide_eq_true in Hr.
Qed.

(** C6: on read the stored checksum is taken from [crc], and from [crc32]
    when [crc] is absent, so a checksum under either name is compared with
    the recomputed one and printed with the outcome on the CRC line; a stored
    checksum that cannot be written (a lone surrogate) makes that [print]
    raise [UnicodeEncodeError] instead, with nothing printed.  On save the
    checksum is written under [crc], and whatever the prior metadata held
    under [crc32] is neither written nor changed. *)
Theorem checksum_field_names filepath w :
  (∀ secret items m cb c,
     files w !! filepath = Some (JsonText (JDict items)) →
     Dict.get ConfigEditor.k_metadata items = Some (JDict m) →
     Utf8.encode (ConfigEditor.dump_compact_sorted (JDict (core_of items))) = Some cb →
     (Dict.get (py "crc") m = Some (JStr c) ∧ c ≠ [])
     ∨ (Dict.get (py "crc") m = None ∧ Dict.get (py "crc32") m = Some (JStr c)) →
     if writable c
     then ∃ r more,
            ConfigEditor.verify_config filepath secret w
            = (r, printed w (CrcLine (bool_decide (c = Hex.format_08x (Crc32.crc32 cb)))
                                     (JStr c) (Hex.format_08x (Crc32.crc32 cb)) :: more))
     else ConfigEditor.verify_config filepath secret w = (Raise UnicodeEncodeError, w))
  ∧ (∀ d secret,
       NoDup (Dict.keys d) → encodable (JDict d) = true →
       (∀ s, secret = Some s → chars_ok s) → chars_ok (clock w) →
       ∃ m cb out,
         Utf8.encode (ConfigEditor.dump_compact_sorted (JDict (core_of d))) = Some cb
         ∧ ConfigEditor.save_config filepath (JDict d) secret w
           = (Return (),
              printed (stored w filepath (JDict (attach m (policy_items d) (core_of d)))) out)
         ∧ Dict.get (py "crc") m = Some (JStr (Hex.format_08x (Crc32.crc32 cb)))
         ∧ Dict.get (py "crc32") m = Dict.get (py "crc32") (prior_metadata d)).
Proof.
  split.
  - intros secret items m cb c Hfile Hmeta Hcb Hfield.
    assert (m ≠ []) as Hm.
    { intros ->. by destruct Hfield as [[Hx _]|[_ Hx]]; simpl in Hx. }
    assert (stored_checksum m = JStr c) as Hstored.
    { destruct Hfield as [[Hcrc Hc]|[Hcrc Hcrc32]].
      - by apply stored_checksum_crc.
      - rewrite stored_checksum_crc32; unfold get_or_none; by rewrite ?Hcrc, ?Hcrc32. }
    destruct (writable c) eqn:Hc.
    + destruct (verify_config_crc_line filepath secret w items m cb Hfile Hmeta Hm Hcb)
        as (r & more & Hverify & _); [by rewrite Hstored|].
      rewrite Hstored in Hverify. by exists r, more.
    + apply (verify_config_unprintable filepath secret w items m cb); try done.
      by rewrite Hstored.
  - intros d secret Hnd Henc Hsec Hclock.
    destruct (save_config_spec filepath d secret w Hnd Henc Hsec Hclock)
      as (m & cb & out & Hcb & Hrun & Hcrc & _ & _ & Hold).
    by exists m, cb, out.
Qed.

(** C7: without a secret the HMAC check is never made: the operation either
    raises with nothing printed, reports missing metadata, or prints the CRC
    line only and returns the CRC check's result.  When the checks are
    reached and either no secret is given or the metadata has no [hmac]
    field, the result is the CRC check's result and the CRC line is all that
    is printed; the one exception is a stored checksum that cannot be written
    (a lone surrogate), on which the [print] of the CRC line raises
    [UnicodeEncodeError]. *)
Theorem hmac_skipped filepath secret w :
  (ConfigEditor.given secret = None →
   ∃ r out,
     ConfigEditor.verify_config filepath secret w = (r, printed w out)
     ∧ ((∃ e, r = Raise e ∧ out = [])
        ∨ (r = Return false ∧ out = [NoMetadataFound])
        ∨ (∃ b s c, r = Return b ∧ out = [CrcLine b s c])))
  ∧ (∀ items m cb,
       files w !! filepath = Some (JsonText (JDict items)) →
       Dict.get ConfigEditor.k_metadata items = Some (JDict m) → m ≠ [] →
       Utf8.encode (ConfigEditor.dump_compact_sorted (JDict (core_of items))) = Some cb →
       ConfigEditor.given secret = None ∨ Dict.get (py "hmac") m = None →
       ConfigEditor.verify_config filepath secret w
       = if printable (stored_checksum m)
         then (Return (eq_str (stored_checksum m) (Hex.format_08x (Crc32.crc32 cb))),
               printed w [CrcLine (eq_str (stored_checksum m)
                                          (Hex.format_08x (Crc32.crc32 cb)))
                                  (stored_checksum m) (Hex.format_08x (Crc32.crc32 cb))])
         else (Raise UnicodeEncodeError, w)).
Proof.
  split.
  - intros Hgiven.
    unfold ConfigEditor.verify_config, ConfigEditor.load_config, read_json,
      mbind, io_bind, lift.
    destruct (files w !! filepath) as [[data|]|];
      [|exists (Raise JSONDecodeError), []; rewrite printed_nil; eauto
       |exists (Raise FileNotFoundError), []; rewrite printed_nil; eauto].
    destruct data as [| | | | | |items];
      try (exists (Raise AttributeError), []; rewrite printed_nil; simpl; by eauto).
    cbn [ConfigEditor.with_get].
    destruct (truthy (default (JDict []) (Dict.get ConfigEditor.k_metadata items))) eqn:Ht;
      cbn [negb].
    2: { exists (Return false), [NoMetadataFound]. split; [done|]. right. by left. }
    destruct (default (JDict []) (Dict.get ConfigEditor.k_metadata items))
      as [| | | | | |m];
      try (exists (Raise AttributeError), []; rewrite printed_nil; simpl; by eauto).
    cbn [ConfigEditor.with_get].
    destruct (ConfigEditor.calculate_crc32 _) as [calc_crc|e];
      [|exists (Raise e), []; rewrite printed_nil; by eauto].
    unfold mbind, io_bind, print. destruct (line_ok _);
      [|exists (Raise UnicodeEncodeError), []; rewrite printed_nil; by eauto].
    rewrite Hgiven. eexists _, [_]. split; [reflexivity|]. right. right. eauto.
  - intros items m cb Hfile Hmeta Hm Hcb Hskip.
    apply (verify_config_crc_only filepath secret w items m cb); try done.
    destruct Hskip as [Hg|Hh]; [by left|right]. unfold get_or_none. by rewrite Hh.
Qed.

(** C8: without a secret the save still computes the CRC and writes it under
    [crc], and the metadata written has no [hmac] field, also when the prior
    metadata had one. *)
Theorem save_without_secret filepath d secret w :
  NoDup (Dict.keys d) → encodable (JDict d) = true →
  ConfigEditor.given secret = None → chars_ok (clock w) →
  ∃ m cb out,
    Utf8.encode (ConfigEditor.dump_compact_sorted (JDict (core_of d))) = Some cb
    ∧ ConfigEditor.save_config filepath (JDict d) secret w
      = (Return (),
         printed (stored w filepath (JDict (attach m (policy_items d) (core_of d)))) out)
    ∧ Dict.get (py "crc") m = Some (JStr (Hex.format_08x (Crc32.crc32 cb)))
    ∧ Dict.get (py "hmac") m = None.
Proof.
  intros Hnd Henc Hgiven Hclock.
  destruct (save_config_spec filepath d secret w Hnd Henc)
    as (m & cb & out & Hcb & Hrun & Hcrc & Hnone & _);
    [intros s Hs; by apply (given_None_chars_ok secret)|done|].
  exists m, cb, out. auto.
Qed.

(** C9: a document without [__metadata__], or whose [__metadata__] is empty
    (false as a condition), makes verification print its message and return
    false; nothing is raised. *)
Theorem verify_without_metadata filepath secret w items :
  files w !! filepath = Some (JsonText (JDict items)) →
  Dict.get ConfigEditor.k_metadata items = None
  ∨ (∃ mv, Dict.get ConfigEditor.k_metadata items = Some mv ∧ truthy mv = false) →
  ConfigEditor.verify_config filepath secret w
  = (Return false, printed w [NoMetadataFound]).
Proof.
  intros Hfile Hmeta. apply (verify_config_no_metadata _ _ _ items); [done|].
  by destruct Hmeta as [->|(mv & -> & Hmv)].
Qed.

(** C10: an empty string under [crc] counts as absent: the value stored
    under [crc32] is the one compared with the recomputed checksum and
    printed on the CRC line; when that value is text that cannot be written
    (a lone surrogate) the [print] raises [UnicodeEncodeError] instead. *)
Theorem empty_crc_falls_back_to_crc32 filepath secret w items m cb :
  files w !! filepath = Some (JsonText (JDict items)) →
  Dict.get ConfigEditor.k_metadata items = Some (JDict m) →
  Utf8.encode (ConfigEditor.dump_compact_sorted (JDict (core_of items))) = Some cb →
  Dict.get (py "crc") m = Some (JStr []) →
  stored_checksum m = get_or_none (py "crc32") m
  ∧ (if printable (get_or_none (py "crc32") m)
     then ∃ r more,
            ConfigEditor.verify_config filepath secret w
            = (r, printed w (CrcLine (eq_str (get_or_none (py "crc32") m)
                                             (Hex.format_08x (Crc32.crc32 cb)))
                                     (get_or_none (py "crc32") m)
                                     (Hex.format_08x (Crc32.crc32 cb)) :: more))
     else ConfigEditor.verify_config filepath secret w = (Raise UnicodeEncodeError, w))
  ∧ (Dict.get (py "crc32") m = Some (JStr (Hex.format_08x (Crc32.crc32 cb))) →
     eq_str (stored_checksum m) (Hex.format_08x (Crc32.crc32 cb)) = true).
Proof.
  intros Hfile Hmeta Hcb Hcrc.
  assert (stored_checksum m = get_or_none (py "crc32") m) as Hstored.
  { apply stored_checksum_crc32. unfold get_or_none. by rewrite Hcrc. }
  split; [done|]. split.
  - destruct (printable (get_or_none (py "crc32") m)) eqn:Hprintable.
    + destruct (verify_config_crc_line filepath secret w items m cb)
        as (r & more & Hverify & _); [done|done|by intros ->|done|by rewrite Hstored|].
      rewrite Hstored in Hverify. by exists r, more.
    + apply (verify_config_unprintable filepath secret w items m cb); try done;
        [by intros ->|by rewrite Hstored].
  - intros Hcrc32. rewrite Hstored. unfold get_or_none. rewrite Hcrc32. simpl.
    by apply bool_decide_eq_true_2.
Qed.

End protocol.

(** * Further properties of the program *)

(** ** [save_config] in closed form *)
Section save_closed_form.
Context `{Builtins}.

Ltac key_ne := let E := fresh in intros E; vm_compute in E; discriminate E.

(** The part of [save_config] after the record is complete but for the
    timestamp. *)
Lemma calculate_crc32_writable data h :
  ConfigEditor.calculate_crc32 data = Return h → writable h = true.
Proof.
  destruct (Utf8.encode data) as [cb|] eqn:Hcb.
  - rewrite (calculate_crc32_encodable data cb Hcb). intros [= <-].
    apply writable_format_08x.
  - unfold ConfigEditor.calculate_crc32, str_encode. by rewrite Hcb.
Qed.

Lemma calculate_hmac_sha256_writable data secret h :
  ConfigEditor.calculate_hmac_sha256 data secret = Return h → writable h = true.
Proof.
  unfold ConfigEditor.calculate_hmac_sha256, str_encode.
  destruct (Utf8.encode secret) as [kb|]; [|done].
  destruct (Utf8.encode data) as [mb|]; [|done].
  intros [= <-]. apply writable_hexlify.
Qed.

Lemma save_config_unfold filepath data secret w :
  ConfigEditor.save_config filepath data secret w
  = match ConfigEditor.as_dict data with
    | Raise e => (Raise e, w)
    | Return d =>
        let core_json := ConfigEditor.dump_compact_sorted (JDict (core_of d)) in
        match ConfigEditor.calculate_crc32 core_json with
        | Raise e => (Raise e, w)
        | Return crc_hex =>
            match (match ConfigEditor.given secret with
                   | Some s =>
                       match ConfigEditor.calculate_hmac_sha256 core_json s with
                       | Return h => Return (Some h)
                       | Raise e => Raise e
                       end
                   | None => Return None
                   end) with
            | Raise e => (Raise e, w)
            | Return signature =>
                let m := record_of (prior_metadata d) crc_hex signature (clock w) in
                let final_config :=
                  foldl (λ acc kv, Dict.set kv.1 kv.2 acc)
                        (match Dict.get ConfigEditor.k_update_policy d with
                         | Some policy =>
                             Dict.set ConfigEditor.k_update_policy policy
                                      [(ConfigEditor.k_metadata, JDict m)]
                         | None => [(ConfigEditor.k_metadata, JDict m)]
                         end)
                        (core_of d) in
                if encodable (JDict final_config)
                then (Return (),
                      printed (stored w filepath (JDict final_config))
                              (saved_lines filepath crc_hex signature))
                else (Raise UnicodeEncodeError,
                      World (<[filepath := OtherText]> (files w)) (clock w) (stdout w))
            end
        end
    end.
Proof.
  unfold ConfigEditor.save_config.
  unfold mbind at 1, io_bind at 1, lift at 1.
  destruct (ConfigEditor.as_dict data) as [d|e]; [|done].
  cbv zeta. fold (core_of d).
  unfold mbind at 1, io_bind at 1, lift at 1.
  destruct (ConfigEditor.calculate_crc32 _) as [crc_hex|e] eqn:Hcrc; [|done].
  apply calculate_crc32_writable in Hcrc.
  assert (match default (JDict []) (Dict.get ConfigEditor.k_metadata d) with
          | JDict m0 => m0
          | _ => []
          end = prior_metadata d) as ->.
  { unfold prior_metadata.
    destruct (Dict.get ConfigEditor.k_metadata d) as [x|]; [by destruct x|done]. }
  fold (normalised (prior_metadata d) crc_hex).
  unfold mbind at 1, io_bind at 1, lift at 1.
  destruct (ConfigEditor.given secret) as [s|].
  - destruct (ConfigEditor.calculate_hmac_sha256 _ s) as [h|e] eqn:Hh; [|done].
    apply calculate_hmac_sha256_writable in Hh.
    unfold mbind at 1, result_bind at 1, mret at 1, result_ret at 1.
    unfold mbind at 1, io_bind at 1, now at 1.
    change (Dict.set (py "hmac") (JStr h) (normalised (prior_metadata d) crc_hex))
      with (signed (normalised (prior_metadata d) crc_hex) (Some h)).
    fold (record_of (prior_metadata d) crc_hex (Some h) (clock w)).
    unfold mbind at 1, io_bind at 1, write_json at 1.
    destruct (encodable _); [|done].
    unfold mbind, io_bind, print, printed, stored, saved_lines.
    unfold get_or_none, record_of, signed.
    rewrite get_set_ne by key_ne. rewrite get_set_eq.
    cbn [line_ok default from_option id]. rewrite Hcrc, (writable_take 16 h Hh). simpl.
    by rewrite <-!app_assoc.
  - unfold mret at 1, result_ret at 1.
    unfold mbind at 1, io_bind at 1, now at 1.
    change (Dict.remove (py "hmac") (normalised (prior_metadata d) crc_hex))
      with (signed (normalised (prior_metadata d) crc_hex) None).
    fold (record_of (prior_metadata d) crc_hex None (clock w)).
    unfold mbind at 1, io_bind at 1, write_json at 1.
    destruct (encodable _); [|done].
    unfold mbind, io_bind, print, printed, stored, saved_lines, mret, io_ret.
    cbn [line_ok]. rewrite Hcrc. simpl.
    by rewrite <-!app_assoc.
Qed.

End save_closed_form.

Section save_outcomes.
Context `{Builtins}.

Ltac key_ne := let E := fresh in intros E; vm_compute in E; discriminate E.

Lemma remove_filter {V} k (d : list (pystr * V)) :
  Dict.remove k d = filter (λ kv, kv.1 ≠ k) d.
Proof.
  induction d as [|[k' v] d IH]; [done|]. simpl. rewrite filter_cons. simpl.
  case_decide; case_decide; try done. by rewrite IH.
Qed.

(** The loop that rebuilds the document. *)
Lemma final_config_attach d m :
  NoDup (Dict.keys d) →
  foldl (λ acc kv, Dict.set kv.1 kv.2 acc)
        (match Dict.get ConfigEditor.k_update_policy d with
         | Some policy =>
             Dict.set ConfigEditor.k_update_policy policy
                      [(ConfigEditor.k_metadata, JDict m)]
         | None => [(ConfigEditor.k_metadata, JDict m)]
         end)
        (core_of d)
  = attach m (policy_items d) (core_of d).
Proof.
  intros Hnd.
  assert (match Dict.get ConfigEditor.k_update_policy d with
          | Some policy =>
              Dict.set ConfigEditor.k_update_policy policy
                [(ConfigEditor.k_metadata, JDict m)]
          | None => [(ConfigEditor.k_metadata, JDict m)]
          end = (ConfigEditor.k_metadata, JDict m) :: policy_items d) as ->.
  { unfold policy_items. by destruct (Dict.get _ d). }
  rewrite foldl_set_fresh; [done|by do 2 apply NoDup_keys_remove|].
  intros k Hk. unfold core_of in Hk.
  apply elem_of_keys_remove in Hk as [Hk1 Hk].
  apply elem_of_keys_remove in Hk as [Hk2 Hk].
  unfold policy_items. destruct (Dict.get _ d); simpl;
    rewrite ?not_elem_of_cons; repeat split; try done. all: by inv 1.
Qed.

Lemma calculate_crc32_Return data h :
  ConfigEditor.calculate_crc32 data = Return h ↔
  ∃ cb, Utf8.encode data = Some cb ∧ h = Hex.format_08x (Crc32.crc32 cb).
Proof.
  split.
  - destruct (Utf8.encode data) as [cb|] eqn:Hcb.
    + rewrite (calculate_crc32_encodable data cb Hcb). intros [= <-]. by exists cb.
    + unfold ConfigEditor.calculate_crc32, str_encode. by rewrite Hcb.
  - intros (cb & Hcb & ->). by apply calculate_crc32_encodable.
Qed.

Lemma calculate_crc32_Raise data e :
  ConfigEditor.calculate_crc32 data = Raise e ↔
  Utf8.encode data = None ∧ e = UnicodeEncodeError.
Proof.
  unfold ConfigEditor.calculate_crc32, str_encode.
  destruct (Utf8.encode data) as [cb|]; simpl; split; try done.
  - by intros [? ?].
  - by intros [= <-].
  - by intros [_ ->].
Qed.

Lemma signature_Return secret core_json cb :
  Utf8.encode core_json = Some cb →
  match ConfigEditor.given secret with
  | Some s =>
      match ConfigEditor.calculate_hmac_sha256 core_json s with
      | Return h => Return (Some h)
      | Raise e => Raise e
      end
  | None => Return None
  end
  = match signature_of secret cb with
    | Some signature => Return signature
    | None => Raise UnicodeEncodeError
    end.
Proof.
  intros Hcb. unfold signature_of.
  destruct (ConfigEditor.given secret) as [s|]; [|done].
  unfold ConfigEditor.calculate_hmac_sha256, str_encode.
  destruct (Utf8.encode s) as [kb|]; [|done]. by rewrite Hcb.
Qed.

(** Every outcome of [save_config] on a mapping. *)
Lemma save_config_outcome filepath d secret w :
  NoDup (Dict.keys d) →
  ConfigEditor.save_config filepath (JDict d) secret w
  = match Utf8.encode (ConfigEditor.dump_compact_sorted (JDict (core_of d))) with
    | None => (Raise UnicodeEncodeError, w)
    | Some cb =>
        match signature_of secret cb with
        | None => (Raise UnicodeEncodeError, w)
        | Some signature =>
            let crc_hex := Hex.format_08x (Crc32.crc32 cb) in
            let m := record_of (prior_metadata d) crc_hex signature (clock w) in
            let doc := JDict (attach m (policy_items d) (core_of d)) in
            if encodable doc
            then (Return (), printed (stored w filepath doc)
                                     (saved_lines filepath crc_hex signature))
            else (Raise UnicodeEncodeError,
                  World (<[filepath := OtherText]> (files w)) (clock w) (stdout w))
        end
    end.
Proof.
  intros Hnd. rewrite save_config_unfold. cbn [ConfigEditor.as_dict]. cbv zeta.
  destruct (Utf8.encode _) as [cb|] eqn:Hcb.
  - rewrite (calculate_crc32_encodable _ cb Hcb).
    rewrite (signature_Return secret _ cb Hcb).
    destruct (signature_of secret cb) as [signature|]; [|done].
    by rewrite final_config_attach.
  - destruct (ConfigEditor.calculate_crc32 _) as [h|e] eqn:Hcrc.
    + apply calculate_crc32_Return in Hcrc as (cb & Hcb' & _). congruence.
    + by apply calculate_crc32_Raise in Hcrc as [_ ->].
Qed.

End save_outcomes.

(** ** The integrity record, field by field *)
Section record_facts.
Context `{Builtins}.

Ltac key_ne := let E := fresh in intros E; vm_compute in E; discriminate E.
Ltac lookup :=
  repeat first [ rewrite get_set_eq | rewrite get_set_ne by key_ne
               | rewrite get_remove_ne by key_ne ].

Lemma get_normalised_version prior crc_hex :
  Dict.get (py "version") (normalised prior crc_hex)
  = Some (JInt (default 1%Z (ConfigEditor.py_int
                               (default (JInt 1) (Dict.get (py "version") prior))))).
Proof. unfold normalised. by lookup. Qed.

Lemma get_normalised_description prior crc_hex :
  Dict.get (py "description") (normalised prior crc_hex)
  = Some (default (JStr []) (Dict.get (py "description") prior)).
Proof. unfold normalised. by lookup. Qed.

Lemma get_normalised_encrypted prior crc_hex :
  Dict.get (py "encrypted") (normalised prior crc_hex)
  = Some (JBool (truthy (default (JBool false) (Dict.get (py "encrypted") prior)))).
Proof. unfold normalised. by lookup. Qed.

Lemma get_normalised_crc prior crc_hex :
  Dict.get (py "crc") (normalised prior crc_hex) = Some (JStr crc_hex).
Proof. unfold normalised. by lookup. Qed.

Lemma get_normalised_other k prior crc_hex :
  k ∉ [py "crc"; py "version"; py "description"; py "encrypted"] →
  Dict.get k (normalised prior crc_hex) = Dict.get k prior.
Proof.
  rewrite !not_elem_of_cons. intros (? & ? & ? & ? & _).
  unfold normalised. by rewrite !get_set_ne.
Qed.

Lemma get_signed_hmac m signature :
  Dict.get (py "hmac") (signed m signature) = JStr <$> signature.
Proof. destruct signature; simpl; [apply get_set_eq|apply get_remove_eq]. Qed.

Lemma get_signed_other k m signature :
  k ≠ py "hmac" → Dict.get k (signed m signature) = Dict.get k m.
Proof.
  intros Hk. destruct signature; simpl; [by apply get_set_ne|by apply get_remove_ne].
Qed.

Lemma record_of_lookup prior crc_hex signature timestamp :
  let m := record_of prior crc_hex signature timestamp in
  Dict.get (py "crc") m = Some (JStr crc_hex)
  ∧ Dict.get (py "version") m
    = Some (JInt (default 1%Z (ConfigEditor.py_int
                                 (default (JInt 1) (Dict.get (py "version") prior)))))
  ∧ Dict.get (py "description") m
    = Some (default (JStr []) (Dict.get (py "description") prior))
  ∧ Dict.get (py "encrypted") m
    = Some (JBool (truthy (default (JBool false) (Dict.get (py "encrypted") prior))))
  ∧ Dict.get (py "hmac") m = JStr <$> signature
  ∧ Dict.get (py "timestamp") m = Some (JStr timestamp)
  ∧ ∀ k, k ∉ record_keys → Dict.get k m = Dict.get k prior.
Proof.
  cbv zeta. unfold record_of. repeat split.
  - rewrite get_set_ne by key_ne. rewrite get_signed_other by key_ne.
    apply get_normalised_crc.
  - rewrite get_set_ne by key_ne. rewrite get_signed_other by key_ne.
    apply get_normalised_version.
  - rewrite get_set_ne by key_ne. rewrite get_signed_other by key_ne.
    apply get_normalised_description.
  - rewrite get_set_ne by key_ne. rewrite get_signed_other by key_ne.
    apply get_normalised_encrypted.
  - rewrite get_set_ne by key_ne. apply get_signed_hmac.
  - apply get_set_eq.
  - intros k. unfold record_keys. rewrite !not_elem_of_cons.
    intros (? & ? & ? & ? & ? & ? & _).
    rewrite get_set_ne by done. rewrite get_signed_other by done.
    apply get_normalised_other. rewrite !not_elem_of_cons.
    repeat split; try done. apply not_elem_of_nil.
Qed.

End record_facts.

(** ** The sections of a document as sublists of it *)

Lemma policy_items_filter d :
  NoDup (Dict.keys d) →
  policy_items d = filter (λ kv, kv.1 = ConfigEditor.k_update_policy) d.
Proof.
  unfold policy_items. induction d as [|[k v] d IH]; [done|].
  simpl. rewrite NoDup_cons. intros [Hk Hd]. rewrite filter_cons. simpl.
  case_decide as Hkp.
  - subst k. apply get_None_keys in Hk.
    rewrite Hk in IH. by rewrite <-IH.
  - by apply IH.
Qed.

Lemma core_of_filter d :
  core_of d
  = filter (λ kv, kv.1 ≠ ConfigEditor.k_metadata ∧ kv.1 ≠ ConfigEditor.k_update_policy) d.
Proof.
  unfold core_of. rewrite !remove_filter, list_filter_filter.
  apply list_filter_iff. intros kv. tauto.
Qed.

(** ** A lone surrogate anywhere in a value shows in its canonical string *)
Section dump_unencodable.
Context `{Builtins}.

Lemma chars_ok_join_inv sep parts :
  chars_ok (join sep parts) → Forall chars_ok parts.
Proof.
  induction parts as [|p parts IH]; simpl; [constructor|].
  destruct parts as [|q parts]; [by repeat constructor|].
  rewrite !chars_ok_app. intros (Hp & _ & Hrest). constructor; [done|by apply IH].
Qed.

Lemma chars_ok_concat_inv parts : chars_ok (concat parts) → Forall chars_ok parts.
Proof.
  induction parts as [|p parts IH]; simpl; [constructor|].
  rewrite chars_ok_app. intros [Hp Hrest]. constructor; [done|by apply IH].
Qed.

Lemma chars_ok_escape_char_inv c :
  chars_ok (Json.escape_char c) → is_Some (Utf8.encode_char c).
Proof.
  unfold Json.escape_char.
  repeat match goal with
         | |- context [c =? ?n] =>
             destruct (N.eqb_spec c n) as [->|_]; [intros _; by apply encode_char_low|]
         end.
  destruct (N.ltb_spec c 32); [intros _; apply encode_char_low; lia|].
  intros Hc. by apply Forall_cons in Hc as [? _].
Qed.

Lemma chars_ok_encode_basestring_inv s :
  chars_ok (Json.encode_basestring s) → chars_ok s.
Proof.
  unfold Json.encode_basestring. rewrite !chars_ok_app. intros (_ & Hs & _).
  apply chars_ok_concat_inv in Hs. rewrite Forall_fmap in Hs.
  eapply Forall_impl; [exact Hs|]. intros c. apply chars_ok_escape_char_inv.
Qed.

Lemma dump_encodable v :
  chars_ok (ConfigEditor.dump_compact_sorted v) → encodable v = true.
Proof.
  induction v as [|b|z|f|s|l IH|d IH] using value_induction; intros Hv; try done.
  - apply chars_ok_encode_basestring_inv in Hv.
    by apply bool_decide_eq_true_2, encode_is_Some.
  - rewrite dumps_list, !chars_ok_app in Hv. destruct Hv as (_ & Hv & _).
    apply chars_ok_join_inv in Hv. rewrite Forall_fmap in Hv.
    simpl. apply forallb_forall. intros x Hx. apply list_elem_of_In in Hx.
    rewrite Forall_forall in IH, Hv. apply IH; [done|]. by apply Hv.
  - rewrite dumps_dict, !chars_ok_app in Hv. destruct Hv as (_ & Hv & _).
    apply chars_ok_join_inv in Hv. rewrite Forall_fmap in Hv.
    rewrite sorted_items_perm in Hv.
    simpl. apply forallb_forall. intros [k x] Hx. apply list_elem_of_In in Hx.
    rewrite Forall_forall in IH, Hv. specialize (Hv _ Hx). simpl in Hv.
    unfold item_text in Hv. rewrite !chars_ok_app in Hv. simpl in Hv.
    destruct Hv as (Hk & _ & Hx').
    apply andb_true_iff. split.
    + by apply bool_decide_eq_true_2, encode_is_Some, chars_ok_encode_basestring_inv.
    + by apply (IH _ Hx).
Qed.

Lemma encode_dump_None v :
  encodable v = false → Utf8.encode (ConfigEditor.dump_compact_sorted v) = None.
Proof.
  intros Hv. destruct (Utf8.encode _) as [cb|] eqn:Hcb; [|done].
  assert (encodable v = true) as Hv'; [|congruence].
  apply dump_encodable, encode_is_Some. by rewrite Hcb.
Qed.

Lemma encode_dump_Some v :
  encodable v = true → is_Some (Utf8.encode (ConfigEditor.dump_compact_sorted v)).
Proof. intros Hv. by apply encode_is_Some, encodable_dump. Qed.

End dump_unencodable.

Lemma encodable_cons k v d :
  encodable (JDict ((k, v) :: d))
  = bool_decide (is_Some (Utf8.encode k)) && encodable v && encodable (JDict d).
Proof. done. Qed.

Lemma encodable_app d1 d2 :
  encodable (JDict (d1 ++ d2)) = encodable (JDict d1) && encodable (JDict d2).
Proof. simpl. apply forallb_app. Qed.

Lemma encodable_attach m policy core :
  encodable (JDict (attach m policy core))
  = encodable (JDict m) && encodable (JDict policy) && encodable (JDict core).
Proof.
  unfold attach. rewrite encodable_cons, encodable_app.
  assert (bool_decide (is_Some (Utf8.encode ConfigEditor.k_metadata)) = true) as ->
    by (by vm_compute).
  by rewrite andb_assoc.
Qed.

Lemma encodable_get k v d :
  encodable (JDict d) = true → Dict.get k d = Some v → encodable v = true.
Proof.
  intros Hd Hk. apply encodable_dict in Hd.
  by apply (Forall_dict_get _ _ _ _ Hd) in Hk as [_ ?].
Qed.

(** ** What [save_config] leaves on disk *)
Section save_properties.
Context `{Builtins}.

Lemma save_config_returns filepath d secret w w1 :
  NoDup (Dict.keys d) →
  ConfigEditor.save_config filepath (JDict d) secret w = (Return (), w1) →
  ∃ cb signature,
    Utf8.encode (ConfigEditor.dump_compact_sorted (JDict (core_of d))) = Some cb
    ∧ signature_of secret cb = Some signature
    ∧ w1 = printed
             (stored w filepath
                (JDict (attach (record_of (prior_metadata d)
                                          (Hex.format_08x (Crc32.crc32 cb))
                                          signature (clock w))
                               (policy_items d) (core_of d))))
             (saved_lines filepath (Hex.format_08x (Crc32.crc32 cb)) signature).
Proof.
  intros Hnd. rewrite save_config_outcome by done.
  destruct (Utf8.encode _) as [cb|]; [|done].
  destruct (signature_of secret cb) as [signature|] eqn:Hsig; [|done]. cbv zeta.
  destruct (encodable _); [|done]. intros [= <-]. by exists cb, signature.
Qed.

(** X1: the document a successful save writes starts with [__metadata__],
    continues with [__update_policy__] when the document given had one, and
    ends with all the other top-level entries, in the order and with the
    values they had. *)
Theorem save_config_layout filepath d secret w w1 :
  NoDup (Dict.keys d) →
  ConfigEditor.save_config filepath (JDict d) secret w = (Return (), w1) →
  ∃ m,
    files w1 !! filepath
    = Some (JsonText (JDict
        ((ConfigEditor.k_metadata, JDict m)
         :: filter (λ kv, kv.1 = ConfigEditor.k_update_policy) d
         ++ filter (λ kv, kv.1 ≠ ConfigEditor.k_metadata
                          ∧ kv.1 ≠ ConfigEditor.k_update_policy) d))).
Proof.
  intros Hnd Hsave.
  apply save_config_returns in Hsave as (cb & signature & _ & _ & ->); [|done].
  eexists. rewrite files_saved. unfold attach.
  by rewrite <-policy_items_filter, <-core_of_filter.
Qed.

(** X2: the metadata a successful save writes.  [version] is the integer the
    prior value converts to with [int()], and 1 when there was none or the
    conversion fails; [description] is the prior value, whatever its type,
    and the empty string when there was none; [encrypted] is the truth value
    of the prior value; [timestamp] is the time of the save; every field of
    the prior metadata the tool does not know is carried over unchanged. *)
Theorem save_config_metadata filepath d secret w w1 :
  NoDup (Dict.keys d) →
  ConfigEditor.save_config filepath (JDict d) secret w = (Return (), w1) →
  ∃ doc m,
    files w1 !! filepath = Some (JsonText (JDict doc))
    ∧ Dict.get ConfigEditor.k_metadata doc = Some (JDict m)
    ∧ Dict.get (py "version") m
      = Some (JInt (match Dict.get (py "version") (prior_metadata d) with
                    | Some v => default 1%Z (ConfigEditor.py_int v)
                    | None => 1%Z
                    end))
    ∧ Dict.get (py "description") m
      = Some (default (JStr []) (Dict.get (py "description") (prior_metadata d)))
    ∧ Dict.get (py "encrypted") m
      = Some (JBool (match Dict.get (py "encrypted") (prior_metadata d) with
                     | Some v => truthy v
                     | None => false
                     end))
    ∧ Dict.get (py "timestamp") m = Some (JStr (clock w))
    ∧ ∀ k, k ∉ record_keys → Dict.get k m = Dict.get k (prior_metadata d).
Proof.
  intros Hnd Hsave.
  apply save_config_returns in Hsave as (cb & signature & _ & _ & ->); [|done].
  eexists _, _. rewrite files_saved. split; [done|].
  split; [apply get_metadata_attach|].
  destruct (record_of_lookup (prior_metadata d) (Hex.format_08x (Crc32.crc32 cb))
              signature (clock w)) as (_ & Hv & Hd & He & _ & Ht & Hother).
  repeat split; try done.
  - rewrite Hv. destruct (Dict.get (py "version") (prior_metadata d)); reflexivity.
  - rewrite He. destruct (Dict.get (py "encrypted") (prior_metadata d)); reflexivity.
Qed.

(** What a save can change, whatever its outcome. *)
Lemma save_config_effects filepath data secret w r w1 :
  ConfigEditor.save_config filepath data secret w = (r, w1) →
  clock w1 = clock w
  ∧ (∀ other, other ≠ filepath → files w1 !! other = files w !! other)
  ∧ match r with
    | Return _ =>
        (∃ doc, files w1 !! filepath = Some (JsonText doc))
        ∧ ∃ out, stdout w1 = stdout w ++ out
    | Raise e =>
        stdout w1 = stdout w
        ∧ (files w1 = files w
           ∨ (e = UnicodeEncodeError ∧ files w1 = <[filepath := OtherText]> (files w)))
    end.
Proof.
  rewrite save_config_unfold.
  destruct (ConfigEditor.as_dict data) as [d|e]; [|intros [= <- <-]; auto].
  cbv zeta.
  destruct (ConfigEditor.calculate_crc32 _) as [crc_hex|e]; [|intros [= <- <-]; auto].
  destruct (match ConfigEditor.given secret with Some _ => _ | None => _ end)
    as [signature|e]; [|intros [= <- <-]; auto].
  destruct (encodable _); intros [= <- <-]; simpl.
  - split; [done|]. split; [intros other Hother; by apply lookup_insert_ne|].
    split; [|by eexists]. eexists. apply lookup_insert_eq.
  - split; [done|]. split; [intros other Hother; by apply lookup_insert_ne|]. auto.
Qed.

(** X3: a save touches one file.  Whatever the outcome, the clock and every
    other file are as before.  When the save returns, the file holds a JSON
    document and lines were only added to the output.  When it raises,
    nothing was printed, and either no file changed at all or the exception
    is [UnicodeEncodeError] from the write and the file is left with text
    that is not JSON. *)
Theorem save_config_frame filepath data secret w r w1 :
  ConfigEditor.save_config filepath data secret w = (r, w1) →
  clock w1 = clock w
  ∧ (∀ other, other ≠ filepath → files w1 !! other = files w !! other)
  ∧ match r with
    | Return _ =>
        (∃ doc, files w1 !! filepath = Some (JsonText doc))
        ∧ ∃ out, stdout w1 = stdout w ++ out
    | Raise e =>
        stdout w1 = stdout w
        ∧ (files w1 = files w
           ∨ (e = UnicodeEncodeError ∧ files w1 = <[filepath := OtherText]> (files w)))
    end.
Proof. apply save_config_effects. Qed.

End save_properties.

(** ** Saves that fail, and saving twice *)
Section save_failures.
Context `{Builtins}.

Ltac key_ne := let E := fresh in intros E; vm_compute in E; discriminate E.

(** X4: the core value and the secret are encoded before the file is
    opened.  A string without a UTF-8 encoding (a lone surrogate) anywhere in
    the core value, keys included, or in the secret, makes the save raise
    [UnicodeEncodeError] with no file touched and nothing printed. *)
Theorem save_config_unencodable filepath d secret w :
  NoDup (Dict.keys d) →
  encodable (JDict (core_of d)) = false
  ∨ (∃ s, ConfigEditor.given secret = Some s ∧ ¬ chars_ok s) →
  ConfigEditor.save_config filepath (JDict d) secret w = (Raise UnicodeEncodeError, w).
Proof.
  intros Hnd Hbad. rewrite save_config_outcome by done.
  destruct Hbad as [Hcore|(s & Hs & Hbad)].
  - by rewrite (encode_dump_None _ Hcore).
  - destruct (Utf8.encode _) as [cb|]; [|done].
    unfold signature_of. rewrite Hs.
    destruct (Utf8.encode s) as [kb|] eqn:Hkb; [|done].
    destruct Hbad. apply encode_is_Some. by rewrite Hkb.
Qed.

(** X5: the metadata and the update policy are only encoded while the file
    is being written.  When the core value and the secret are fine but the
    policy, or a field of the prior metadata that the save keeps, holds a
    string without a UTF-8 encoding, the save raises [UnicodeEncodeError]
    after the file was opened for writing: what the file held before is
    lost, and what it holds now is not a JSON document. *)
Theorem save_config_partial_write filepath d secret w :
  NoDup (Dict.keys d) → encodable (JDict (core_of d)) = true →
  (∀ s, ConfigEditor.given secret = Some s → chars_ok s) →
  encodable (JDict (policy_items d)) = false
  ∨ (∃ k v, Dict.get k (prior_metadata d) = Some v ∧ encodable v = false
            ∧ k ∉ [py "crc"; py "version"; py "encrypted"; py "hmac"; py "timestamp"]) →
  ConfigEditor.save_config filepath (JDict d) secret w
  = (Raise UnicodeEncodeError,
     World (<[filepath := OtherText]> (files w)) (clock w) (stdout w)).
Proof.
  intros Hnd Hcore Hsecret Hbad. rewrite save_config_outcome by done.
  destruct (encode_dump_Some _ Hcore) as [cb ->].
  assert (is_Some (signature_of secret cb)) as [signature ->].
  { unfold signature_of. destruct (ConfigEditor.given secret) as [s|]; [|by eexists].
    destruct (proj2 (encode_is_Some s) (Hsecret s eq_refl)) as [kb ->]. by eexists. }
  cbv zeta. rewrite encodable_attach.
  destruct Hbad as [->|(k & v & Hk & Hv & Hkeep)].
  { by rewrite andb_false_r. }
  destruct (encodable (JDict (record_of _ _ _ _))) eqn:Hm; [|done].
  destruct (record_of_lookup (prior_metadata d) (Hex.format_08x (Crc32.crc32 cb))
              signature (clock w)) as (_ & _ & Hd & _ & _ & _ & Hother).
  assert (Dict.get k (record_of (prior_metadata d) (Hex.format_08x (Crc32.crc32 cb))
                                signature (clock w)) = Some v) as Hget.
  { destruct (decide (k = py "description")) as [->|Hne].
    - by rewrite Hd, Hk.
    - rewrite Hother; [done|]. unfold record_keys.
      rewrite !not_elem_of_cons in Hkeep. destruct Hkeep as (?&?&?&?&?&?).
      repeat (apply not_elem_of_cons; split; [done|]). apply not_elem_of_nil. }
  apply (encodable_get _ _ _ Hm) in Hget. congruence.
Qed.

End save_failures.

(** ** Saving a document the tool wrote *)

Lemma set_same {V} k (v : V) d : Dict.get k d = Some v → Dict.set k v d = d.
Proof.
  induction d as [|[k' v'] d IH]; simpl; [done|].
  case_decide; [by intros [= ->]; subst|]. intros Hk. by rewrite IH.
Qed.

Lemma keys_policy_items d :
  Dict.keys (policy_items d) = [] ∨ Dict.keys (policy_items d) = [ConfigEditor.k_update_policy].
Proof. unfold policy_items. destruct (Dict.get _ d); auto. Qed.

Lemma NoDup_keys_attach m d :
  NoDup (Dict.keys d) → NoDup (Dict.keys (attach m (policy_items d) (core_of d))).
Proof.
  intros Hnd. unfold attach, Dict.keys. rewrite fmap_cons, fmap_app.
  fold (Dict.keys (policy_items d)). fold (Dict.keys (core_of d)).
  destruct (is_core_core_of d) as [Hm Hp].
  assert (NoDup (Dict.keys (core_of d))) as Hcore by (by do 2 apply NoDup_keys_remove).
  apply NoDup_cons. destruct (keys_policy_items d) as [->| ->]; simpl.
  - done.
  - split.
    + rewrite not_elem_of_cons. split; [|done]. intros E. vm_compute in E. discriminate E.
    + by apply NoDup_cons.
Qed.

Lemma policy_items_attach m d :
  policy_items (attach m (policy_items d) (core_of d)) = policy_items d.
Proof.
  destruct (is_core_core_of d) as [_ Hp]. apply get_None_keys in Hp.
  unfold policy_items at 1 3, attach. simpl.
  unfold policy_items. destruct (Dict.get _ d); simpl.
  - done.
  - by rewrite Hp.
Qed.

Lemma prior_metadata_attach m policy core :
  prior_metadata (attach m policy core) = m.
Proof. unfold prior_metadata. by rewrite get_metadata_attach. Qed.

Section save_again.
Context `{Builtins}.

Lemma normalised_record prior crc_hex signature timestamp :
  normalised (record_of prior crc_hex signature timestamp) crc_hex
  = record_of prior crc_hex signature timestamp.
Proof.
  destruct (record_of_lookup prior crc_hex signature timestamp)
    as (Hc & Hv & Hd & He & _).
  unfold normalised. generalize dependent (record_of prior crc_hex signature timestamp).
  intros m Hc Hv Hd He.
  rewrite (set_same _ _ _ Hc). rewrite Hv. simpl.
  rewrite (set_same _ _ _ Hv). rewrite Hd. simpl.
  rewrite (set_same _ _ _ Hd). rewrite He. simpl.
  by rewrite (set_same _ _ _ He).
Qed.

Lemma signed_record prior crc_hex signature timestamp :
  signed (record_of prior crc_hex signature timestamp) signature
  = record_of prior crc_hex signature timestamp.
Proof.
  destruct (record_of_lookup prior crc_hex signature timestamp)
    as (_ & _ & _ & _ & Hh & _).
  destruct signature as [h|]; simpl in *.
  - by apply set_same.
  - by apply remove_absent, get_None_keys.
Qed.

Lemma record_of_record prior crc_hex signature timestamp timestamp' :
  record_of (record_of prior crc_hex signature timestamp) crc_hex signature timestamp'
  = Dict.set (py "timestamp") (JStr timestamp')
             (record_of prior crc_hex signature timestamp).
Proof. unfold record_of at 1. by rewrite normalised_record, signed_record. Qed.

(** X6: saving a document that a save wrote changes nothing but the
    timestamp.  Read back and saved again with the same secret, the document
    keeps its checksum, its signature, every other field and the order of all
    its entries; saved at the same clock reading, the file is rewritten with
    exactly what it held. *)
Theorem save_config_again filepath d secret w w1 :
  NoDup (Dict.keys d) →
  ConfigEditor.save_config filepath (JDict d) secret w = (Return (), w1) →
  ∃ m rest,
    files w1 !! filepath
    = Some (JsonText (JDict ((ConfigEditor.k_metadata, JDict m) :: rest)))
    ∧ ∀ path w', chars_ok (clock w') →
        ∃ out,
          ConfigEditor.save_config path
            (JDict ((ConfigEditor.k_metadata, JDict m) :: rest)) secret w'
          = (Return (),
             printed (stored w' path
                        (JDict ((ConfigEditor.k_metadata,
                                 JDict (Dict.set (py "timestamp") (JStr (clock w')) m))
                                :: rest))) out)
          ∧ (clock w' = clock w → Dict.set (py "timestamp") (JStr (clock w')) m = m).
Proof.
  intros Hnd Hsave. pose proof Hsave as Hsave'.
  apply save_config_returns in Hsave as (cb & signature & Hcb & Hsig & ->); [|done].
  rewrite save_config_outcome, Hcb, Hsig in Hsave' by done. cbv zeta in Hsave'.
  destruct (encodable _) eqn:Henc in Hsave'; [|done]. clear Hsave'.
  rewrite encodable_attach in Henc.
  apply andb_true_iff in Henc as [Henc Hcore].
  apply andb_true_iff in Henc as [Hm Hpolicy].
  set (crc_hex := Hex.format_08x (Crc32.crc32 cb)) in *.
  set (m := record_of (prior_metadata d) crc_hex signature (clock w)) in *.
  exists m, (policy_items d ++ core_of d). rewrite files_saved. split; [done|].
  intros path w' Hclock.
  change ((ConfigEditor.k_metadata, JDict m) :: policy_items d ++ core_of d)
    with (attach m (policy_items d) (core_of d)).
  rewrite save_config_outcome by (by apply NoDup_keys_attach).
  rewrite (core_of_attach m d (core_of d) (is_core_core_of d)), Hcb, Hsig.
  cbv zeta. fold crc_hex.
  rewrite prior_metadata_attach, policy_items_attach.
  unfold m at 1 2. rewrite record_of_record. fold m.
  rewrite encodable_attach, Hpolicy, Hcore, !andb_true_r.
  assert (encodable (JDict (Dict.set (py "timestamp") (JStr (clock w')) m)) = true) as ->.
  { apply encodable_dict, Forall_dict_set; [by apply encodable_dict|].
    split; [apply chars_ok_py|by apply encodable_str]. }
  eexists. split; [done|]. intros ->. apply set_same.
  by destruct (record_of_lookup (prior_metadata d) crc_hex signature (clock w))
    as (_ & _ & _ & _ & _ & ? & _).
Qed.

End save_again.

(** ** More on [verify_config] *)
Section verify_properties.
Context `{Builtins}.

Lemma saved_document filepath d secret w w1 :
  NoDup (Dict.keys d) →
  ConfigEditor.save_config filepath (JDict d) secret w = (Return (), w1) →
  ∃ cb signature m,
    Utf8.encode (ConfigEditor.dump_compact_sorted (JDict (core_of d))) = Some cb
    ∧ signature_of secret cb = Some signature
    ∧ files w1 !! filepath = Some (JsonText (JDict (attach m (policy_items d) (core_of d))))
    ∧ core_of (attach m (policy_items d) (core_of d)) = core_of d
    ∧ m ≠ []
    ∧ stored_checksum m = JStr (Hex.format_08x (Crc32.crc32 cb))
    ∧ Dict.get (py "hmac") m = JStr <$> signature.
Proof.
  intros Hnd Hsave.
  apply save_config_returns in Hsave as (cb & signature & Hcb & Hsig & ->); [|done].
  exists cb, signature. eexists. split; [done|]. split; [done|].
  rewrite files_saved. split; [done|].
  split; [apply core_of_attach, is_core_core_of|].
  destruct (record_of_lookup (prior_metadata d) (Hex.format_08x (Crc32.crc32 cb))
              signature (clock w)) as (Hc & _ & _ & _ & Hh & _).
  split; [intros Hnil; by rewrite Hnil in Hc|].
  split; [|done]. apply stored_checksum_crc; [done|apply format_08x_nonempty].
Qed.

(** Verification of what was just saved, with the secret of the save. *)
Lemma verify_after_save filepath d secret w w1 :
  NoDup (Dict.keys d) →
  ConfigEditor.save_config filepath (JDict d) secret w = (Return (), w1) →
  ∃ out, ConfigEditor.verify_config filepath secret w1 = (Return true, printed w1 out).
Proof.
  intros Hnd Hsave.
  apply saved_document in Hsave
    as (cb & signature & m & Hcb & Hsig & Hfile & Hcore & Hm & Hcrc & Hh); [|done].
  rewrite <-Hcore in Hcb. unfold signature_of in Hsig.
  destruct (ConfigEditor.given secret) as [s|] eqn:Hs.
  - destruct (Utf8.encode s) as [kb|] eqn:Hkb; [|done]. injection Hsig as <-.
    cbn [fmap option_fmap option_map] in Hh.
    assert (Hex.hexlify (Hmac.hmac_sha256 kb cb) ≠ []) as Hne.
    { intros Hnil. apply (f_equal (@length _)) in Hnil.
      rewrite length_hexlify in Hnil. unfold Hmac.hmac_sha256 in Hnil.
      by rewrite (proj1 (sha256_spec _)) in Hnil. }
    assert (printable (stored_checksum m) = true) as Hstored
      by (rewrite Hcrc; apply writable_format_08x).
    pose proof (verify_config_both _ secret s _ _ m cb kb _ Hfile
                  (get_metadata_attach _ _ _) Hcb Hs Hkb Hh Hne Hstored
                  (writable_take 16 _ (writable_hexlify kb cb))) as Hverify.
    cbv zeta in Hverify. rewrite Hcrc in Hverify. rewrite Hverify. clear.
    generalize (Hex.hexlify (Hmac.hmac_sha256 kb cb)) as h.
    generalize (Hex.format_08x (Crc32.crc32 cb)) as c. intros c h.
    assert (eq_str (JStr c) c = true) as -> by (by apply bool_decide_eq_true_2).
    rewrite (bool_decide_eq_true_2 _ eq_refl). by eexists.
  - injection Hsig as <-.
    rewrite (verify_config_crc_only _ secret _ _ m cb Hfile (get_metadata_attach _ _ _)
               Hm Hcb (or_introl Hs)).
    rewrite Hcrc. cbn [printable]. rewrite writable_format_08x.
    generalize (Hex.format_08x (Crc32.crc32 cb)) as c. intros c.
    assert (eq_str (JStr c) c = true) as -> by (by apply bool_decide_eq_true_2).
    by eexists.
Qed.

(** X7: a document saved without a secret passes verification under every
    secret.  The stored record has no signature, so the HMAC check is not
    made and the secret given to the verification is never looked at, not
    even encoded. *)
Theorem verify_unsigned_any_secret filepath d secret secret' w w1 :
  NoDup (Dict.keys d) → ConfigEditor.given secret = None →
  ConfigEditor.save_config filepath (JDict d) secret w = (Return (), w1) →
  ∃ c,
    ConfigEditor.verify_config filepath secret' w1
    = (Return true, printed w1 [CrcLine true (JStr c) c]).
Proof.
  intros Hnd Hsecret Hsave.
  apply saved_document in Hsave
    as (cb & signature & m & Hcb & Hsig & Hfile & Hcore & Hm & Hcrc & Hh); [|done].
  unfold signature_of in Hsig. rewrite Hsecret in Hsig. injection Hsig as <-.
  exists (Hex.format_08x (Crc32.crc32 cb)).
  rewrite <-Hcore in Hcb.
  rewrite (verify_config_crc_only _ secret' _ _ m cb Hfile (get_metadata_attach _ _ _)
             Hm Hcb).
  - rewrite Hcrc. cbn [printable eq_str]. rewrite writable_format_08x.
    by rewrite bool_decide_eq_true_2.
  - right. unfold get_or_none. by rewrite Hh.
Qed.

(** X8: a document saved with one secret and verified with another passes
    exactly when the two secrets give the core value the same signature.
    The CRC check passes in either case, and the verification returns a
    boolean, never an exception. *)
Theorem verify_saved_other_secret filepath d s s' kb kb' w w1 :
  NoDup (Dict.keys d) → s ≠ [] → s' ≠ [] →
  Utf8.encode s = Some kb → Utf8.encode s' = Some kb' →
  ConfigEditor.save_config filepath (JDict d) (Some s) w = (Return (), w1) →
  ∃ cb c b,
    Utf8.encode (ConfigEditor.dump_compact_sorted (JDict (core_of d))) = Some cb
    ∧ ConfigEditor.verify_config filepath (Some s') w1
      = (Return b,
         printed w1 [CrcLine true (JStr c) c;
                     HmacLine b (JStr (take 16 (Hex.hexlify (Hmac.hmac_sha256 kb cb))))
                              (take 16 (Hex.hexlify (Hmac.hmac_sha256 kb' cb)))])
    ∧ (b = true
       ↔ Hex.hexlify (Hmac.hmac_sha256 kb cb) = Hex.hexlify (Hmac.hmac_sha256 kb' cb)).
Proof.
  intros Hnd Hs Hs' Hkb Hkb' Hsave.
  apply saved_document in Hsave
    as (cb & signature & m & Hcb & Hsig & Hfile & Hcore & Hm & Hcrc & Hh); [|done].
  unfold signature_of in Hsig. rewrite (given_Some_nonempty s Hs), Hkb in Hsig.
  injection Hsig as <-. cbn [fmap option_fmap option_map] in Hh.
  assert (Hex.hexlify (Hmac.hmac_sha256 kb cb) ≠ []) as Hne.
  { intros Hnil. apply (f_equal (@length _)) in Hnil.
    rewrite length_hexlify in Hnil. unfold Hmac.hmac_sha256 in Hnil.
    by rewrite (proj1 (sha256_spec _)) in Hnil. }
  pose proof Hcb as Hcb'. rewrite <-Hcore in Hcb'.
  assert (printable (stored_checksum m) = true) as Hstored
    by (rewrite Hcrc; apply writable_format_08x).
  pose proof (verify_config_both _ (Some s') s' _ _ m cb kb' _ Hfile
                (get_metadata_attach _ _ _) Hcb' (given_Some_nonempty s' Hs') Hkb' Hh Hne
                Hstored (writable_take 16 _ (writable_hexlify kb cb)))
    as Hverify.
  cbv zeta in Hverify. rewrite Hcrc in Hverify.
  exists cb, (Hex.format_08x (Crc32.crc32 cb)),
    (bool_decide (Hex.hexlify (Hmac.hmac_sha256 kb cb)
                  = Hex.hexlify (Hmac.hmac_sha256 kb' cb))).
  split; [done|]. split; [|apply bool_decide_eq_true].
  rewrite Hverify. clear.
  generalize (Hex.hexlify (Hmac.hmac_sha256 kb cb)) as h.
  generalize (Hex.hexlify (Hmac.hmac_sha256 kb' cb)) as h'.
  generalize (Hex.format_08x (Crc32.crc32 cb)) as c. intros c h' h.
  assert (eq_str (JStr c) c = true) as -> by (by apply bool_decide_eq_true_2).
  done.
Qed.

(** What a verification can change, whatever its outcome. *)
Lemma verify_config_effects filepath secret w r w1 :
  ConfigEditor.verify_config filepath secret w = (r, w1) →
  files w1 = files w ∧ clock w1 = clock w
  ∧ ∃ out, stdout w1 = stdout w ++ out ∧ (length out ≤ 2)%nat.
Proof.
  unfold ConfigEditor.verify_config, ConfigEditor.load_config, read_json,
    mbind, io_bind, lift, print, mret, io_ret.
  assert (∀ (x : result bool) out,
            (length out ≤ 2)%nat →
            (x, World (files w) (clock w) (stdout w ++ out)) = (r, w1) →
            files w1 = files w ∧ clock w1 = clock w
            ∧ ∃ out, stdout w1 = stdout w ++ out ∧ (length out ≤ 2)%nat) as Hend.
  { intros x out Hlen [= <- <-]. simpl. by eauto. }
  assert (∀ x : result bool,
            (x, w) = (r, w1) →
            files w1 = files w ∧ clock w1 = clock w
            ∧ ∃ out, stdout w1 = stdout w ++ out ∧ (length out ≤ 2)%nat) as Hsame.
  { intros x [= <- <-]. repeat split. exists []. rewrite app_nil_r.
    split; [done|simpl; lia]. }
  destruct (files w !! filepath) as [[data|]|]; [|by apply Hsame..].
  destruct (ConfigEditor.with_get data) as [data_items|e]; [|by apply Hsame].
  destruct (negb (truthy _)); [apply (Hend _ [_]); simpl; lia|].
  destruct (ConfigEditor.with_get _) as [metadata|e]; [|by apply Hsame].
  destruct (ConfigEditor.calculate_crc32 _) as [calc_crc|e]; [|by apply Hsame].
  destruct (line_ok (CrcLine _ _ _)); [|by apply Hsame].
  cbv beta iota.
  destruct (ConfigEditor.given secret) as [s|]; [|apply (Hend _ [_]); simpl; lia].
  destruct (truthy (get_or_none (py "hmac") metadata));
    [|apply (Hend _ [_]); simpl; lia].
  destruct (ConfigEditor.calculate_hmac_sha256 _ s) as [calc_hmac|e];
    [|apply (Hend _ [_]); simpl; lia].
  destruct (ConfigEditor.slice16 _) as [prefix|e];
    [|apply (Hend _ [_]); simpl; lia].
  destruct (line_ok (HmacLine _ _ _)); [|apply (Hend _ [_]); simpl; lia].
  simpl. rewrite <-app_assoc. apply (Hend _ [_; _]). simpl. lia.
Qed.

(** X9: verification only reads.  Whatever the file holds and however the
    call ends, no file and not the clock have changed, and at most two lines
    were added to the output. *)
Theorem verify_config_read_only filepath secret w r w1 :
  ConfigEditor.verify_config filepath secret w = (r, w1) →
  files w1 = files w ∧ clock w1 = clock w
  ∧ ∃ out, stdout w1 = stdout w ++ out ∧ (length out ≤ 2)%nat.
Proof. apply verify_config_effects. Qed.

(** X10: a stored [hmac] that is a number.  With a secret given, a document
    whose metadata stores a true boolean or a non-zero number under [hmac]
    is not reported as failing: the CRC line is printed and then the slice
    taken of the stored value for the HMAC line raises [TypeError].  A stored
    checksum that cannot be written (a lone surrogate) ends the run before
    that, with the [UnicodeEncodeError] of the CRC line's [print]. *)
Theorem verify_config_hmac_number filepath secret s w items m cb v :
  files w !! filepath = Some (JsonText (JDict items)) →
  Dict.get ConfigEditor.k_metadata items = Some (JDict m) →
  Utf8.encode (ConfigEditor.dump_compact_sorted (JDict (core_of items))) = Some cb →
  ConfigEditor.given secret = Some s → chars_ok s →
  Dict.get (py "hmac") m = Some v → truthy v = true →
  (∃ b, v = JBool b) ∨ (∃ z, v = JInt z) ∨ (∃ f, v = JFloat f) →
  ConfigEditor.verify_config filepath secret w
  = if printable (stored_checksum m)
    then (Raise TypeError,
          printed w [CrcLine (eq_str (stored_checksum m) (Hex.format_08x (Crc32.crc32 cb)))
                             (stored_checksum m) (Hex.format_08x (Crc32.crc32 cb))])
    else (Raise UnicodeEncodeError, w).
Proof.
  intros Hfile Hmeta Hcb Hs Hchars Hv Htruthy Hnum.
  apply encode_is_Some in Hchars as [kb Hkb].
  destruct (calculate_hmac_sha256_spec _ _ kb cb Hkb Hcb) as (Hcalc & _ & _).
  pose proof (calculate_crc32_encodable _ cb Hcb) as Hcrc.
  pose proof (writable_format_08x (Crc32.crc32 cb)) as Hcrc_ok.
  revert Hcalc Hcrc Hcrc_ok.
  generalize (Hex.hexlify (Hmac.hmac_sha256 kb cb)) as calc_hmac.
  generalize (Hex.format_08x (Crc32.crc32 cb)) as calc_crc.
  intros calc_crc calc_hmac Hcalc Hcrc Hcrc_ok.
  unfold ConfigEditor.verify_config, ConfigEditor.load_config, read_json,
    mbind, io_bind. rewrite Hfile. simpl. rewrite Hmeta. simpl.
  destruct m as [|kv m]; [done|]. simpl.
  fold (core_of items). rewrite Hcrc. simpl.
  fold (stored_checksum (kv :: m)).
  unfold print at 1. cbn [line_ok]. rewrite Hcrc_ok, andb_true_r.
  destruct (printable (stored_checksum (kv :: m))); [|done].
  rewrite Hs. unfold get_or_none. rewrite Hv. simpl. rewrite Htruthy, Hcalc. simpl.
  by destruct Hnum as [[b ->]|[[z ->]|[f ->]]].
Qed.

(** X11: the signature operation.  On a text and a secret that both have
    UTF-8 bytes it returns the HMAC-SHA256 of the text's bytes under the
    secret's bytes, as exactly 64 lowercase hexadecimal digits; if either has
    no UTF-8 encoding it raises [UnicodeEncodeError]. *)
Theorem calculate_hmac_sha256_hex64 data secret :
  match Utf8.encode secret, Utf8.encode data with
  | Some kb, Some mb =>
      ∃ h, ConfigEditor.calculate_hmac_sha256 data secret = Return h
           ∧ h = Hex.hexlify (Hmac.hmac_sha256 kb mb)
           ∧ length h = 64%nat
           ∧ Forall (λ c, Hex.is_lower_hex c = true) h
  | _, _ => ConfigEditor.calculate_hmac_sha256 data secret = Raise UnicodeEncodeError
  end.
Proof.
  destruct (Utf8.encode secret) as [kb|] eqn:Hkb.
  - destruct (Utf8.encode data) as [mb|] eqn:Hmb.
    + destruct (calculate_hmac_sha256_spec data secret kb mb Hkb Hmb) as (? & ? & ?).
      by eexists.
    + unfold ConfigEditor.calculate_hmac_sha256, str_encode. by rewrite Hkb, Hmb.
  - unfold ConfigEditor.calculate_hmac_sha256, str_encode. by rewrite Hkb.
Qed.

End verify_properties.

(** ** [str.split] *)

Lemma str_split_nonempty sep s : str_split sep s ≠ [].
Proof.
  destruct s as [|c r]; simpl; [done|].
  destruct (c =? sep); [done|]. by destruct (str_split sep r).
Qed.

Lemma join_cons_cons sep p q parts :
  join sep (p :: q :: parts) = p ++ sep ++ join sep (q :: parts).
Proof. done. Qed.

Lemma join_str_split sep s : join [sep] (str_split sep s) = s.
Proof.
  induction s as [|c r IH]; [done|]. simpl.
  destruct (N.eqb_spec c sep) as [->|Hne].
  - destruct (str_split sep r) as [|p ps] eqn:Hr; [by apply str_split_nonempty in Hr|].
    rewrite join_cons_cons. by rewrite IH.
  - destruct (str_split sep r) as [|p ps] eqn:Hr; [by apply str_split_nonempty in Hr|].
    rewrite <-IH. by destruct ps.
Qed.

Lemma str_split_no_sep sep s : Forall (λ p, sep ∉ p) (str_split sep s).
Proof.
  induction s as [|c r IH]; simpl.
  { repeat constructor. by inv 1. }
  destruct (N.eqb_spec c sep) as [->|Hne].
  - constructor; [by inv 1|done].
  - destruct (str_split sep r) as [|p ps].
    { repeat constructor. rewrite not_elem_of_cons. split; [congruence|by inv 1]. }
    apply Forall_cons in IH as [Hp Hps]. constructor; [|done].
    rewrite not_elem_of_cons. split; [congruence|done].
Qed.

Lemma str_split_plain sep s : sep ∉ s → str_split sep s = [s].
Proof.
  induction s as [|c r IH]; [done|]. rewrite not_elem_of_cons. intros [Hc Hr]. simpl.
  destruct (N.eqb_spec c sep) as [->|_]; [done|]. by rewrite IH.
Qed.

Lemma str_split_app sep p s :
  sep ∉ p → str_split sep (p ++ sep :: s) = p :: str_split sep s.
Proof.
  induction p as [|c p IH]; simpl.
  - intros _. by rewrite N.eqb_refl.
  - rewrite not_elem_of_cons. intros [Hc Hp].
    destruct (N.eqb_spec c sep) as [->|_]; [done|]. by rewrite IH.
Qed.

Lemma str_split_join sep parts :
  parts ≠ [] → Forall (λ p, sep ∉ p) parts → str_split sep (join [sep] parts) = parts.
Proof.
  induction parts as [|p parts IH]; [done|]. intros _ Hall.
  apply Forall_cons in Hall as [Hp Hparts].
  destruct parts as [|q parts]; [by apply str_split_plain|].
  rewrite join_cons_cons.
  change (p ++ [sep] ++ join [sep] (q :: parts)) with (p ++ sep :: join [sep] (q :: parts)).
  rewrite str_split_app by done. by rewrite IH.
Qed.

Lemma str_split_last sep s :
  str_split sep s = removelast (str_split sep s) ++ [List.last (str_split sep s) []].
Proof. apply app_removelast_last, str_split_nonempty. Qed.

(** [s.split(sep, 1)] when [sep in s] *)
Lemma str_split_once_elem sep s :
  sep ∈ s →
  ∃ key val, str_split_once sep s = [key; val] ∧ s = key ++ sep :: val ∧ sep ∉ key.
Proof.
  induction s as [|c r IH]; [by inv 1|]. intros Hin. simpl.
  destruct (N.eqb_spec c sep) as [->|Hne].
  - exists [], r. repeat split. by inv 1.
  - apply elem_of_cons in Hin as [?|Hin]; [congruence|].
    destruct (IH Hin) as (key & val & -> & -> & Hkey).
    exists (c :: key), val. repeat split. rewrite not_elem_of_cons. split; [congruence|done].
Qed.

(** ** [set_nested_key] and [get_nested_key] *)

Lemma keys_set {V} k (v : V) d :
  Dict.keys (Dict.set k v d)
  = if bool_decide (k ∈ Dict.keys d) then Dict.keys d else Dict.keys d ++ [k].
Proof.
  induction d as [|[k' v'] d IH]; simpl; [done|].
  destruct (decide (k' = k)) as [->|Hk].
  - rewrite bool_decide_eq_true_2; [done|]. apply elem_of_cons. by left.
  - simpl. rewrite IH. case_bool_decide as Hin.
    + rewrite bool_decide_eq_true_2; [done|]. apply elem_of_cons. by right.
    + rewrite bool_decide_eq_false_2; [done|]. rewrite not_elem_of_cons. split; congruence.
Qed.

Lemma NoDup_keys_set {V} k (v : V) d :
  NoDup (Dict.keys d) → NoDup (Dict.keys (Dict.set k v d)).
Proof.
  intros Hnd. rewrite keys_set. case_bool_decide as Hin; [done|].
  apply NoDup_app. split; [done|]. split; [|apply NoDup_singleton].
  intros x Hx Hx'. apply list_elem_of_singleton in Hx'. by subst.
Qed.

Lemma get_from_null keys : Tool.get_from keys JNull = JNull.
Proof. by destruct keys. Qed.

Lemma get_from_empty key keys : Tool.get_from (key :: keys) (JDict []) = JNull.
Proof. done. Qed.

Section nested.
Context `{Text}.

Lemma set_from_get_from keys final_key val current current' :
  Tool.set_from keys final_key val current = (Done (), current') →
  ∃ v, Tool.convert val = Done v ∧ Tool.get_from (keys ++ [final_key]) current' = v.
Proof.
  revert current current'. induction keys as [|key keys IH]; intros current current'; simpl.
  - destruct (Tool.convert val) as [v|e]; [|done].
    destruct current; try done. intros [= <-]. exists v. split; [done|].
    by rewrite get_set_eq.
  - destruct current as [| | | | | |d]; try done.
    destruct (Tool.set_from keys final_key val _) as [r child] eqn:Hrest.
    intros [= -> <-]. apply IH in Hrest as (v & Hv & Hget).
    exists v. split; [done|]. by rewrite get_set_eq.
Qed.

Lemma set_from_elsewhere keys final_key val current r current' other :
  Tool.set_from keys final_key val current = (r, current') →
  diverge (keys ++ [final_key]) other →
  Tool.get_from other current' = Tool.get_from other current.
Proof.
  revert current r current' other.
  induction keys as [|key keys IH]; intros current r current' other; simpl.
  - intros Hset (common & k1 & k2 & r1 & r2 & Hp & -> & Hne).
    destruct common as [|c common]; simplify_eq/=.
    2: { by destruct common. }
    destruct (Tool.convert val) as [v|e]; [|by simplify_eq].
    destruct current; simplify_eq/=; try done.
    by rewrite get_set_ne.
  - destruct current as [| | | | | |d]; try (by intros [= <- <-]).
    destruct (Tool.set_from keys final_key val _) as [r' child] eqn:Hrest.
    intros [= <- <-] (common & k1 & k2 & r1 & r2 & Hp & -> & Hne).
    destruct common as [|c common]; simpl in Hp; injection Hp as -> Hp; simpl.
    + rewrite get_set_ne by done. destruct (Dict.get k1 d); [done|].
      by rewrite get_set_ne.
    + rewrite get_set_eq.
      assert (diverge (keys ++ [final_key]) (common ++ k2 :: r2)) as Hdiv.
      { exists common, k1, k2, r1, r2. by rewrite Hp. }
      rewrite (IH _ _ _ _ Hrest Hdiv).
      destruct (Dict.get c d) as [v|] eqn:Hc; simpl.
      * by rewrite Hc.
      * rewrite get_set_eq. simpl. by destruct common.
Qed.

End nested.

Section nested_outcome.
Context `{Text}.

Lemma convert_Failed val e : Tool.convert val = Failed e → e = ValueError.
Proof.
  destruct val; try done. simpl.
  repeat (case_bool_decide; [done|]).
  destruct (str_isdigit s).
  - destruct (int_of_str s); [done|]. by intros [= <-].
  - by destruct (float_of_str s).
Qed.

(** From an empty mapping every mapping on the way is created. *)
Lemma set_from_fresh keys final_key val :
  match Tool.convert val with
  | Done _ => (Tool.set_from keys final_key val (JDict [])).1 = Done ()
  | Failed _ =>
      (Tool.set_from keys final_key val (JDict [])).1 = Failed ValueError
      ∧ Tool.get_from keys (Tool.set_from keys final_key val (JDict [])).2 = JDict []
  end.
Proof.
  induction keys as [|key keys IH]; simpl.
  - destruct (Tool.convert val) as [v|e] eqn:Hv; [done|].
    by apply convert_Failed in Hv as ->.
  - rewrite !decide_True by done. simpl.
    destruct (Tool.set_from keys final_key val (JDict [])) as [r child]. simpl in *.
    destruct (Tool.convert val); [done|]. destruct IH as [-> Hchild].
    rewrite decide_True by done. simpl. by rewrite decide_True.
Qed.

Lemma set_from_follow keys final_key val current :
  match follow keys current with
  | Blocked =>
      Tool.set_from keys final_key val current = (Failed (Exn TypeError), current)
  | Existing v =>
      match Tool.convert val with
      | Done _ =>
          if is_dict v then (Tool.set_from keys final_key val current).1 = Done ()
          else Tool.set_from keys final_key val current = (Failed (Exn TypeError), current)
      | Failed _ =>
          Tool.set_from keys final_key val current = (Failed ValueError, current)
      end
  | Created =>
      match Tool.convert val with
      | Done _ => (Tool.set_from keys final_key val current).1 = Done ()
      | Failed _ =>
          (Tool.set_from keys final_key val current).1 = Failed ValueError
          ∧ Tool.get_from keys (Tool.set_from keys final_key val current).2 = JDict []
      end
  end.
Proof.
  revert current. induction keys as [|key keys IH]; intros current.
  - simpl. destruct (Tool.convert val) as [v|e] eqn:Hv.
    + by destruct current.
    + by apply convert_Failed in Hv as ->.
  - destruct current as [| | | | | |d]; simpl; try done.
    destruct (Dict.get key d) as [v|] eqn:Hkey; simpl.
    + rewrite Hkey. simpl. specialize (IH v).
      destruct (Tool.set_from keys final_key val v) as [r child]. simpl in *.
      destruct (follow keys v) as [|x|].
      * injection IH as -> ->. by rewrite (set_same _ _ _ Hkey).
      * destruct (Tool.convert val).
        -- destruct (is_dict x); [done|].
           injection IH as -> ->. by rewrite (set_same _ _ _ Hkey).
        -- injection IH as -> ->. by rewrite (set_same _ _ _ Hkey).
      * destruct (Tool.convert val); [done|]. by rewrite get_set_eq.
    + rewrite get_set_eq. simpl.
      pose proof (set_from_fresh keys final_key val) as Hfresh.
      destruct (Tool.set_from keys final_key val (JDict [])) as [r child]. simpl in *.
      destruct (Tool.convert val); [done|]. by rewrite get_set_eq.
Qed.

Lemma ascii_lower_digit c : is_ascii_digit c = true → ascii_lower c = c.
Proof.
  unfold is_ascii_digit, ascii_lower. intros Hc.
  apply andb_true_iff in Hc as [_ Hc]. apply N.leb_le in Hc.
  destruct (N.leb_spec 65 c); [lia|done].
Qed.

Lemma is_ascii_digit_lt c : is_ascii_digit c = true → c < 128.
Proof.
  unfold is_ascii_digit. intros Hc.
  apply andb_true_iff in Hc as [_ Hc]. apply N.leb_le in Hc. lia.
Qed.

Lemma convert_digits s :
  s ≠ [] → forallb is_ascii_digit s = true → (length s ≤ 640)%nat →
  Tool.convert (JStr s) = Done (JInt (decimal s)).
Proof.
  intros Hs Hdigits Hlen.
  assert (Forall (λ c, c < 128) s) as Hascii.
  { apply Forall_forall. intros c Hc. apply is_ascii_digit_lt.
    rewrite forallb_forall in Hdigits. by apply Hdigits, list_elem_of_In. }
  simpl. rewrite (str_lower_ascii s Hascii), (str_isdigit_ascii s Hascii).
  rewrite (int_of_str_digits s Hs Hdigits Hlen), Hdigits.
  destruct s as [|c s]; [done|]. simpl in Hdigits.
  apply andb_true_iff in Hdigits as [Hc _].
  rewrite fmap_cons, (ascii_lower_digit c Hc).
  assert (c ≤ 57) as Hle.
  { unfold is_ascii_digit in Hc. apply andb_true_iff in Hc as [_ Hc]. by apply N.leb_le. }
  rewrite !bool_decide_eq_false_2; [done|..]; intros [= ? _]; lia.
Qed.

End nested_outcome.

(** ** [display_config] *)

Lemma elem_of_concat {A} (x : A) ls : x ∈ concat ls ↔ ∃ l, x ∈ l ∧ l ∈ ls.
Proof.
  induction ls as [|l ls IH]; simpl.
  - split; [by inv 1|]. intros (l & _ & Hl). by inv Hl.
  - rewrite elem_of_app, IH. split.
    + intros [Hx|(l' & Hx & Hl')]; [exists l|exists l']; split; try done.
      * apply elem_of_cons. by left.
      * apply elem_of_cons. by right.
    + intros (l' & Hx & Hl'). apply elem_of_cons in Hl' as [->|Hl']; [by left|].
      right. by exists l'.
Qed.

Lemma full_key_cons prefix key keys :
  full_key prefix (key :: keys) = full_key (full_key prefix [key]) keys.
Proof. done. Qed.

Lemma plain_keys_dict d :
  plain_keys (JDict d)
  ↔ NoDup (Dict.keys d) ∧ Forall (λ kv, kv.1 ≠ [] ∧ (46 ∉ kv.1) ∧ plain_keys kv.2) d.
Proof.
  simpl. apply and_iff_compat_l.
  induction d as [|x d IH]; simpl; [by split; [constructor|]|].
  by rewrite Forall_cons, IH.
Qed.

Lemma elem_of_get {V} k (v : V) d : NoDup (Dict.keys d) → (k, v) ∈ d → Dict.get k d = Some v.
Proof.
  induction d as [|[k' v'] d IH]; simpl; [by inv 2|].
  rewrite NoDup_cons. intros [Hk Hd] Hin.
  apply elem_of_cons in Hin as [[= <- <-]|Hin]; [by rewrite decide_True|].
  rewrite decide_False; [by apply IH|]. intros ->. apply Hk.
  apply list_elem_of_fmap. by exists (k, v).
Qed.

(** The prints one after the other: they stop before the first line that
    cannot be written. *)
Lemma print_all_spec lines r out :
  Tool.print_all lines = (r, out) →
  Forall (λ line, shown_ok line = true) out
  ∧ ((r = Done () ∧ out = lines)
     ∨ (r = Failed (Exn UnicodeEncodeError)
        ∧ ∃ bad rest, lines = out ++ bad :: rest ∧ shown_ok bad = false)).
Proof.
  revert r out. induction lines as [|l lines IH]; intros r out; simpl.
  { intros [= <- <-]. split; [constructor|]. by left. }
  destruct (shown_ok l) eqn:Hl.
  - destruct (Tool.print_all lines) as [r' out'].
    destruct (IH r' out' eq_refl) as (Hok & Hend).
    intros [= <- <-]. split; [by constructor|].
    destruct Hend as [[-> ->]|(-> & bad & rest & Hlines & Hbad)]; [by left|right].
    split; [done|]. exists bad, rest. by rewrite Hlines at 1.
  - intros [= <- <-]. split; [constructor|]. right.
    split; [done|]. by exists l, lines.
Qed.

Lemma print_all_elem_of lines r out line :
  Tool.print_all lines = (r, out) → line ∈ out → line ∈ lines.
Proof.
  intros Hp Hline. apply print_all_spec in Hp as [_ [[_ <-]|(_ & bad & rest & -> & _)]];
    [done|]. apply elem_of_app. by left.
Qed.

Section display.
Context `{Text}.

(** Which lines one item of a mapping gives. *)
Lemma display_item_lines val :
  ∀ prefix key line,
    line ∈ Tool.display_item prefix key val
    ↔ startswith_dunder key = false
      ∧ ∃ keys v, visible keys val v
                  ∧ line = (if is_dict v then Heading (full_key prefix (key :: keys))
                            else Entry (full_key prefix (key :: keys)) v).
Proof.
  induction val as [|b|z|f|s|l IH|d IH] using value_induction; intros prefix key line.
  1-6: simpl; destruct (startswith_dunder key);
       [split; [by inv 1|by intros [? _]]|];
       rewrite list_elem_of_singleton; split;
       [intros ->; split; [done|]; by eexists [], _
       |intros (_ & keys & v & Hv & ->); destruct keys as [|k keys];
        [by simpl in Hv; subst v|by destruct Hv as (_ & ? & ? & ? & _)]].
  simpl. destruct (startswith_dunder key).
  { split; [by inv 1|by intros [? _]]. }
  fold (full_key prefix [key]).
  rewrite elem_of_cons, elem_of_concat. split.
  - intros [->|(lines & Hline & Hlines)].
    + split; [done|]. by exists [], (JDict d).
    + apply list_elem_of_fmap in Hlines as ([k child] & -> & Hkv). simpl in Hline.
      rewrite Forall_forall in IH.
      apply (IH _ Hkv) in Hline as (Hk & keys & v & Hv & ->).
      split; [done|]. exists (k :: keys), v. split; [|done].
      simpl. split; [done|]. by exists d, child.
  - intros (_ & keys & v & Hv & ->). destruct keys as [|k keys].
    + simpl in Hv. subst v. by left.
    + right. destruct Hv as (Hk & d' & child & [= <-] & Hkv & Hv).
      exists (Tool.display_item (full_key prefix [key]) k child). split.
      * rewrite Forall_forall in IH. apply (IH _ Hkv). split; [done|]. by exists keys, v.
      * apply list_elem_of_fmap. by exists (k, child).
Qed.

Lemma display_config_lines d prefix line :
  line ∈ concat ((λ kv, Tool.display_item prefix kv.1 kv.2) <$> d)
  ↔ ∃ keys v, keys ≠ [] ∧ visible keys (JDict d) v
              ∧ line = (if is_dict v then Heading (full_key prefix keys)
                        else Entry (full_key prefix keys) v).
Proof.
  rewrite elem_of_concat. split.
  - intros (lines & Hline & Hlines).
    apply list_elem_of_fmap in Hlines as ([k child] & -> & Hkv). simpl in Hline.
    apply display_item_lines in Hline as (Hk & keys & v & Hv & ->).
    exists (k :: keys), v. split; [done|]. split; [|done].
    simpl. split; [done|]. by exists d, child.
  - intros (keys & v & Hkeys & Hv & ->). destruct keys as [|k keys]; [done|].
    destruct Hv as (Hk & d' & child & [= <-] & Hkv & Hv).
    exists (Tool.display_item prefix k child). split.
    + apply display_item_lines. split; [done|]. by exists keys, v.
    + apply list_elem_of_fmap. by exists (k, child).
Qed.

End display.

(** A path of plain keys, as text and back. *)
Lemma full_key_join prefix keys :
  prefix ≠ [] → full_key prefix keys = join (py ".") (prefix :: keys).
Proof.
  revert prefix. induction keys as [|key keys IH]; intros prefix Hprefix; [done|].
  rewrite full_key_cons. simpl. destruct prefix as [|c prefix]; [done|].
  rewrite IH by done. destruct keys; simpl; by rewrite <-?app_assoc.
Qed.

Lemma visible_get_from keys current v :
  plain_keys current → visible keys current v →
  Tool.get_from keys current = v ∧ Forall (λ key, key ≠ [] ∧ (46 ∉ key)) keys.
Proof.
  revert current. induction keys as [|key keys IH]; intros current Hplain; simpl.
  { by intros ->. }
  intros (_ & d & child & -> & Hkv & Hv).
  apply plain_keys_dict in Hplain as [Hnd Hall].
  rewrite (elem_of_get _ _ _ Hnd Hkv).
  rewrite Forall_forall in Hall. destruct (Hall _ Hkv) as (Hne & Hdot & Hchild).
  destruct (IH _ Hchild Hv) as [Hget Hkeys]. split; [done|]. by constructor.
Qed.

(** ** [main] *)

#[local] Arguments ConfigEditor.verify_config : simpl never.
#[local] Arguments ConfigEditor.save_config : simpl never.
#[local] Arguments Tool.set_all : simpl never.
#[local] Arguments Tool.display_config : simpl never.
#[local] Arguments Tool.set_nested_key : simpl never.

Section main_facts.
Context `{Text}.

Lemma set_from_dict keys final_key val current current' :
  Tool.set_from keys final_key val current = (Done (), current') →
  ∃ d d', current = JDict d ∧ current' = JDict d'
          ∧ (NoDup (Dict.keys d) → NoDup (Dict.keys d')).
Proof.
  destruct keys as [|key keys]; simpl.
  - destruct (Tool.convert val) as [v|e]; [|done]. destruct current; try done.
    intros [= <-]. eexists _, _. split; [done|]. split; [done|]. apply NoDup_keys_set.
  - destruct current as [| | | | | |d]; try done.
    destruct (Tool.set_from keys final_key val _) as [r child].
    intros [= -> <-]. eexists _, _. split; [done|]. split; [done|].
    intros Hnd. apply NoDup_keys_set. destruct (Dict.get key d); [done|].
    by apply NoDup_keys_set.
Qed.

Lemma set_nested_key_distinct data path val data' :
  Tool.set_nested_key data path val = (Done (), data') →
  distinct_keys data → distinct_keys data'.
Proof.
  unfold Tool.set_nested_key. intros Hset Hdata.
  apply set_from_dict in Hset as (d & d' & -> & -> & Hnd).
  intros ? [= <-]. by apply Hnd, Hdata.
Qed.

Lemma set_all_invalid assignments assignment data :
  assignment ∈ assignments → 61 ∉ assignment →
  ∀ data', (Tool.set_all assignments data).1 ≠ Tool.Completed data'.
Proof.
  intros Hin Hbad. revert data.
  induction assignments as [|x assignments IH]; intros data data'; [by inv Hin|].
  unfold Tool.set_all. fold Tool.set_all.
  case_bool_decide as Heq; cbn [negb]; [|by destruct (report_ok _)].
  apply elem_of_cons in Hin as [->|Hin]; [done|].
  destruct (str_split_once_elem 61 x Heq) as (key & v & -> & _).
  destruct (report_ok (Setting key v)); [|done].
  destruct (Tool.set_nested_key data key (JStr v)) as [[[]|e] data1]; [|done].
  specialize (IH Hin data1 data').
  by destruct (Tool.set_all assignments data1) as [r out].
Qed.

Lemma set_all_returned assignments data code out :
  Tool.set_all assignments data = (Tool.Returned code, out) → code = 1%Z.
Proof.
  revert data out. induction assignments as [|x assignments IH]; intros data out; [done|].
  unfold Tool.set_all. fold Tool.set_all.
  case_bool_decide as Heq; cbn [negb];
    [|by destruct (report_ok _); intros [= <-]].
  destruct (str_split_once_elem 61 x Heq) as (key & v & -> & _).
  destruct (report_ok (Setting key v)); [|done].
  destruct (Tool.set_nested_key data key (JStr v)) as [[[]|e] data1]; [|done].
  destruct (Tool.set_all assignments data1) as [r out1] eqn:Hrest.
  intros [= -> _]. by eapply IH.
Qed.

Lemma set_all_completed assignments data data' out :
  Tool.set_all assignments data = (Tool.Completed data', out) →
  distinct_keys data → distinct_keys data'.
Proof.
  revert data out. induction assignments as [|x assignments IH]; intros data out.
  { by intros [= <-]. }
  unfold Tool.set_all. fold Tool.set_all.
  case_bool_decide as Heq; cbn [negb]; [|by destruct (report_ok _)].
  destruct (str_split_once_elem 61 x Heq) as (key & v & -> & _).
  destruct (report_ok (Setting key v)); [|done].
  destruct (Tool.set_nested_key data key (JStr v)) as [[[]|e] data1] eqn:Hset; [|done].
  destruct (Tool.set_all assignments data1) as [r out1] eqn:Hrest.
  intros [= -> _] Hdata. eapply IH; [done|]. by eapply set_nested_key_distinct.
Qed.

End main_facts.

Section main_effects.
Context `{Text}.

(** Every run ends in the world it started in, in the world a verification
    left, or in the world a save left; a run that is to save and ends where
    it started has not returned 0. *)
Lemma main_cases environ a w (P : outcome Z * list report * world → Prop) :
  (∀ r out,
     (Tool.verify a = false → Tool.display a = false →
      Tool.sets a ≠ [] ∨ Tool.create a = true → r ≠ Done 0%Z) →
     P (r, out, w)) →
  (∀ r out w0,
     Tool.verify a = true →
     is_Some (files w !! Tool.config_file a) ∨ Tool.create a = true →
     ConfigEditor.verify_config (Tool.config_file a) (secret_in_use environ a) w = (r, w0) →
     P (match r with
        | Return ok => Done (if ok then 0 else 1)%Z
        | Raise e => Failed (Exn e)
        end, out, w0)) →
  (∀ data r out w0,
     Tool.verify a = false → Tool.display a = false →
     Tool.sets a ≠ [] ∨ Tool.create a = true →
     ((∀ doc, files w !! Tool.config_file a = Some (JsonText doc) → distinct_keys doc) →
      distinct_keys data) →
     (∃ initial more, Tool.set_all (Tool.sets a) initial = (Tool.Completed data, more)) →
     ConfigEditor.save_config (Tool.config_file a) data (secret_in_use environ a) w
     = (r, w0) →
     P (match r with
        | Return _ => Done 0%Z
        | Raise e => Failed (Exn e)
        end, out, w0)) →
  P (Tool.main environ a w).
Proof.
  intros Hsame Hverified Hsaved.
  assert (distinct_keys ConfigEditor.new_config) as Hnew.
  { intros d [= <-]. apply (bool_decide_unpack _). by vm_compute. }
  unfold Tool.main. cbv zeta. fold (secret_in_use environ a).
  destruct (files w !! Tool.config_file a) as [f|] eqn:Hfile.
  - rewrite bool_decide_eq_true_2 by (by eexists). simpl.
    unfold ConfigEditor.load_config, read_json. rewrite Hfile.
    destruct f as [data|]; [|by apply Hsame].
    destruct (Tool.verify a) eqn:Hverify.
    { destruct (ConfigEditor.verify_config _ _ w) as [[ok|e] w0] eqn:Hv;
        [refine (Hverified (Return ok) _ w0 _ _ _)|refine (Hverified (Raise e) _ w0 _ _ _)];
        eauto. }
    destruct (Tool.display a) eqn:Hdisplay.
    { destruct (Tool.display_config _ []) as [[] ?]; by apply Hsame. }
    destruct (Tool.set_all (Tool.sets a) data) as [[data0|code|e] more] eqn:Hsets.
    2: { apply set_all_returned in Hsets as ->. by apply Hsame. }
    2: { by apply Hsame. }
    destruct (Tool.sets a) as [|x sets] eqn:Hargs; simpl.
    + destruct (Tool.create a) eqn:Hcreate; simpl.
      * destruct (ConfigEditor.save_config _ data0 _ w) as [[u|e] w0] eqn:Hs;
          [refine (Hsaved data0 (Return u) _ w0 _ _ _ _ _ Hs)
          |refine (Hsaved data0 (Raise e) _ w0 _ _ _ _ _ Hs)]; eauto;
          intros Hdoc; by eapply set_all_completed, Hdoc.
      * destruct (Tool.display_config data0 []) as [[] ?]; apply Hsame;
          by intros _ _ [?|?].
    + destruct (ConfigEditor.save_config _ data0 _ w) as [[u|e] w0] eqn:Hs;
        [refine (Hsaved data0 (Return u) _ w0 _ _ _ _ _ Hs)
        |refine (Hsaved data0 (Raise e) _ w0 _ _ _ _ _ Hs)]; eauto;
        intros Hdoc; by eapply set_all_completed, Hdoc.
  - rewrite bool_decide_eq_false_2 by (by intros [? ?]). simpl.
    destruct (Tool.create a) eqn:Hcreate; simpl; [|by apply Hsame].
    destruct (Tool.verify a) eqn:Hverify.
    { destruct (ConfigEditor.verify_config _ _ w) as [[ok|e] w0] eqn:Hv;
        [refine (Hverified (Return ok) _ w0 _ _ _)|refine (Hverified (Raise e) _ w0 _ _ _)];
        eauto. }
    destruct (Tool.display a) eqn:Hdisplay.
    { by apply Hsame. }
    destruct (Tool.set_all (Tool.sets a) _) as [[data0|code|e] more] eqn:Hsets.
    2: { apply set_all_returned in Hsets as ->. by apply Hsame. }
    2: { by apply Hsame. }
    rewrite andb_false_r.
    destruct (ConfigEditor.save_config _ data0 _ w) as [[u|e] w0] eqn:Hs;
      [refine (Hsaved data0 (Return u) _ w0 _ _ _ _ _ Hs)
      |refine (Hsaved data0 (Raise e) _ w0 _ _ _ _ _ Hs)]; eauto;
      intros _; by eapply set_all_completed.
Qed.

(** Where a run can end, and what it has changed by then. *)
Lemma main_effects environ a w r out w1 :
  Tool.main environ a w = (r, out, w1) →
  clock w1 = clock w
  ∧ (∀ other, other ≠ Tool.config_file a → files w1 !! other = files w !! other)
  ∧ (files w1 = files w
     ∨ (Tool.verify a = false ∧ Tool.display a = false
        ∧ (Tool.sets a ≠ [] ∨ Tool.create a = true)
        ∧ ((r = Done 0%Z ∧ ∃ doc, files w1 !! Tool.config_file a = Some (JsonText doc))
           ∨ (r = Failed (Exn UnicodeEncodeError)
              ∧ files w1 = <[Tool.config_file a := OtherText]> (files w))))).
Proof.
  revert r out w1. apply (main_cases environ a w (λ x, ∀ r out w1, x = (r, out, w1) → _)).
  - intros r out _ ??? [= <- <- <-]. auto.
  - intros r0 out w0 _ _ Hv ??? [= <- <- <-].
    destruct (verify_config_effects _ _ _ _ _ Hv) as (Hf & Hc & _). rewrite Hf, Hc. auto.
  - intros data r0 out w0 Hverify Hdisplay Hsaving _ _ Hs ??? [= <- <- <-].
    destruct (save_config_effects _ _ _ _ _ _ Hs) as (Hc & Hother & Hr).
    split; [done|]. split; [done|].
    destruct r0 as [[]|e].
    + right. destruct Hr as [Hdoc _]. auto 10.
    + destruct Hr as [_ [Hf|[-> Hf]]]; [by left|]. right. auto 10.
Qed.

(** A run that saved: the document it wrote passes [--verify]. *)
Lemma main_saved environ a w out w1 :
  Tool.verify a = false → Tool.display a = false →
  Tool.sets a ≠ [] ∨ Tool.create a = true →
  (∀ doc, files w !! Tool.config_file a = Some (JsonText doc) → distinct_keys doc) →
  Tool.main environ a w = (Done 0%Z, out, w1) →
  ∃ d, NoDup (Dict.keys d)
       ∧ ConfigEditor.save_config (Tool.config_file a) (JDict d)
           (secret_in_use environ a) w = (Return (), w1).
Proof.
  intros Hverify Hdisplay Hsaving Hdoc. revert out w1.
  apply (main_cases environ a w (λ x, ∀ out w1, x = (Done 0%Z, out, w1) → _)).
  - intros r out Hr ?? [= -> _ _]. by destruct Hr.
  - intros r0 out w0 Hv. congruence.
  - intros data r0 out w0 _ _ _ Hdata _ Hs ?? [= Hr _ <-].
    destruct r0 as [[]|e]; [|done]. specialize (Hdata Hdoc).
    destruct data as [| | | | | |d];
      try (by rewrite save_config_unfold in Hs).
    exists d. split; [by apply Hdata|done].
Qed.

(** A run with an assignment that has no [=] never gets to save. *)
Lemma main_invalid environ a w assignment r out w1 :
  assignment ∈ Tool.sets a → 61 ∉ assignment →
  Tool.main environ a w = (r, out, w1) →
  files w1 = files w
  ∧ (Tool.verify a = false → Tool.display a = false → r ≠ Done 0%Z).
Proof.
  intros Hin Hbad. revert r out w1.
  apply (main_cases environ a w (λ x, ∀ r out w1, x = (r, out, w1) → _)).
  - intros r out Hr ??? [= <- <- <-]. split; [done|]. intros ??. apply Hr; try done.
    left. intros Hnil. rewrite Hnil in Hin. by inv Hin.
  - intros r0 out w0 Hverify _ Hv ??? [= <- <- <-].
    destruct (verify_config_effects _ _ _ _ _ Hv) as (Hf & _). split; [done|congruence].
  - intros data r0 out w0 _ _ _ _ (initial & more & Hsets) _.
    destruct (set_all_invalid _ _ initial Hin Hbad data). by rewrite Hsets.
Qed.

End main_effects.

(** ** Properties of the editing helpers and of [main] *)
Section tool_properties.
Context `{Text}.

(** X12: what [set_nested_key] stores, [get_nested_key] finds.  When the call
    returns, reading the same path from the changed document gives the value
    that the text given converts to. *)
Theorem set_nested_key_then_get data path val data' :
  Tool.set_nested_key data path val = (Done (), data') →
  ∃ v, Tool.convert val = Done v ∧ Tool.get_nested_key data' path = v.
Proof.
  unfold Tool.set_nested_key, Tool.get_nested_key. intros Hset.
  rewrite (str_split_last 46 path). by apply set_from_get_from in Hset.
Qed.

(** X13: [set_nested_key] changes nothing elsewhere.  However the call ends,
    a path whose keys part ways with the keys of the path assigned reads the
    same from the document afterwards as before. *)
Theorem set_nested_key_elsewhere data path val r data' other :
  Tool.set_nested_key data path val = (r, data') →
  diverge (str_split 46 path) (str_split 46 other) →
  Tool.get_nested_key data' other = Tool.get_nested_key data other.
Proof.
  unfold Tool.set_nested_key, Tool.get_nested_key. intros Hset Hdiv.
  rewrite (str_split_last 46 path) in Hdiv. by eapply set_from_elsewhere.
Qed.

(** X14: how [set_nested_key] ends.  Follow the keys before the last from the
    top of the document.  If one of them has to be looked up in something
    that is not a mapping, the call raises [TypeError] and leaves the
    document as it was.  If all of them are there, they lead to the object
    the last key is assigned in: a value that does not convert raises the
    [ValueError] of the conversion, and otherwise the call returns when that
    object is a mapping and raises [TypeError] when it is not; in both
    failures the document is as it was.  If one of them is missing, the
    mappings from there on are created: the call returns when the value
    converts, and otherwise raises the [ValueError] of the conversion with
    the new mappings left in the document, the last of them empty. *)
Theorem set_nested_key_outcome data path val r data' :
  Tool.set_nested_key data path val = (r, data') →
  match follow (removelast (str_split 46 path)) data with
  | Blocked => r = Failed (Exn TypeError) ∧ data' = data
  | Existing v =>
      match Tool.convert val with
      | Failed _ => r = Failed ValueError ∧ data' = data
      | Done _ =>
          if is_dict v then r = Done ()
          else r = Failed (Exn TypeError) ∧ data' = data
      end
  | Created =>
      match Tool.convert val with
      | Failed _ =>
          r = Failed ValueError
          ∧ Tool.get_from (removelast (str_split 46 path)) data' = JDict []
      | Done _ => r = Done ()
      end
  end.
Proof.
  unfold Tool.set_nested_key. intros Hset.
  pose proof (set_from_follow (removelast (str_split 46 path))
                (List.last (str_split 46 path) []) val data) as Hout.
  rewrite Hset in Hout.
  destruct (follow _ data) as [|v|]; [by injection Hout as -> ->| |].
  - destruct (Tool.convert val); [|by injection Hout as -> ->].
    destruct (is_dict v); [done|by injection Hout as -> ->].
  - by destruct (Tool.convert val).
Qed.

(** X15: the conversion of ASCII text.  [true], [false] and [null] in any
    mix of cases become the boolean or [None]; up to 640 decimal digits
    become the integer they spell; any other text, a number with a sign or a
    point included, is what [float] makes of it, and stays the text it is
    when [float] rejects it. *)
Theorem convert_ascii s :
  Forall (λ c, c < 128) s →
  (ascii_lower <$> s = py "true" → Tool.convert (JStr s) = Done (JBool true))
  ∧ (ascii_lower <$> s = py "false" → Tool.convert (JStr s) = Done (JBool false))
  ∧ (ascii_lower <$> s = py "null" → Tool.convert (JStr s) = Done JNull)
  ∧ (s ≠ [] → forallb is_ascii_digit s = true → (length s ≤ 640)%nat →
     Tool.convert (JStr s) = Done (JInt (decimal s)))
  ∧ (ascii_lower <$> s ∉ [py "true"; py "false"; py "null"] →
     s = [] ∨ forallb is_ascii_digit s = false →
     Tool.convert (JStr s)
     = Done (match float_of_str s with Some f => JFloat f | None => JStr s end)).
Proof.
  intros Hascii. repeat split.
  - intros Hs. simpl. by rewrite (str_lower_ascii s Hascii), Hs.
  - intros Hs. simpl. by rewrite (str_lower_ascii s Hascii), Hs.
  - intros Hs. simpl. by rewrite (str_lower_ascii s Hascii), Hs.
  - apply convert_digits.
  - rewrite !not_elem_of_cons. intros (Ht & Hf & Hn & _) Hdigits. simpl.
    rewrite (str_lower_ascii s Hascii), (str_isdigit_ascii s Hascii).
    rewrite !bool_decide_eq_false_2 by done.
    assert (negb (bool_decide (s = [])) && forallb is_ascii_digit s = false) as ->.
    { destruct Hdigits as [->| ->]; [done|apply andb_false_r]. }
    by destruct (float_of_str s).
Qed.

(** X16: the lines of [display_config] are the visible part of the document.
    There is a line for every path of keys that leads through mappings from
    the top, with no key on it starting with two underscores: the line of a
    mapping when the path ends at a mapping, the line of the value otherwise.
    The key on the line joins the keys of the path with dots, leaving out a
    leading empty key.  The call prints these lines and returns, unless one
    of them cannot be written, a key or a text value with a lone surrogate:
    then it prints the lines before the first such line and raises
    [UnicodeEncodeError]. *)
Theorem display_config_visible d :
  ∃ all r lines,
    (∀ line, line ∈ all
             ↔ ∃ keys v, keys ≠ [] ∧ visible keys (JDict d) v ∧ line = line_of keys v)
    ∧ Tool.display_config (JDict d) [] = (r, lines)
    ∧ Forall (λ line, shown_ok line = true) lines
    ∧ ((r = Done () ∧ lines = all)
       ∨ (r = Failed (Exn UnicodeEncodeError)
          ∧ ∃ bad rest, all = lines ++ bad :: rest ∧ shown_ok bad = false)).
Proof.
  exists (concat ((λ kv, Tool.display_item [] kv.1 kv.2) <$> d)).
  destruct (Tool.display_config (JDict d) []) as [r lines] eqn:Hshow.
  exists r, lines. split; [intros line; apply display_config_lines|].
  split; [done|]. by apply print_all_spec.
Qed.

(** X17: [display_config] and [get_nested_key] agree.  In a document whose
    keys are not empty and have no dot, the key printed on a value's line,
    given to [get_nested_key], finds the value printed, however the call
    that printed the line ended. *)
Theorem display_config_get data r lines shown_key v :
  plain_keys data →
  Tool.display_config data [] = (r, lines) →
  Entry shown_key v ∈ lines →
  Tool.get_nested_key data shown_key = v.
Proof.
  intros Hplain Hlines Hline. destruct data as [| | | | | |d];
    try (injection Hlines as _ <-; by inv Hline).
  apply (print_all_elem_of _ _ _ _ Hlines) in Hline.
  apply display_config_lines in Hline as (keys & v' & Hkeys & Hv & Hline).
  destruct (is_dict v'); [done|]. injection Hline as -> ->.
  destruct (visible_get_from _ _ _ Hplain Hv) as [Hget Hall].
  unfold Tool.get_nested_key.
  destruct keys as [|key keys]; [done|].
  pose proof Hall as Hall'. apply Forall_cons in Hall' as [[Hkey _] _].
  rewrite full_key_cons.
  replace (full_key [] [key]) with key by done.
  rewrite full_key_join by done. change (py ".") with [46].
  rewrite str_split_join; [done|done|].
  eapply Forall_impl; [exact Hall|]. by intros ? [_ ?].
Qed.

(** X18: the modes that only read.  With [--verify], with [--display], and
    with neither [--set] nor [--create], a run ends with every file as it
    was, whatever the other options are and however the run ends. *)
Theorem main_read_only environ a w r out w1 :
  Tool.verify a = true ∨ Tool.display a = true
  ∨ (Tool.sets a = [] ∧ Tool.create a = false) →
  Tool.main environ a w = (r, out, w1) →
  files w1 = files w ∧ clock w1 = clock w.
Proof.
  intros Hmode Hmain.
  destruct (main_effects _ _ _ _ _ _ Hmain) as (Hc & _ & [Hf|(Hv & Hd & Hs & _)]); [done|].
  destruct Hmode as [?|[?|[? ?]]]; [congruence..|]. destruct Hs; congruence.
Qed.

(** X19: what a run can change.  No run touches a file other than the
    configuration file.  A run that does not return 0 leaves that file as it
    was too, unless it ends with the [UnicodeEncodeError] of a write that had
    begun, which leaves text that is not JSON. *)
Theorem main_changes environ a w r out w1 :
  Tool.main environ a w = (r, out, w1) →
  (∀ other, other ≠ Tool.config_file a → files w1 !! other = files w !! other)
  ∧ (r ≠ Done 0%Z →
     files w1 = files w
     ∨ (r = Failed (Exn UnicodeEncodeError)
        ∧ files w1 = <[Tool.config_file a := OtherText]> (files w))).
Proof.
  intros Hmain.
  destruct (main_effects _ _ _ _ _ _ Hmain) as (_ & Hother & Hfiles).
  split; [done|]. intros Hr.
  destruct Hfiles as [?|(_ & _ & _ & [[? _]|?])]; auto. done.
Qed.

(** X20: one assignment without [=] stops everything.  If any [--set]
    argument has no [=], the run writes nothing, not even the assignments
    before it, and unless [--verify] or [--display] took over it does not
    return 0. *)
Theorem main_invalid_assignment environ a w assignment r out w1 :
  assignment ∈ Tool.sets a → 61 ∉ assignment →
  Tool.main environ a w = (r, out, w1) →
  files w1 = files w
  ∧ (Tool.verify a = false → Tool.display a = false → r ≠ Done 0%Z).
Proof. apply main_invalid. Qed.

(** X21: what a run saves, a run with [--verify] accepts.  After a run that
    was to save ([--set] or [--create], without [--verify] and [--display])
    and returned 0, the same command line with [--verify] added, in the same
    environment, returns 0. *)
Theorem main_saved_verifies environ a w out w1 :
  Tool.verify a = false → Tool.display a = false →
  Tool.sets a ≠ [] ∨ Tool.create a = true →
  (∀ doc, files w !! Tool.config_file a = Some (JsonText doc) → distinct_keys doc) →
  Tool.main environ a w = (Done 0%Z, out, w1) →
  ∃ out' lines,
    Tool.main environ (with_verify a) w1 = (Done 0%Z, out', printed w1 lines).
Proof.
  intros Hverify Hdisplay Hsaving Hdoc Hmain.
  destruct (main_saved _ _ _ _ _ Hverify Hdisplay Hsaving Hdoc Hmain) as (d & Hnd & Hsave).
  destruct (verify_after_save _ _ _ _ _ Hnd Hsave) as [lines Hv].
  apply save_config_returns in Hsave as (cb & signature & _ & _ & Hw1); [|done].
  assert (∃ doc, files w1 !! Tool.config_file a = Some (JsonText doc)) as [doc Hfile].
  { rewrite Hw1. eexists. apply files_saved. }
  unfold Tool.main. cbv zeta. fold (secret_in_use environ (with_verify a)).
  change (secret_in_use environ (with_verify a)) with (secret_in_use environ a).
  change (Tool.config_file (with_verify a)) with (Tool.config_file a).
  change (Tool.verify (with_verify a)) with true.
  change (Tool.create (with_verify a)) with (Tool.create a).
  rewrite bool_decide_eq_true_2 by (by eexists). simpl.
  unfold ConfigEditor.load_config, read_json. rewrite Hfile, Hv. by eexists _, _.
Qed.

(** X22: [--create] with [--verify] on a path that does not exist.  The run
    announces the new file, creates nothing, and ends with the
    [FileNotFoundError] of the verification. *)
Theorem main_create_verify_missing environ a w :
  files w !! Tool.config_file a = None →
  Tool.create a = true → Tool.verify a = true →
  ∃ out,
    Tool.main environ a w
    = (Failed (Exn FileNotFoundError), CreatingNew (Tool.config_file a) :: out, w).
Proof.
  intros Hfile Hcreate Hverify. unfold Tool.main. cbv zeta.
  rewrite bool_decide_eq_false_2 by (rewrite Hfile; by intros [? ?]).
  rewrite Hcreate, Hverify. simpl.
  unfold ConfigEditor.verify_config, ConfigEditor.load_config, read_json, mbind, io_bind.
  rewrite Hfile. by eexists.
Qed.

(** X23: [--create] on a path that does not exist.  With no other option,
    a secret (if any) and a clock reading that have UTF-8 bytes, the run
    returns 0 and leaves a document made of the metadata and the update
    policy of the scaffold.  The metadata has the CRC of the empty core value
    under [crc], next to the empty [crc32] of the scaffold, which is kept. *)
Theorem main_create_new environ a w :
  files w !! Tool.config_file a = None →
  Tool.create a = true → Tool.verify a = false → Tool.display a = false →
  Tool.sets a = [] →
  (∀ s, secret_in_use environ a = Some s → chars_ok s) → chars_ok (clock w) →
  ∃ m lines,
    Tool.main environ a w
    = (Done 0%Z, [CreatingNew (Tool.config_file a)],
       printed (stored w (Tool.config_file a)
                  (JDict [(ConfigEditor.k_metadata, JDict m);
                          (ConfigEditor.k_update_policy,
                           JDict [(py "default", JStr (py "on_change"))])])) lines)
    ∧ Dict.get (py "crc") m = Some (JStr (py "a3a6bf43"))
    ∧ Dict.get (py "crc32") m = Some (JStr []).
Proof.
  intros Hfile Hcreate Hverify Hdisplay Hsets Hsecret Hclock.
  destruct (save_config_spec (Tool.config_file a) ConfigEditor.new_config_items
              (secret_in_use environ a) w)
    as (m & cb & lines & Hcb & Hsave & Hcrc & _ & _ & Hcrc32); try done.
  { apply (bool_decide_unpack _). by vm_compute. }
  assert (cb = [123; 125]) as -> by (vm_compute in Hcb; congruence).
  exists m, lines. split; [|split].
  - unfold Tool.main. cbv zeta. fold (secret_in_use environ a).
    rewrite bool_decide_eq_false_2 by (rewrite Hfile; by intros [? ?]).
    rewrite Hcreate, Hverify, Hdisplay, Hsets.
    cbn [negb andb app].
    change (Tool.set_all [] ConfigEditor.new_config)
      with (Tool.Completed ConfigEditor.new_config, @nil report).
    cbv beta iota.
    change (JDict ConfigEditor.new_config_items) with ConfigEditor.new_config in Hsave.
    by rewrite Hsave.
  - rewrite Hcrc. by vm_compute.
  - rewrite Hcrc32. by vm_compute.
Qed.

End tool_properties.

(** ** The theorems at concrete inputs *)

Ltac by_evaluation := vm_compute; reflexivity.
Ltac nodup_by_evaluation := apply (bool_decide_unpack _); vm_compute; exact I.

Lemma canonical_sorted_compact_witness :
  NoDup (Dict.keys two_keys)
  ∧ wf spec_example_swapped
  ∧ structurally_equal spec_example_swapped spec_example = true
  ∧ ConfigEditor.dump_compact_sorted (H := example_builtins) spec_example_swapped
    = jtext "{'a':1,'b':{'y':'x','z':true}}"
  ∧ ∃ items, items ≡ₚ two_keys ∧ StronglySorted key_lt items ∧
      ConfigEditor.dump_compact_sorted (H := example_builtins) (JDict two_keys)
      = py "{" ++ join (py ",") (item_text (H := example_builtins) <$> items) ++ py "}".
Proof.
  assert (NoDup (Dict.keys two_keys)) as Hnd by nodup_by_evaluation.
  assert (wf spec_example_swapped) as Hwf by solve_wf.
  assert (structurally_equal spec_example_swapped spec_example = true) as Heq
    by by_evaluation.
  destruct (canonical_sorted_compact (H := example_builtins)) as (Hd & _ & _ & Hex).
  split; [exact Hnd|]. split; [exact Hwf|]. split; [exact Heq|].
  split; [exact (Hex spec_example_swapped Hwf Heq)|].
  exact (Hd _ Hnd).
Defined.

Lemma key_order_independence_witness :
  wf spec_example_swapped ∧ wf spec_example
  ∧ structurally_equal spec_example_swapped spec_example = true
  ∧ ConfigEditor.dump_compact_sorted (H := example_builtins) spec_example_swapped
    = ConfigEditor.dump_compact_sorted (H := example_builtins) spec_example.
Proof.
  assert (wf spec_example_swapped) as Hwf1 by solve_wf.
  assert (wf spec_example) as Hwf2 by solve_wf.
  assert (structurally_equal spec_example_swapped spec_example = true) as Heq
    by by_evaluation.
  split; [exact Hwf1|]. split; [exact Hwf2|]. split; [exact Heq|].
  exact (proj1 (key_order_independence (H := example_builtins)
                  spec_example_swapped spec_example Hwf1 Hwf2 Heq)).
Defined.

Lemma calculate_crc32_hex8_witness :
  Utf8.encode (py "123456789") = Some [49; 50; 51; 52; 53; 54; 55; 56; 57]
  ∧ ∃ h, ConfigEditor.calculate_crc32 (py "123456789") = Return h
         ∧ length h = 8%nat
         ∧ Forall (λ c, Hex.is_lower_hex c = true) h
         ∧ Hex.value h = Some (Crc32.crc32 [49; 50; 51; 52; 53; 54; 55; 56; 57]).
Proof.
  split; [reflexivity|].
  exact (proj1 calculate_crc32_hex8 (py "123456789") _ eq_refl).
Defined.

Lemma save_then_verify_witness :
  NoDup (Dict.keys ConfigEditor.new_config_items)
  ∧ encodable (JDict ConfigEditor.new_config_items) = true
  ∧ py "test123" ≠ []
  ∧ chars_ok (py "test123")
  ∧ chars_ok (clock example_world)
  ∧ ∃ w1 c h,
      ConfigEditor.save_config (H := example_builtins) "config.json"
        (JDict ConfigEditor.new_config_items) (Some (py "test123")) example_world
      = (Return (), w1)
      ∧ ConfigEditor.verify_config (H := example_builtins) "config.json"
          (Some (py "test123")) w1
        = (Return true,
           printed w1 [CrcLine true (JStr c) c;
                       HmacLine true (JStr (take 16 h)) (take 16 h)]).
Proof.
  assert (NoDup (Dict.keys ConfigEditor.new_config_items)) as H1 by nodup_by_evaluation.
  assert (encodable (JDict ConfigEditor.new_config_items) = true) as H2 by by_evaluation.
  assert (py "test123" ≠ []) as H3 by (intros E; vm_compute in E; discriminate E).
  pose proof (chars_ok_py "test123") as H4.
  pose proof (chars_ok_py "2026-01-01 00:00:00" : chars_ok (clock example_world)) as H5.
  repeat (split; [assumption|]).
  exact (save_then_verify (H := example_builtins) "config.json"
           ConfigEditor.new_config_items (py "test123") example_world H1 H2 H3 H4 H5).
Defined.

(** The leaf ["plumless"] replaced by ["buckeroo"]: both canonical strings
    have the CRC-32 614bc453, so the record computed for the first value
    verifies the second one, CRC check passed. *)
Lemma tamper_with_crc_collision_passes :
  leaf_mutated (JDict plumless_items) (JDict buckeroo_items)
  ∧ ConfigEditor.save_config (H := example_builtins) "config.json"
      (JDict plumless_items) None example_world
    = (Return (),
       printed (stored example_world "config.json"
                  (JDict (attach plumless_record [] plumless_items)))
               [SavedTo "config.json"; SavedCrc (py "614bc453")])
  ∧ ConfigEditor.verify_config (H := example_builtins) "config.json" None
      (stored example_world "config.json"
         (JDict (attach plumless_record [] buckeroo_items)))
    = (Return true,
       printed (stored example_world "config.json"
                  (JDict (attach plumless_record [] buckeroo_items)))
               [CrcLine true (JStr (py "614bc453")) (py "614bc453")]).
Proof.
  split; [|split; by_evaluation].
  apply (mutated_in_dict [] (py "a") (JStr (py "plumless")) (JStr (py "buckeroo")) []).
  apply mutated_here; [constructor..|]. intros E. vm_compute in E. discriminate E.
Qed.

Lemma tamper_detected_iff_crc_differs_witness :
  NoDup (Dict.keys plumless_items)
  ∧ encodable (JDict plumless_items) = true
  ∧ is_core plumless_items
  ∧ (∀ s, @None pystr = Some s → chars_ok s)
  ∧ chars_ok (clock example_world)
  ∧ is_core buckeroo_items
  ∧ encodable (JDict buckeroo_items) = true
  ∧ ∃ m cb cb' out,
      Utf8.encode (ConfigEditor.dump_compact_sorted (H := example_builtins)
                     (JDict plumless_items)) = Some cb
      ∧ Utf8.encode (ConfigEditor.dump_compact_sorted (H := example_builtins)
                       (JDict buckeroo_items)) = Some cb'
      ∧ ConfigEditor.save_config (H := example_builtins) "config.json"
          (JDict plumless_items) None example_world
        = (Return (),
           printed (stored example_world "config.json"
                      (JDict (attach m [] plumless_items))) out)
      ∧ ∀ w2,
          files w2 !! "config.json"
          = Some (JsonText (JDict (attach m [] buckeroo_items))) →
          ∃ r stored_crc calc_crc more,
            ConfigEditor.verify_config (H := example_builtins) "config.json" None w2
            = (r, printed w2
                    (CrcLine (bool_decide (Crc32.crc32 cb' = Crc32.crc32 cb))
                             stored_crc calc_crc :: more))
            ∧ (r = Return true → Crc32.crc32 cb' = Crc32.crc32 cb).
Proof.
  assert (NoDup (Dict.keys plumless_items)) as H1 by nodup_by_evaluation.
  assert (encodable (JDict plumless_items) = true) as H2 by by_evaluation.
  assert (is_core plumless_items) as H3.
  { split; apply (bool_decide_unpack _); vm_compute; exact I. }
  assert (∀ s, @None pystr = Some s → chars_ok s) as H4 by (intros s E; discriminate E).
  pose proof (chars_ok_py "2026-01-01 00:00:00" : chars_ok (clock example_world)) as H5.
  assert (is_core buckeroo_items) as H6.
  { split; apply (bool_decide_unpack _); vm_compute; exact I. }
  assert (encodable (JDict buckeroo_items) = true) as H7 by by_evaluation.
  repeat (split; [assumption|]).
  exact (tamper_detected_iff_crc_differs (H := example_builtins) "config.json"
           plumless_items buckeroo_items None None example_world
           H1 H2 H3 H4 H5 H6 H7).
Defined.

Lemma checksum_field_names_witness :
  (∃ r more,
     ConfigEditor.verify_config (H := example_builtins) "config.json" None crc32_only_world
     = (r, printed crc32_only_world
             (CrcLine (bool_decide (py "a3a6bf43" = Hex.format_08x (Crc32.crc32 [123; 125])))
                      (JStr (py "a3a6bf43")) (Hex.format_08x (Crc32.crc32 [123; 125]))
              :: more)))
  ∧ ∃ m cb out,
      Utf8.encode (ConfigEditor.dump_compact_sorted (H := example_builtins)
                     (JDict (core_of legacy_items))) = Some cb
      ∧ ConfigEditor.save_config (H := example_builtins) "config.json"
          (JDict legacy_items) None legacy_world
        = (Return (),
           printed (stored legacy_world "config.json"
                      (JDict (attach m (policy_items legacy_items) (core_of legacy_items))))
                   out)
      ∧ Dict.get (py "crc") m = Some (JStr (Hex.format_08x (Crc32.crc32 cb)))
      ∧ Dict.get (py "crc32") m = Dict.get (py "crc32") (prior_metadata legacy_items).
Proof.
  split.
  - refine (proj1 (checksum_field_names (H := example_builtins) "config.json"
                     crc32_only_world)
              None crc32_only_items [(py "crc32", JStr (py "a3a6bf43"))] [123; 125]
              (py "a3a6bf43") _ _ _ _).
    + by_evaluation.
    + by_evaluation.
    + by_evaluation.
    + right. split; by_evaluation.
  - refine (proj2 (checksum_field_names (H := example_builtins) "config.json" legacy_world)
              legacy_items None _ _ _ _).
    + nodup_by_evaluation.
    + by_evaluation.
    + intros s E. discriminate E.
    + exact (chars_ok_py "2026-01-01 00:00:00").
Defined.

Lemma hmac_skipped_witness :
  ConfigEditor.given (Some []) = None
  ∧ (∃ r out,
       ConfigEditor.verify_config (H := example_builtins) "config.json" (Some [])
         legacy_world
       = (r, printed legacy_world out)
       ∧ ((∃ e, r = Raise e ∧ out = [])
          ∨ (r = Return false ∧ out = [NoMetadataFound])
          ∨ (∃ b s c, r = Return b ∧ out = [CrcLine b s c])))
  ∧ ConfigEditor.verify_config (H := example_builtins) "config.json"
      (Some (py "test123")) legacy_world
    = (Return true,
       printed legacy_world [CrcLine true (JStr (py "a3a6bf43")) (py "a3a6bf43")]).
Proof.
  split; [reflexivity|]. split.
  - exact (proj1 (hmac_skipped (H := example_builtins) "config.json" (Some [])
                    legacy_world) eq_refl).
  - refine (eq_trans
              (proj2 (hmac_skipped (H := example_builtins) "config.json"
                        (Some (py "test123")) legacy_world)
                 legacy_items legacy_metadata [123; 125] _ _ _ _ _) _).
    + by_evaluation.
    + by_evaluation.
    + intros E. discriminate E.
    + by_evaluation.
    + right. by_evaluation.
    + by_evaluation.
Defined.

Lemma save_without_secret_witness :
  NoDup (Dict.keys ConfigEditor.new_config_items)
  ∧ encodable (JDict ConfigEditor.new_config_items) = true
  ∧ ConfigEditor.given None = None
  ∧ chars_ok (clock example_world)
  ∧ ∃ m cb out,
      Utf8.encode (ConfigEditor.dump_compact_sorted (H := example_builtins)
                     (JDict (core_of ConfigEditor.new_config_items))) = Some cb
      ∧ ConfigEditor.save_config (H := example_builtins) "config.json"
          (JDict ConfigEditor.new_config_items) None example_world
        = (Return (),
           printed (stored example_world "config.json"
                      (JDict (attach m (policy_items ConfigEditor.new_config_items)
                                (core_of ConfigEditor.new_config_items)))) out)
      ∧ Dict.get (py "crc") m = Some (JStr (Hex.format_08x (Crc32.crc32 cb)))
      ∧ Dict.get (py "hmac") m = None.
Proof.
  assert (NoDup (Dict.keys ConfigEditor.new_config_items)) as H1 by nodup_by_evaluation.
  assert (encodable (JDict ConfigEditor.new_config_items) = true) as H2 by by_evaluation.
  pose proof (chars_ok_py "2026-01-01 00:00:00" : chars_ok (clock example_world)) as H4.
  split; [assumption|]. split; [assumption|]. split; [reflexivity|]. split; [assumption|].
  exact (save_without_secret (H := example_builtins) "config.json"
           ConfigEditor.new_config_items None example_world H1 H2 eq_refl H4).
Defined.

Lemma verify_without_metadata_witness :
  files bare_world !! "config.json" = Some (JsonText (JDict bare_items))
  ∧ Dict.get ConfigEditor.k_metadata bare_items = None
  ∧ ConfigEditor.verify_config (H := example_builtins) "config.json"
      (Some (py "test123")) bare_world
    = (Return false, printed bare_world [NoMetadataFound]).
Proof.
  assert (files bare_world !! "config.json" = Some (JsonText (JDict bare_items)))
    as H1 by by_evaluation.
  assert (Dict.get ConfigEditor.k_metadata bare_items = None) as H2 by by_evaluation.
  split; [assumption|]. split; [assumption|].
  exact (verify_without_metadata (H := example_builtins) "config.json"
           (Some (py "test123")) bare_world _ H1 (or_introl H2)).
Defined.

Lemma empty_crc_falls_back_to_crc32_witness :
  files legacy_world !! "config.json" = Some (JsonText (JDict legacy_items))
  ∧ Dict.get ConfigEditor.k_metadata legacy_items = Some (JDict legacy_metadata)
  ∧ Utf8.encode (ConfigEditor.dump_compact_sorted (H := example_builtins)
                   (JDict (core_of legacy_items))) = Some [123; 125]
  ∧ Dict.get (py "crc") legacy_metadata = Some (JStr [])
  ∧ stored_checksum legacy_metadata = get_or_none (py "crc32") legacy_metadata
  ∧ eq_str (stored_checksum legacy_metadata) (Hex.format_08x (Crc32.crc32 [123; 125]))
    = true.
Proof.
  assert (files legacy_world !! "config.json" = Some (JsonText (JDict legacy_items)))
    as H1 by by_evaluation.
  assert (Dict.get ConfigEditor.k_metadata legacy_items = Some (JDict legacy_metadata))
    as H2 by by_evaluation.
  assert (Utf8.encode (ConfigEditor.dump_compact_sorted (H := example_builtins)
                         (JDict (core_of legacy_items))) = Some [123; 125])
    as H3 by by_evaluation.
  assert (Dict.get (py "crc") legacy_metadata = Some (JStr [])) as H4 by by_evaluation.
  repeat (split; [assumption|]).
  destruct (empty_crc_falls_back_to_crc32 (H := example_builtins) "config.json"
              None legacy_world legacy_items legacy_metadata [123; 125] H1 H2 H3 H4)
    as (Hstored & _ & Hok).
  split; [exact Hstored|]. apply Hok. by_evaluation.
Defined.

(** ** The further properties at concrete inputs *)

Ltac key_differs := let E := fresh in intros E; vm_compute in E; discriminate E.
Ltac in_list := apply list_elem_of_In; vm_compute; tauto.

Lemma save_config_layout_witness :
  NoDup (Dict.keys example_items)
  ∧ ConfigEditor.save_config (H := example_builtins) "config.json"
      (JDict example_items) None example_world = (Return (), saved_unsigned)
  ∧ ∃ m,
      files saved_unsigned !! "config.json"
      = Some (JsonText (JDict
          ((ConfigEditor.k_metadata, JDict m)
           :: filter (λ kv, kv.1 = ConfigEditor.k_update_policy) example_items
           ++ filter (λ kv, kv.1 ≠ ConfigEditor.k_metadata
                            ∧ kv.1 ≠ ConfigEditor.k_update_policy) example_items))).
Proof.
  assert (NoDup (Dict.keys example_items)) as H1 by nodup_by_evaluation.
  assert (ConfigEditor.save_config (H := example_builtins) "config.json"
            (JDict example_items) None example_world = (Return (), saved_unsigned))
    as H2 by by_evaluation.
  split; [exact H1|]. split; [exact H2|].
  exact (save_config_layout (H := example_builtins) "config.json" example_items None
           example_world saved_unsigned H1 H2).
Defined.

Lemma save_config_metadata_witness :
  NoDup (Dict.keys example_items)
  ∧ ConfigEditor.save_config (H := example_builtins) "config.json"
      (JDict example_items) None example_world = (Return (), saved_unsigned)
  ∧ ∃ doc m,
      files saved_unsigned !! "config.json" = Some (JsonText (JDict doc))
      ∧ Dict.get ConfigEditor.k_metadata doc = Some (JDict m)
      ∧ Dict.get (py "version") m
        = Some (JInt (match Dict.get (py "version") (prior_metadata example_items) with
                      | Some v => default 1%Z (ConfigEditor.py_int (H := example_builtins) v)
                      | None => 1%Z
                      end))
      ∧ Dict.get (py "description") m
        = Some (default (JStr []) (Dict.get (py "description") (prior_metadata example_items)))
      ∧ Dict.get (py "encrypted") m
        = Some (JBool (match Dict.get (py "encrypted") (prior_metadata example_items) with
                       | Some v => truthy v
                       | None => false
                       end))
      ∧ Dict.get (py "timestamp") m = Some (JStr (clock example_world))
      ∧ ∀ k, k ∉ record_keys → Dict.get k m = Dict.get k (prior_metadata example_items).
Proof.
  assert (NoDup (Dict.keys example_items)) as H1 by nodup_by_evaluation.
  assert (ConfigEditor.save_config (H := example_builtins) "config.json"
            (JDict example_items) None example_world = (Return (), saved_unsigned))
    as H2 by by_evaluation.
  split; [exact H1|]. split; [exact H2|].
  exact (save_config_metadata (H := example_builtins) "config.json" example_items None
           example_world saved_unsigned H1 H2).
Defined.

Lemma save_config_frame_witness :
  ConfigEditor.save_config (H := example_builtins) "config.json"
    (JDict example_items) None example_world = (Return (), saved_unsigned)
  ∧ clock saved_unsigned = clock example_world
  ∧ (∀ other, other ≠ "config.json" →
       files saved_unsigned !! other = files example_world !! other)
  ∧ (∃ doc, files saved_unsigned !! "config.json" = Some (JsonText doc))
  ∧ ∃ out, stdout saved_unsigned = stdout example_world ++ out.
Proof.
  assert (ConfigEditor.save_config (H := example_builtins) "config.json"
            (JDict example_items) None example_world = (Return (), saved_unsigned))
    as H1 by by_evaluation.
  split; [exact H1|].
  exact (save_config_frame (H := example_builtins) "config.json" (JDict example_items)
           None example_world (Return ()) saved_unsigned H1).
Defined.

Lemma save_config_unencodable_witness :
  NoDup (Dict.keys surrogate_items)
  ∧ (encodable (JDict (core_of surrogate_items)) = false
     ∨ ∃ s, ConfigEditor.given None = Some s ∧ ¬ chars_ok s)
  ∧ ConfigEditor.save_config (H := example_builtins) "config.json"
      (JDict surrogate_items) None example_world
    = (Raise UnicodeEncodeError, example_world).
Proof.
  assert (NoDup (Dict.keys surrogate_items)) as H1 by nodup_by_evaluation.
  assert (encodable (JDict (core_of surrogate_items)) = false
          ∨ ∃ s, ConfigEditor.given None = Some s ∧ ¬ chars_ok s) as H2
    by (left; by_evaluation).
  split; [exact H1|]. split; [exact H2|].
  exact (save_config_unencodable (H := example_builtins) "config.json" surrogate_items
           None example_world H1 H2).
Defined.

Lemma save_config_partial_write_witness :
  NoDup (Dict.keys surrogate_policy_items)
  ∧ encodable (JDict (core_of surrogate_policy_items)) = true
  ∧ (∀ s, ConfigEditor.given None = Some s → chars_ok s)
  ∧ (encodable (JDict (policy_items surrogate_policy_items)) = false
     ∨ ∃ k v, Dict.get k (prior_metadata surrogate_policy_items) = Some v
              ∧ encodable v = false
              ∧ k ∉ [py "crc"; py "version"; py "encrypted"; py "hmac"; py "timestamp"])
  ∧ ConfigEditor.save_config (H := example_builtins) "config.json"
      (JDict surrogate_policy_items) None example_world
    = (Raise UnicodeEncodeError,
       World (<["config.json" := OtherText]> (files example_world))
             (clock example_world) (stdout example_world)).
Proof.
  assert (NoDup (Dict.keys surrogate_policy_items)) as H1 by nodup_by_evaluation.
  assert (encodable (JDict (core_of surrogate_policy_items)) = true) as H2 by by_evaluation.
  assert (∀ s, ConfigEditor.given None = Some s → chars_ok s) as H3
    by (intros s E; vm_compute in E; discriminate E).
  assert (encodable (JDict (policy_items surrogate_policy_items)) = false
          ∨ ∃ k v, Dict.get k (prior_metadata surrogate_policy_items) = Some v
                   ∧ encodable v = false
                   ∧ k ∉ [py "crc"; py "version"; py "encrypted"; py "hmac"; py "timestamp"])
    as H4 by (left; by_evaluation).
  split; [exact H1|]. split; [exact H2|]. split; [exact H3|]. split; [exact H4|].
  exact (save_config_partial_write (H := example_builtins) "config.json"
           surrogate_policy_items None example_world H1 H2 H3 H4).
Defined.

Lemma save_config_again_witness :
  NoDup (Dict.keys example_items)
  ∧ ConfigEditor.save_config (H := example_builtins) "config.json"
      (JDict example_items) None example_world = (Return (), saved_unsigned)
  ∧ ∃ m rest,
      files saved_unsigned !! "config.json"
      = Some (JsonText (JDict ((ConfigEditor.k_metadata, JDict m) :: rest)))
      ∧ ∀ path w', chars_ok (clock w') →
          ∃ out,
            ConfigEditor.save_config (H := example_builtins) path
              (JDict ((ConfigEditor.k_metadata, JDict m) :: rest)) None w'
            = (Return (),
               printed (stored w' path
                          (JDict ((ConfigEditor.k_metadata,
                                   JDict (Dict.set (py "timestamp") (JStr (clock w')) m))
                                  :: rest))) out)
            ∧ (clock w' = clock example_world →
               Dict.set (py "timestamp") (JStr (clock w')) m = m).
Proof.
  assert (NoDup (Dict.keys example_items)) as H1 by nodup_by_evaluation.
  assert (ConfigEditor.save_config (H := example_builtins) "config.json"
            (JDict example_items) None example_world = (Return (), saved_unsigned))
    as H2 by by_evaluation.
  split; [exact H1|]. split; [exact H2|].
  exact (save_config_again (H := example_builtins) "config.json" example_items None
           example_world saved_unsigned H1 H2).
Defined.

Lemma verify_unsigned_any_secret_witness :
  NoDup (Dict.keys example_items)
  ∧ ConfigEditor.given None = None
  ∧ ConfigEditor.save_config (H := example_builtins) "config.json"
      (JDict example_items) None example_world = (Return (), saved_unsigned)
  ∧ ∃ c,
      ConfigEditor.verify_config (H := example_builtins) "config.json"
        (Some (py "test123")) saved_unsigned
      = (Return true, printed saved_unsigned [CrcLine true (JStr c) c]).
Proof.
  assert (NoDup (Dict.keys example_items)) as H1 by nodup_by_evaluation.
  assert (ConfigEditor.given None = None) as H2 by reflexivity.
  assert (ConfigEditor.save_config (H := example_builtins) "config.json"
            (JDict example_items) None example_world = (Return (), saved_unsigned))
    as H3 by by_evaluation.
  split; [exact H1|]. split; [exact H2|]. split; [exact H3|].
  exact (verify_unsigned_any_secret (H := example_builtins) "config.json" example_items
           None (Some (py "test123")) example_world saved_unsigned H1 H2 H3).
Defined.

Lemma verify_saved_other_secret_witness :
  NoDup (Dict.keys example_items)
  ∧ py "test123" ≠ [] ∧ py "wrong" ≠ []
  ∧ Utf8.encode (py "test123") = Some (py "test123")
  ∧ Utf8.encode (py "wrong") = Some (py "wrong")
  ∧ ConfigEditor.save_config (H := example_builtins) "config.json"
      (JDict example_items) (Some (py "test123")) example_world = (Return (), saved_signed)
  ∧ ∃ cb c b,
      Utf8.encode (ConfigEditor.dump_compact_sorted (H := example_builtins)
                     (JDict (core_of example_items))) = Some cb
      ∧ ConfigEditor.verify_config (H := example_builtins) "config.json"
          (Some (py "wrong")) saved_signed
        = (Return b,
           printed saved_signed
             [CrcLine true (JStr c) c;
              HmacLine b
                (JStr (take 16 (Hex.hexlify (Hmac.hmac_sha256 (py "test123") cb))))
                (take 16 (Hex.hexlify (Hmac.hmac_sha256 (py "wrong") cb)))])
      ∧ (b = true
         ↔ Hex.hexlify (Hmac.hmac_sha256 (py "test123") cb)
           = Hex.hexlify (Hmac.hmac_sha256 (py "wrong") cb)).
Proof.
  assert (NoDup (Dict.keys example_items)) as H1 by nodup_by_evaluation.
  assert (py "test123" ≠ []) as H2 by key_differs.
  assert (py "wrong" ≠ []) as H3 by key_differs.
  assert (Utf8.encode (py "test123") = Some (py "test123")) as H4 by by_evaluation.
  assert (Utf8.encode (py "wrong") = Some (py "wrong")) as H5 by by_evaluation.
  assert (ConfigEditor.save_config (H := example_builtins) "config.json"
            (JDict example_items) (Some (py "test123")) example_world
          = (Return (), saved_signed)) as H6 by by_evaluation.
  split; [exact H1|]. split; [exact H2|]. split; [exact H3|].
  split; [exact H4|]. split; [exact H5|]. split; [exact H6|].
  exact (verify_saved_other_secret (H := example_builtins) "config.json" example_items
           (py "test123") (py "wrong") (py "test123") (py "wrong")
           example_world saved_signed H1 H2 H3 H4 H5 H6).
Defined.

Lemma verify_config_read_only_witness :
  ConfigEditor.verify_config (H := example_builtins) "config.json" None saved_unsigned
  = (Return true, verified_unsigned)
  ∧ files verified_unsigned = files saved_unsigned
  ∧ clock verified_unsigned = clock saved_unsigned
  ∧ ∃ out, stdout verified_unsigned = stdout saved_unsigned ++ out ∧ (length out ≤ 2)%nat.
Proof.
  assert (ConfigEditor.verify_config (H := example_builtins) "config.json" None
            saved_unsigned = (Return true, verified_unsigned)) as H1 by by_evaluation.
  split; [exact H1|].
  exact (verify_config_read_only (H := example_builtins) "config.json" None saved_unsigned
           (Return true) verified_unsigned H1).
Defined.

Lemma verify_config_hmac_number_witness :
  files number_hmac_world !! "config.json"
  = Some (JsonText (JDict [(ConfigEditor.k_metadata, JDict number_hmac_metadata)]))
  ∧ Dict.get ConfigEditor.k_metadata [(ConfigEditor.k_metadata, JDict number_hmac_metadata)]
    = Some (JDict number_hmac_metadata)
  ∧ Utf8.encode (ConfigEditor.dump_compact_sorted (H := example_builtins)
                   (JDict (core_of [(ConfigEditor.k_metadata, JDict number_hmac_metadata)])))
    = Some (py "{}")
  ∧ ConfigEditor.given (Some (py "test123")) = Some (py "test123")
  ∧ chars_ok (py "test123")
  ∧ Dict.get (py "hmac") number_hmac_metadata = Some (JInt 5)
  ∧ truthy (JInt 5) = true
  ∧ ((∃ b, JInt 5 = JBool b) ∨ (∃ z, JInt 5 = JInt z) ∨ (∃ f, JInt 5 = JFloat f))
  ∧ ConfigEditor.verify_config (H := example_builtins) "config.json"
      (Some (py "test123")) number_hmac_world
    = (Raise TypeError,
       printed number_hmac_world
         [CrcLine true (JStr (py "a3a6bf43")) (py "a3a6bf43")]).
Proof.
  assert (files number_hmac_world !! "config.json"
          = Some (JsonText (JDict [(ConfigEditor.k_metadata, JDict number_hmac_metadata)])))
    as H1 by by_evaluation.
  assert (Dict.get ConfigEditor.k_metadata
            [(ConfigEditor.k_metadata, JDict number_hmac_metadata)]
          = Some (JDict number_hmac_metadata)) as H2 by by_evaluation.
  assert (Utf8.encode (ConfigEditor.dump_compact_sorted (H := example_builtins)
            (JDict (core_of [(ConfigEditor.k_metadata, JDict number_hmac_metadata)])))
          = Some (py "{}")) as H3 by by_evaluation.
  assert (ConfigEditor.given (Some (py "test123")) = Some (py "test123")) as H4
    by by_evaluation.
  pose proof (chars_ok_py "test123") as H5.
  assert (Dict.get (py "hmac") number_hmac_metadata = Some (JInt 5)) as H6 by by_evaluation.
  assert (truthy (JInt 5) = true) as H7 by reflexivity.
  assert ((∃ b, JInt 5 = JBool b) ∨ (∃ z, JInt 5 = JInt z) ∨ (∃ f, JInt 5 = JFloat f))
    as H8 by (right; left; by exists 5%Z).
  split; [exact H1|]. split; [exact H2|]. split; [exact H3|]. split; [exact H4|].
  split; [exact H5|]. split; [exact H6|]. split; [exact H7|]. split; [exact H8|].
  refine (eq_trans
            (verify_config_hmac_number (H := example_builtins) "config.json"
               (Some (py "test123")) (py "test123") number_hmac_world
               [(ConfigEditor.k_metadata, JDict number_hmac_metadata)] number_hmac_metadata
               (py "{}") (JInt 5) H1 H2 H3 H4 H5 H6 H7 H8) _).
  by_evaluation.
Defined.

(** A stored checksum that is a lone surrogate: the first line cannot be
    written, and the verification ends there. *)
Lemma verify_config_lone_surrogate :
  ConfigEditor.verify_config (H := example_builtins) "config.json" None
    surrogate_crc_world
  = (Raise UnicodeEncodeError, surrogate_crc_world).
Proof. by_evaluation. Qed.


Lemma set_nested_key_then_get_witness :
  Tool.set_nested_key (H0 := ascii_text) (JDict example_items)
    (py "memory.check_enable") (JStr (py "true")) = (Done (), example_edited)
  ∧ ∃ v, Tool.convert (H0 := ascii_text) (JStr (py "true")) = Done v
         ∧ Tool.get_nested_key example_edited (py "memory.check_enable") = v.
Proof.
  assert (Tool.set_nested_key (H0 := ascii_text) (JDict example_items)
            (py "memory.check_enable") (JStr (py "true")) = (Done (), example_edited))
    as H1 by by_evaluation.
  split; [exact H1|].
  exact (set_nested_key_then_get (H0 := ascii_text) (JDict example_items)
           (py "memory.check_enable") (JStr (py "true")) example_edited H1).
Defined.

Lemma set_nested_key_elsewhere_witness :
  Tool.set_nested_key (H0 := ascii_text) (JDict example_items)
    (py "memory.check_enable") (JStr (py "true")) = (Done (), example_edited)
  ∧ diverge (str_split 46 (py "memory.check_enable")) (str_split 46 (py "memory.align"))
  ∧ Tool.get_nested_key example_edited (py "memory.align")
    = Tool.get_nested_key (JDict example_items) (py "memory.align").
Proof.
  assert (Tool.set_nested_key (H0 := ascii_text) (JDict example_items)
            (py "memory.check_enable") (JStr (py "true")) = (Done (), example_edited))
    as H1 by by_evaluation.
  assert (diverge (str_split 46 (py "memory.check_enable"))
                  (str_split 46 (py "memory.align"))) as H2.
  { exists [py "memory"], (py "check_enable"), (py "align"), [], [].
    split; [by_evaluation|]. split; [by_evaluation|key_differs]. }
  split; [exact H1|]. split; [exact H2|].
  exact (set_nested_key_elsewhere (H0 := ascii_text) (JDict example_items)
           (py "memory.check_enable") (JStr (py "true")) (Done ()) example_edited
           (py "memory.align") H1 H2).
Defined.

Lemma set_nested_key_outcome_witness :
  Tool.set_nested_key (H0 := ascii_text) (JDict example_items)
    (py "log.level") (JStr (py "true")) = (Failed (Exn TypeError), JDict example_items)
  ∧ follow (removelast (str_split 46 (py "log.level"))) (JDict example_items)
    = Existing (JStr (py "debug"))
  ∧ Tool.convert (H0 := ascii_text) (JStr (py "true")) = Done (JBool true)
  ∧ @Failed unit (Exn TypeError) = Failed (Exn TypeError)
  ∧ JDict example_items = JDict example_items.
Proof.
  assert (Tool.set_nested_key (H0 := ascii_text) (JDict example_items)
            (py "log.level") (JStr (py "true"))
          = (Failed (Exn TypeError), JDict example_items)) as H1 by by_evaluation.
  split; [exact H1|]. split; [by_evaluation|]. split; [by_evaluation|].
  exact (set_nested_key_outcome (H0 := ascii_text) (JDict example_items)
           (py "log.level") (JStr (py "true")) (Failed (Exn TypeError))
           (JDict example_items) H1).
Defined.

(** The three other ways a call can fail: a value on the way that is not a
    mapping, a number too long for [int] at a place that is there, and the
    same at a place whose mappings are created first. *)
Lemma set_nested_key_failures :
  Tool.set_nested_key (H0 := limit_text) (JDict example_items)
    (py "log.level.name") (JStr (py "true"))
  = (Failed (Exn TypeError), JDict example_items)
  ∧ Tool.set_nested_key (H0 := limit_text) (JDict example_items)
      (py "memory.align") (JStr long_number)
    = (Failed ValueError, JDict example_items)
  ∧ Tool.set_nested_key (H0 := limit_text) (JDict [])
      (py "a.b") (JStr long_number)
    = (Failed ValueError, JDict [(py "a", JDict [])]).
Proof. repeat split; by_evaluation. Qed.

Lemma convert_ascii_witness :
  Forall (λ c, c < 128) (py "TRUE")
  ∧ ascii_lower <$> py "TRUE" = py "true"
  ∧ Tool.convert (H0 := ascii_text) (JStr (py "TRUE")) = Done (JBool true).
Proof.
  assert (Forall (λ c, c < 128) (py "TRUE")) as H1
    by (apply (bool_decide_unpack _); vm_compute; exact I).
  assert (ascii_lower <$> py "TRUE" = py "true") as H2 by by_evaluation.
  split; [exact H1|]. split; [exact H2|].
  exact (proj1 (convert_ascii (H0 := ascii_text) (py "TRUE") H1) H2).
Defined.

Lemma display_config_get_witness :
  plain_keys (JDict example_items)
  ∧ Tool.display_config (JDict example_items) [] = (Done (), example_lines)
  ∧ Entry (py "memory.align") (JInt 8) ∈ example_lines
  ∧ Tool.get_nested_key (JDict example_items) (py "memory.align") = JInt 8.
Proof.
  assert (plain_keys (JDict example_items)) as H1.
  { simpl. repeat split; try key_differs;
      apply (bool_decide_unpack _); vm_compute; exact I. }
  assert (Tool.display_config (JDict example_items) [] = (Done (), example_lines)) as H2
    by by_evaluation.
  assert (Entry (py "memory.align") (JInt 8) ∈ example_lines) as H3 by in_list.
  split; [exact H1|]. split; [exact H2|]. split; [exact H3|].
  exact (display_config_get (JDict example_items) (Done ()) example_lines
           (py "memory.align") (JInt 8) H1 H2 H3).
Defined.

Lemma main_read_only_witness :
  (Tool.verify verify_args = true ∨ Tool.display verify_args = true
   ∨ (Tool.sets verify_args = [] ∧ Tool.create verify_args = false))
  ∧ Tool.main (H0 := ascii_text) ∅ verify_args saved_unsigned
    = (Done 0%Z, [NoSecretWarning], verified_unsigned)
  ∧ files verified_unsigned = files saved_unsigned
  ∧ clock verified_unsigned = clock saved_unsigned.
Proof.
  assert (Tool.verify verify_args = true ∨ Tool.display verify_args = true
          ∨ (Tool.sets verify_args = [] ∧ Tool.create verify_args = false)) as H1
    by (left; reflexivity).
  assert (Tool.main (H0 := ascii_text) ∅ verify_args saved_unsigned
          = (Done 0%Z, [NoSecretWarning], verified_unsigned)) as H2 by by_evaluation.
  split; [exact H1|]. split; [exact H2|].
  exact (main_read_only (H0 := ascii_text) ∅ verify_args saved_unsigned (Done 0%Z)
           [NoSecretWarning] verified_unsigned H1 H2).
Defined.

Lemma main_changes_witness :
  Tool.main (H0 := ascii_text) ∅ invalid_args saved_unsigned
  = (Done 1%Z,
     [Setting (py "memory.align") (py "4"); InvalidAssignment (py "novalue");
      ExpectedFormat], saved_unsigned)
  ∧ (∀ other, other ≠ Tool.config_file invalid_args →
       files saved_unsigned !! other = files saved_unsigned !! other)
  ∧ (Done 1%Z ≠ Done 0%Z →
     files saved_unsigned = files saved_unsigned
     ∨ (Done 1%Z = Failed (Exn UnicodeEncodeError)
        ∧ files saved_unsigned
          = <[Tool.config_file invalid_args := OtherText]> (files saved_unsigned))).
Proof.
  assert (Tool.main (H0 := ascii_text) ∅ invalid_args saved_unsigned
          = (Done 1%Z,
             [Setting (py "memory.align") (py "4"); InvalidAssignment (py "novalue");
              ExpectedFormat], saved_unsigned)) as H1 by by_evaluation.
  split; [exact H1|].
  exact (main_changes (H0 := ascii_text) ∅ invalid_args saved_unsigned (Done 1%Z) _
           saved_unsigned H1).
Defined.

Lemma main_invalid_assignment_witness :
  py "novalue" ∈ Tool.sets invalid_args
  ∧ (61 ∉ py "novalue")
  ∧ Tool.main (H0 := ascii_text) ∅ invalid_args saved_unsigned
    = (Done 1%Z,
       [Setting (py "memory.align") (py "4"); InvalidAssignment (py "novalue");
        ExpectedFormat], saved_unsigned)
  ∧ files saved_unsigned = files saved_unsigned
  ∧ (Tool.verify invalid_args = false → Tool.display invalid_args = false →
     Done 1%Z ≠ Done 0%Z).
Proof.
  assert (py "novalue" ∈ Tool.sets invalid_args) as H1 by in_list.
  assert (61 ∉ py "novalue") as H2 by (apply (bool_decide_unpack _); vm_compute; exact I).
  assert (Tool.main (H0 := ascii_text) ∅ invalid_args saved_unsigned
          = (Done 1%Z,
             [Setting (py "memory.align") (py "4"); InvalidAssignment (py "novalue");
              ExpectedFormat], saved_unsigned)) as H3 by by_evaluation.
  split; [exact H1|]. split; [exact H2|]. split; [exact H3|].
  exact (main_invalid_assignment (H0 := ascii_text) ∅ invalid_args saved_unsigned
           (py "novalue") (Done 1%Z) _ saved_unsigned H1 H2 H3).
Defined.

Lemma main_saved_verifies_witness :
  Tool.verify set_args = false ∧ Tool.display set_args = false
  ∧ (Tool.sets set_args ≠ [] ∨ Tool.create set_args = true)
  ∧ (∀ doc, files saved_unsigned !! Tool.config_file set_args = Some (JsonText doc) →
       distinct_keys doc)
  ∧ Tool.main (H0 := ascii_text) ∅ set_args saved_unsigned
    = (Done 0%Z, [Setting (py "memory.check_enable") (py "true")], after_set)
  ∧ ∃ out' lines,
      Tool.main (H0 := ascii_text) ∅ (with_verify set_args) after_set
      = (Done 0%Z, out', printed after_set lines).
Proof.
  assert (Tool.verify set_args = false) as H1 by reflexivity.
  assert (Tool.display set_args = false) as H2 by reflexivity.
  assert (Tool.sets set_args ≠ [] ∨ Tool.create set_args = true) as H3
    by (left; key_differs).
  assert (∀ doc, files saved_unsigned !! Tool.config_file set_args = Some (JsonText doc) →
            distinct_keys doc) as H4.
  { intros doc E. vm_compute in E. injection E as <-.
    intros d [= <-]. apply (bool_decide_unpack _). vm_compute. exact I. }
  assert (Tool.main (H0 := ascii_text) ∅ set_args saved_unsigned
          = (Done 0%Z, [Setting (py "memory.check_enable") (py "true")], after_set))
    as H5 by by_evaluation.
  split; [exact H1|]. split; [exact H2|]. split; [exact H3|]. split; [exact H4|].
  split; [exact H5|].
  exact (main_saved_verifies (H0 := ascii_text) ∅ set_args saved_unsigned _ after_set
           H1 H2 H3 H4 H5).
Defined.

Lemma main_create_verify_missing_witness :
  files example_world !! Tool.config_file create_verify_args = None
  ∧ Tool.create create_verify_args = true
  ∧ Tool.verify create_verify_args = true
  ∧ ∃ out,
      Tool.main (H0 := ascii_text) ∅ create_verify_args example_world
      = (Failed (Exn FileNotFoundError),
         CreatingNew (Tool.config_file create_verify_args) :: out, example_world).
Proof.
  assert (files example_world !! Tool.config_file create_verify_args = None) as H1
    by by_evaluation.
  assert (Tool.create create_verify_args = true) as H2 by reflexivity.
  assert (Tool.verify create_verify_args = true) as H3 by reflexivity.
  split; [exact H1|]. split; [exact H2|]. split; [exact H3|].
  exact (main_create_verify_missing (H0 := ascii_text) ∅ create_verify_args example_world
           H1 H2 H3).
Defined.

Lemma main_create_new_witness :
  files example_world !! Tool.config_file create_args = None
  ∧ Tool.create create_args = true
  ∧ Tool.verify create_args = false
  ∧ Tool.display create_args = false
  ∧ Tool.sets create_args = []
  ∧ (∀ s, secret_in_use ∅ create_args = Some s → chars_ok s)
  ∧ chars_ok (clock example_world)
  ∧ ∃ m lines,
      Tool.main (H0 := ascii_text) ∅ create_args example_world
      = (Done 0%Z, [CreatingNew (Tool.config_file create_args)],
         printed (stored example_world (Tool.config_file create_args)
                    (JDict [(ConfigEditor.k_metadata, JDict m);
                            (ConfigEditor.k_update_policy,
                             JDict [(py "default", JStr (py "on_change"))])])) lines)
      ∧ Dict.get (py "crc") m = Some (JStr (py "a3a6bf43"))
      ∧ Dict.get (py "crc32") m = Some (JStr []).
Proof.
  assert (files example_world !! Tool.config_file create_args = None) as H1
    by by_evaluation.
  assert (Tool.create create_args = true) as H2 by reflexivity.
  assert (Tool.verify create_args = false) as H3 by reflexivity.
  assert (Tool.display create_args = false) as H4 by reflexivity.
  assert (Tool.sets create_args = []) as H5 by reflexivity.
  assert (∀ s, secret_in_use ∅ create_args = Some s → chars_ok s) as H6
    by (intros s E; vm_compute in E; discriminate E).
  pose proof (chars_ok_py "2026-01-01 00:00:00" : chars_ok (clock example_world)) as H7.
  split; [exact H1|]. split; [exact H2|]. split; [exact H3|]. split; [exact H4|].
  split; [exact H5|]. split; [exact H6|]. split; [exact H7|].
  exact (main_create_new (H0 := ascii_text) ∅ create_args example_world
           H1 H2 H3 H4 H5 H6 H7).
Defined.

Lemma calculate_hmac_sha256_hex64_witness :
  ∃ h, ConfigEditor.calculate_hmac_sha256 (py "{}") (py "test123") = Return h
       ∧ h = Hex.hexlify (Hmac.hmac_sha256 (py "test123") (py "{}"))
       ∧ length h = 64%nat
       ∧ Forall (λ c, Hex.is_lower_hex c = true) h.
Proof. exact (calculate_hmac_sha256_hex64 (py "{}") (py "test123")). Defined.

Lemma display_config_visible_witness :
  ∃ all r lines,
    (∀ line, line ∈ all
             ↔ ∃ keys v, keys ≠ [] ∧ visible keys (JDict surrogate_between) v
                         ∧ line = line_of keys v)
    ∧ Tool.display_config (JDict surrogate_between) [] = (r, lines)
    ∧ Forall (λ line, shown_ok line = true) lines
    ∧ ((r = Done () ∧ lines = all)
       ∨ (r = Failed (Exn UnicodeEncodeError)
          ∧ ∃ bad rest, all = lines ++ bad :: rest ∧ shown_ok bad = false)).
Proof. exact (display_config_visible surrogate_between). Defined.

(** A text value with a lone surrogate between two numbers: the line before
    it is printed, the line after it is not. *)
Lemma display_config_lone_surrogate :
  Tool.display_config (JDict surrogate_between) []
  = (Failed (Exn UnicodeEncodeError), [Entry (py "a") (JInt 1)])
  ∧ Tool.display_config (JDict example_items) [] = (Done (), example_lines).
Proof. split; by_evaluation. Qed.
